(** * superwheelie: configuration resolution, version matching and build
    orchestration

    A shallow embedding of [pkg/config] (the schema types, validate.go and
    parse.go) and of [pkg/builder] (builder.go, python.go), with the
    properties of the behaviour specification proved against it.

    Go strings are byte sequences and are modelled by [string] (a sequence
    of 8-bit [ascii] values); Go's [int] is modelled by [Z]; a Go
    [map[string]string] by [gmap string string]; a Go result pair
    [(T, error)] by a Rocq pair whose second component is [option error]. *)

From Stdlib Require Import ZArith Ascii String List Bool Lia.
From stdpp Require Import base option list strings gmap fin_maps.

Local Open Scope Z_scope.

(** ** Go standard library: package [strings] *)

Module Strings.

(** Byte value of a character. *)
Definition code (c : ascii) : N := N_of_ascii c.

(** [strings.HasPrefix(s, prefix)]. *)
Definition HasPrefix (s p : string) : bool := String.prefix p s.

(** [s[n:]]: the string without its first [n] bytes. *)
Fixpoint dropBytes (n : nat) (s : string) : string :=
  match n, s with
  | O, _ => s
  | S n', String _ t => dropBytes n' t
  | S _, EmptyString => EmptyString
  end.

(** [strings.Split(s, sep)] for a one-byte separator, the only kind the
    program uses ("." and ","): the result always has at least one
    element and [Split "" sep] is [[""]]. *)
Fixpoint Split (s : string) (sep : ascii) : list string :=
  match s with
  | EmptyString => [EmptyString]
  | String c t =>
      if Ascii.eqb c sep then EmptyString :: Split t sep
      else match Split t sep with
           | h :: r => String c h :: r
           | [] => [String c EmptyString]
           end
  end.

(** [strings.Join(elems, sep)]. *)
Definition Join (elems : list string) (sep : string) : string :=
  String.concat sep elems.

(** [strings.Contains(s, substr)]. *)
Fixpoint Contains (s substr : string) : bool :=
  HasPrefix s substr ||
  match s with
  | EmptyString => false
  | String _ t => Contains t substr
  end.

(** [strings.ReplaceAll(s, old, new)] for a one-byte [old]. *)
Fixpoint ReplaceAll (s : string) (old : ascii) (new : string) : string :=
  match s with
  | EmptyString => EmptyString
  | String c t =>
      if Ascii.eqb c old then new +:+ ReplaceAll t old new
      else String c (ReplaceAll t old new)
  end.

(** [strings.Replace(s, old, new, 1)] for a one-byte [old]: only the
    first occurrence is replaced. *)
Fixpoint ReplaceFirst (s : string) (old : ascii) (new : string) : string :=
  match s with
  | EmptyString => EmptyString
  | String c t =>
      if Ascii.eqb c old then new +:+ t
      else String c (ReplaceFirst t old new)
  end.

(** The ASCII white space of Go's [asciiSpace] table:
    tab, newline, vertical tab, form feed, carriage return, space. *)
Definition asciiSpace (c : ascii) : bool :=
  let n := code c in
  ((9 <=? n) && (n <=? 13) || (n =? 32))%N.

(** UTF-8 encodings of the non-ASCII runes for which [unicode.IsSpace]
    holds.  Two bytes: U+0085 (C2 85) and U+00A0 (C2 A0). *)
Definition space2 (c1 c2 : ascii) : bool :=
  ((code c1 =? 194) && ((code c2 =? 133) || (code c2 =? 160)))%N.

(** Three bytes: U+1680 (E1 9A 80), U+2000..U+200A (E2 80 80..8A),
    U+2028, U+2029 (E2 80 A8, A9), U+202F (E2 80 AF), U+205F (E2 81 9F)
    and U+3000 (E3 80 80). *)
Definition space3 (c1 c2 c3 : ascii) : bool :=
  let a := code c1 in let b := code c2 in let c := code c3 in
  ((a =? 225) && (b =? 154) && (c =? 128)
   || (a =? 226) && (b =? 128) &&
        ((128 <=? c) && (c <=? 138) || (c =? 168) || (c =? 169) || (c =? 175))
   || (a =? 226) && (b =? 129) && (c =? 159)
   || (a =? 227) && (b =? 128) && (c =? 128))%N.

(** [strings.TrimLeftFunc(s, unicode.IsSpace)] on the bytes of [s]:
    leading white-space runes are decoded front to back and dropped. *)
Fixpoint trimLeft (s : list ascii) : list ascii :=
  match s with
  | [] => []
  | c1 :: t1 =>
      if asciiSpace c1 then trimLeft t1
      else match t1 with
           | [] => s
           | c2 :: t2 =>
               if space2 c1 c2 then trimLeft t2
               else match t2 with
                    | [] => s
                    | c3 :: t3 =>
                        if space3 c1 c2 c3 then trimLeft t3 else s
                    end
           end
  end.

(** [strings.TrimRightFunc(s, unicode.IsSpace)], run on the reversed byte
    sequence: [utf8.DecodeLastRuneInString] finds a white-space rune at
    the end exactly when the string ends with its encoding, so the bytes
    are met last first. *)
Fixpoint trimLeftRev (s : list ascii) : list ascii :=
  match s with
  | [] => []
  | c1 :: t1 =>
      if asciiSpace c1 then trimLeftRev t1
      else match t1 with
           | [] => s
           | c2 :: t2 =>
               if space2 c2 c1 then trimLeftRev t2
               else match t2 with
                    | [] => s
                    | c3 :: t3 =>
                        if space3 c3 c2 c1 then trimLeftRev t3 else s
                    end
           end
  end.

Definition trimRight (s : list ascii) : list ascii :=
  rev (trimLeftRev (rev s)).

(** [strings.TrimSpace(s)]. *)
Definition TrimSpace (s : string) : string :=
  string_of_list_ascii (trimRight (trimLeft (list_ascii_of_string s))).

End Strings.

(** ** Go standard library: [fmt.Sscanf(s, "%d", &v)] *)

Module Fmt.
Import Strings.

(** The white space of package [fmt] ([isSpace]) other than newline:
    U+0009..U+000D, U+0020, U+0085, U+00A0, U+1680, U+2000..U+200A,
    U+2028, U+2029, U+202F, U+205F, U+3000: the code points of
    [unicode.IsSpace], by the length of their UTF-8 encoding. *)
Definition isSpace1 (c : ascii) : bool := asciiSpace c.
Definition isSpace2 (c1 c2 : ascii) : bool := space2 c1 c2.
Definition isSpace3 (c1 c2 c3 : ascii) : bool := space3 c1 c2 c3.

(** [ss.SkipSpace] in the mode of [Sscanf] (newlines are no space there):
    [None] is the scanner's "unexpected newline" failure. *)
Fixpoint SkipSpace (s : list ascii) : option (list ascii) :=
  match s with
  | [] => Some []
  | c1 :: t1 =>
      if (code c1 =? 10)%N then None
      else if isSpace1 c1 then SkipSpace t1
      else match t1 with
           | [] => Some s
           | c2 :: t2 =>
               if isSpace2 c1 c2 then SkipSpace t2
               else match t2 with
                    | [] => Some s
                    | c3 :: t3 =>
                        if isSpace3 c1 c2 c3 then SkipSpace t3 else Some s
                    end
           end
  end.

Definition isDigit (c : ascii) : bool :=
  ((48 <=? code c) && (code c <=? 57))%N.

(** The characters [scanNumber] accepts for the verb [%d]:
    [decimalDigits = "0123456789"] (the underscore is accepted for the
    verb [%v] only). *)
Definition isDecimalDigitChar (c : ascii) : bool := isDigit c.

(** The token of [scanNumber]: the longest run of accepted characters. *)
Fixpoint scanNumber (s : list ascii) : list ascii :=
  match s with
  | c :: t => if isDecimalDigitChar c then c :: scanNumber t else []
  | [] => []
  end.

(** Digits of [strconv.ParseUint(tok, 10, 64)], most significant first;
    any other byte is a syntax error. *)
Fixpoint parseDigits (acc : Z) (tok : list ascii) : option Z :=
  match tok with
  | [] => Some acc
  | c :: t =>
      if isDigit c then parseDigits (10 * acc + (Z.of_N (code c) - 48)) t
      else None
  end.

(** [strconv.ParseInt(tok, 10, 64)] for a token of [scanInt]: an optional
    sign, at least one digit, and a value that fits an [int64]. *)
Definition ParseInt (neg : bool) (tok : list ascii) : option Z :=
  match tok with
  | [] => None
  | _ =>
      match parseDigits 0 tok with
      | None => None
      | Some n =>
          if neg then (if n <=? 2 ^ 63 then Some (- n) else None)
          else (if n <? 2 ^ 63 then Some n else None)
      end
  end.

(** [ss.scanInt('d', 64)]: skip space, accept one sign, scan the number
    token and convert it.  [None] stands for every failure of the scan
    (newline, end of input, no digit, syntax or range error). *)
Definition scanInt (s : list ascii) : option Z :=
  match SkipSpace s with
  | None => None
  | Some [] => None
  | Some ((c :: t) as s') =>
      let neg := (code c =? 45)%N in
      let signed := neg || (code c =? 43)%N in
      let rest := if signed then t else s' in
      ParseInt neg (scanNumber rest)
  end.

(** [var v int; fmt.Sscanf(s, "%d", &v)] with the error ignored, as
    [compareVersions] calls it: [v] keeps its zero value when the scan
    fails.  Input after the number is left unread and is no error. *)
Definition Sscanf_d (s : string) : Z :=
  match scanInt (list_ascii_of_string s) with
  | Some v => v
  | None => 0
  end.

End Fmt.

(** ** Go standard library: package [regexp]

    A regular expression over bytes, matched against the whole input (the
    pattern of the program is anchored by [^] and [$], and without the
    multi-line flag [$] is the end of the text).  Matching is by Brzozowski
    derivatives.  Every class of the program's pattern is a set of ASCII
    characters, so a byte above 127 matches none of them, as the rune it
    belongs to matches none in Go. *)

Module Regexp.
Import Strings.

Inductive regex : Type :=
| Void : regex
| Eps : regex
| Class : (ascii -> bool) -> regex
| Seq : regex -> regex -> regex
| Alt : regex -> regex -> regex
| Star : regex -> regex.

(** [r+] *)
Definition Plus (r : regex) : regex := Seq r (Star r).

Fixpoint nullable (r : regex) : bool :=
  match r with
  | Void => false
  | Eps => true
  | Class _ => false
  | Seq a b => nullable a && nullable b
  | Alt a b => nullable a || nullable b
  | Star _ => true
  end.

Fixpoint deriv (c : ascii) (r : regex) : regex :=
  match r with
  | Void => Void
  | Eps => Void
  | Class f => if f c then Eps else Void
  | Seq a b =>
      if nullable a then Alt (Seq (deriv c a) b) (deriv c b)
      else Seq (deriv c a) b
  | Alt a b => Alt (deriv c a) (deriv c b)
  | Star a => Seq (deriv c a) (Star a)
  end.

Fixpoint matchBytes (r : regex) (s : string) : bool :=
  match s with
  | EmptyString => nullable r
  | String c t => matchBytes (deriv c r) t
  end.

(** [re.MatchString(s)] for an anchored pattern. *)
Definition MatchString (r : regex) (s : string) : bool := matchBytes r s.

(** Perl classes of RE2: [\d] is [0-9], [\w] is [0-9A-Za-z_] and [\s] is
    tab, newline, form feed, carriage return and space. *)
Definition class_d (c : ascii) : bool := Fmt.isDigit c.
Definition class_w (c : ascii) : bool :=
  let n := code c in
  (Fmt.isDigit c || (65 <=? n) && (n <=? 90) || (97 <=? n) && (n <=? 122)
   || (n =? 95))%N.
Definition class_s (c : ascii) : bool :=
  let n := code c in
  ((n =? 9) || (n =? 10) || (n =? 12) || (n =? 13) || (n =? 32))%N.

(** A class that lists characters: [oneOf "<>=!~"] is [[<>=!~]]. *)
Fixpoint oneOf (set : string) (c : ascii) : bool :=
  match set with
  | EmptyString => false
  | String d t => Ascii.eqb c d || oneOf t c
  end.

End Regexp.

(** ** Package [config]: schema types and validate.go *)

Module Config.
Import Strings.

(** Error values.  The program builds them with [fmt.Errorf]; the model
    keeps the format's arguments instead of the rendered text. *)
Inductive error : Type :=
| ErrInvalidSpecifier (spec : string)   (* "invalid specifier: %q" *)
| ErrUnsupportedOperator (op : string). (* "unsupported operator: %q" *)

Record Version := { Tag : string; VersionOf : string }.

Record Override := {
  Match : string;
  OSystemDeps : list string;
  OEnv : gmap string string;
  OPatches : list string;
  OScript : string
}.

Record Config := {
  Repo : string;
  VersionCount : Z;
  Versions : list Version;
  SystemDeps : list string;
  Env : gmap string string;
  Patches : list string;
  Script : string;
  Overrides : list Override
}.

Record Skip := {
  SkipVersion : string;
  SkipPython : list string;
  Reason : string;
  Log : string;
  Attempts : Z
}.

Record Skips := { SkipList : list Skip }.

(** *** validate.go *)

(** [pep440Pattern]:
    [^([<>=!~]+\s*[\d\w.*]+)(,\s*[<>=!~]+\s*[\d\w.*]+)*$] *)
Definition opChars : Regexp.regex := Regexp.Class (Regexp.oneOf "<>=!~").
Definition verChars : Regexp.regex :=
  Regexp.Class (fun c => Regexp.class_d c || Regexp.class_w c
                         || Regexp.oneOf ".*" c).
Definition spaces : Regexp.regex := Regexp.Star (Regexp.Class Regexp.class_s).
Definition clausePattern : Regexp.regex :=
  Regexp.Seq (Regexp.Plus opChars) (Regexp.Seq spaces (Regexp.Plus verChars)).
Definition pep440Pattern : Regexp.regex :=
  Regexp.Seq clausePattern
    (Regexp.Star (Regexp.Seq (Regexp.Class (Regexp.oneOf ","))
                    (Regexp.Seq spaces clausePattern))).

(** [isValidPEP440] *)
Definition isValidPEP440 (spec : string) : bool :=
  let spec := TrimSpace spec in
  if String.eqb spec "" then false
  else Regexp.MatchString pep440Pattern spec.

(** [compareVersions]: the loop [for i := 0; i < maxLen; i++] with [n]
    iterations left; a part beyond the end of its list leaves the
    variable at its zero value. *)
Fixpoint compareLoop (aParts bParts : list string) (i n : nat) : Z :=
  match n with
  | O => 0
  | S n' =>
      let aVal := match aParts !! i with
                  | Some p => Fmt.Sscanf_d p
                  | None => 0
                  end in
      let bVal := match bParts !! i with
                  | Some p => Fmt.Sscanf_d p
                  | None => 0
                  end in
      if aVal <? bVal then -1
      else if aVal >? bVal then 1
      else compareLoop aParts bParts (S i) n'
  end.

Definition compareVersions (a b : string) : Z :=
  let aParts := Split a "." in
  let bParts := Split b "." in
  let maxLen := length aParts in
  let maxLen := if (maxLen <? length bParts)%nat then length bParts
                else maxLen in
  compareLoop aParts bParts 0 maxLen.

(** The operator prefixes, in the order [matchSingleSpec] tries them. *)
Definition operatorPrefixes : list string :=
  ["=="; "!="; "<="; ">="; "<"; ">"; "~="].

(** The prefix loop of [matchSingleSpec]: the first prefix of [spec]
    found sets [op] and [specVer] and ends the loop; both stay empty when
    none is found. *)
Fixpoint extractOperator (spec : string) (prefixes : list string)
  : string * string :=
  match prefixes with
  | [] => (EmptyString, EmptyString)
  | prefix :: rest =>
      if HasPrefix spec prefix
      then (prefix, TrimSpace (dropBytes (String.length prefix) spec))
      else extractOperator spec rest
  end.

(** [matchSingleSpec] *)
Definition matchSingleSpec (version spec : string) : bool * option error :=
  let spec := TrimSpace spec in
  let '(op, specVer) := extractOperator spec operatorPrefixes in
  if String.eqb op "" then (false, Some (ErrInvalidSpecifier spec))
  else
    let cmp := compareVersions version specVer in
    if String.eqb op "==" then (cmp =? 0, None)
    else if String.eqb op "!=" then (negb (cmp =? 0), None)
    else if String.eqb op "<" then (cmp <? 0, None)
    else if String.eqb op "<=" then (cmp <=? 0, None)
    else if String.eqb op ">" then (cmp >? 0, None)
    else if String.eqb op ">=" then (cmp >=? 0, None)
    else if String.eqb op "~=" then
      if cmp <? 0 then (false, None)
      else
        let parts := Split specVer "." in
        if (1 <? length parts)%nat then
          let prefix := Join (take (length parts - 1) parts) "." in
          (HasPrefix version prefix, None)
        else (true, None)
    else (false, Some (ErrUnsupportedOperator op)).

(** The loop of [MatchesVersion] over the comma-separated parts. *)
Fixpoint matchParts (version : string) (parts : list string)
  : bool * option error :=
  match parts with
  | [] => (true, None)
  | part :: rest =>
      let part := TrimSpace part in
      match matchSingleSpec version part with
      | (_, Some err) => (false, Some err)
      | (false, None) => (false, None)
      | (true, None) => matchParts version rest
      end
  end.

(** [MatchesVersion] *)
Definition MatchesVersion (version specifier : string)
  : bool * option error :=
  let specifier := TrimSpace specifier in
  let version := TrimSpace version in
  matchParts version (Split specifier ",").

End Config.


(** ** Package [builder]: python.go *)

Module Python.
Import Strings.

(** [SupportedPythonVersions] *)
Definition SupportedPythonVersions : list string :=
  ["3.10"; "3.11"; "3.12"; "3.13"].

(** [PythonBinary] *)
Definition PythonBinary (version : string) : string :=
  "/usr/bin/python" +:+ version.

(** [PythonCPVersion] *)
Definition PythonCPVersion (version : string) : string :=
  "cp" +:+ ReplaceFirst version "." "".

(** [PythonABI] *)
Definition PythonABI (version : string) : string :=
  PythonCPVersion version.

(** [WheelFilename] *)
Definition WheelFilename (packageName version pythonVersion platform : string)
  : string :=
  let normalized := ReplaceAll packageName "-" "_" in
  let normalized := ReplaceAll normalized "." "_" in
  let normalizedVersion := ReplaceAll version "-" "_" in
  let cp := PythonCPVersion pythonVersion in
  let abi := PythonABI pythonVersion in
  normalized +:+ "-" +:+ normalizedVersion +:+ "-" +:+ cp +:+ "-" +:+ abi
    +:+ "-" +:+ platform +:+ ".whl".

(** [DefaultPlatform] *)
Definition DefaultPlatform : string := "linux_aarch64".

End Python.

(** ** Go standard library: package [path/filepath] *)

Module Filepath.
Import Strings.

(** [filepath.Join(dir, name)] for a clean, non-empty [dir] that does not
    end in a separator and a non-empty [name] without [.] and [..]
    elements, where cleaning the joined path changes nothing.  The
    library drops empty elements and cleans the result; that is not
    modelled. *)
Definition Join (dir name : string) : string := dir +:+ "/" +:+ name.

(** [filepath.Base(path)] for a path that does not end in a separator:
    what follows the last separator. *)
Fixpoint Base (path : string) : string :=
  match path with
  | EmptyString => EmptyString
  | String c t =>
      if Contains t "/" then Base t
      else if Ascii.eqb c "/" then t
      else path
  end.

(** [filepath.Dir(path)] for a clean path: what precedes the last
    separator, ["."] when there is none and ["/"] for an entry of the
    root. *)
Fixpoint beforeLastSeparator (path : string) : option string :=
  match path with
  | EmptyString => None
  | String c t =>
      match beforeLastSeparator t with
      | Some d => Some (String c d)
      | None => if Ascii.eqb c "/" then Some EmptyString else None
      end
  end.

Definition Dir (path : string) : string :=
  match beforeLastSeparator path with
  | None => "."
  | Some EmptyString => "/"
  | Some d => d
  end.

(** [filepath.Match(pattern, name)] for a pattern of literal characters
    and [*]: a star stands for any run of characters other than the
    separator.  The other pattern syntax ([?], [[...]] and the backslash)
    is not modelled; [plain] below says when a string is free of it. *)
Fixpoint Match (pattern : list ascii) : list ascii -> bool :=
  match pattern with
  | [] => fun name => match name with [] => true | _ => false end
  | p :: pattern' =>
      if Ascii.eqb p "*" then
        fix star (name : list ascii) : bool :=
          Match pattern' name ||
          match name with
          | [] => false
          | c :: name' => negb (Ascii.eqb c "/") && star name'
          end
      else
        fun name =>
          match name with
          | [] => false
          | c :: name' => Ascii.eqb p c && Match pattern' name'
          end
  end.

(** [hasMeta]: the string holds a character of the pattern syntax. *)
Fixpoint hasMeta (s : string) : bool :=
  match s with
  | EmptyString => false
  | String c t => Regexp.oneOf "*?[\" c || hasMeta t
  end.

(** Neither pattern syntax nor a separator. *)
Definition plain (s : string) : bool :=
  negb (hasMeta s) && negb (Contains s "/").

End Filepath.

(** ** Package [config]: parse.go (skip documents) *)

Module Parse.
Import Config.

(** Errors of the file operations and of [LoadSkips] and [SaveSkips]. *)
Inductive error : Type :=
| ErrNotExist                     (* an error for which [os.IsNotExist] holds *)
| ErrIO (msg : string)            (* any other error of package [os] *)
| ErrYAML (msg : string)          (* an error of the YAML library *)
| ErrReadingSkips (err : error)   (* "reading skips file: %w" *)
| ErrParsingSkips (err : error)   (* "parsing skips file: %w" *)
| ErrRemovingSkips (err : error)  (* "removing empty skips file: %w" *)
| ErrMarshalingSkips (err : error)(* "marshaling skips: %w" *)
| ErrCreatingDir (err : error)    (* "creating directory: %w" *)
| ErrWritingSkips (err : error).  (* "writing skips file: %w" *)

(** [os.IsNotExist] *)
Definition IsNotExist (e : error) : bool :=
  match e with ErrNotExist => true | _ => false end.

(** The file system: the regular files by path, and the paths at which
    every operation fails with an error other than "not exist"
    (permissions, a broken device). *)
Record FS := {
  files : gmap string string;
  faulty : gset string
}.

(** [os.ReadFile] *)
Definition ReadFile (fs : FS) (path : string) : string * option error :=
  if bool_decide (path ∈ faulty fs) then (EmptyString, Some (ErrIO path))
  else match files fs !! path with
       | Some data => (data, None)
       | None => (EmptyString, Some ErrNotExist)
       end.

(** [os.Remove] *)
Definition Remove (fs : FS) (path : string) : option error * FS :=
  if bool_decide (path ∈ faulty fs) then (Some (ErrIO path), fs)
  else match files fs !! path with
       | Some _ => (None, {| files := delete path (files fs);
                             faulty := faulty fs |})
       | None => (Some ErrNotExist, fs)
       end.

(** [os.MkdirAll]; directories are not part of the state. *)
Definition MkdirAll (fs : FS) (dir : string) : option error * FS :=
  if bool_decide (dir ∈ faulty fs) then (Some (ErrIO dir), fs)
  else (None, fs).

(** [os.WriteFile] *)
Definition WriteFile (fs : FS) (path data : string) : option error * FS :=
  if bool_decide (path ∈ faulty fs) then (Some (ErrIO path), fs)
  else (None, {| files := <[path := data]> (files fs);
                 faulty := faulty fs |}).

Section YAML.

(** [yaml.Marshal] and [yaml.Unmarshal] for skip documents. *)
Variable Marshal : Skips -> string * option error.
Variable Unmarshal : string -> Skips * option error.

(** [LoadSkips]; a [nil] pointer is [None]. *)
Definition LoadSkips (fs : FS) (path : string)
  : option Skips * option error :=
  let '(data, err) := ReadFile fs path in
  match err with
  | Some e =>
      if IsNotExist e then (Some {| SkipList := [] |}, None)
      else (None, Some (ErrReadingSkips e))
  | None =>
      let '(skips, err) := Unmarshal data in
      match err with
      | Some e => (None, Some (ErrParsingSkips e))
      | None => (Some skips, None)
      end
  end.

(** [SaveSkips] *)
Definition SaveSkips (fs : FS) (skips : Skips) (path : string)
  : option error * FS :=
  if (length (SkipList skips) =? 0)%nat then
    let '(err, fs') := Remove fs path in
    match err with
    | Some e =>
        if negb (IsNotExist e) then (Some (ErrRemovingSkips e), fs')
        else (None, fs')
    | None => (None, fs')
    end
  else
    let '(data, err) := Marshal skips in
    match err with
    | Some e => (Some (ErrMarshalingSkips e), fs)
    | None =>
        let '(err, fs1) := MkdirAll fs (Filepath.Dir path) in
        match err with
        | Some e => (Some (ErrCreatingDir e), fs1)
        | None =>
            let '(err, fs2) := WriteFile fs1 path data in
            match err with
            | Some e => (Some (ErrWritingSkips e), fs2)
            | None => (None, fs2)
            end
        end
    end.

End YAML.

End Parse.

(** ** Package [builder]: builder.go *)

Module Builder.
Import Strings Python.

(** Error values of the package, kept as the arguments of the
    [fmt.Errorf] call that builds them. [OSError] is an error of package
    [os/exec] (a non-zero exit status, a missing program). *)
Inductive error : Type :=
| OSError (msg : string)
| ErrNoRepo                                                (* "no repo URL configured" *)
| ErrCloning (err : error) (output : string)               (* "cloning repo: %w\n%s" *)
| ErrFetchingRef (ref : string) (err : error) (output : string)
                                                 (* "fetching ref %s: %w\n%s" *)
| ErrCheckingOut (ref : string) (err : error) (output : string)
                                                 (* "checking out %s: %w\n%s" *)
| ErrInstallingDeps (err : error) (output : string)
                                                 (* "installing system deps: %w\n%s" *)
| ErrApplyingPatch (patch : string) (err : error) (output : string)
                                                 (* "applying patch %s: %w\n%s" *)
| ErrBuildFailed (err : error)                             (* "build failed: %w" *)
| ErrSearchingWheel (err : error)                          (* "searching for wheel: %w" *)
| ErrNoWheel (python : string).                  (* "no wheel found for Python %s" *)

Definition newline : string := String (ascii_of_nat 10) EmptyString.

(** [err.Error()] *)
Fixpoint Error (e : error) : string :=
  match e with
  | OSError msg => msg
  | ErrNoRepo => "no repo URL configured"
  | ErrCloning err output =>
      "cloning repo: " +:+ Error err +:+ newline +:+ output
  | ErrFetchingRef ref err output =>
      "fetching ref " +:+ ref +:+ ": " +:+ Error err +:+ newline +:+ output
  | ErrCheckingOut ref err output =>
      "checking out " +:+ ref +:+ ": " +:+ Error err +:+ newline +:+ output
  | ErrInstallingDeps err output =>
      "installing system deps: " +:+ Error err +:+ newline +:+ output
  | ErrApplyingPatch patch err output =>
      "applying patch " +:+ patch +:+ ": " +:+ Error err +:+ newline +:+ output
  | ErrBuildFailed err => "build failed: " +:+ Error err
  | ErrSearchingWheel err => "searching for wheel: " +:+ Error err
  | ErrNoWheel python => "no wheel found for Python " +:+ python
  end.

(** [Builder] *)
Record Builder := {
  WorkDir : string;
  Config : Config.Config;
  PackageName : string;
  SourceDir : string;
  DistDir : string
}.

(** [BuildResult] *)
Record BuildResult := {
  Version : string;
  Python : string;
  WheelPath : string;
  Success : bool;
  Log : string;
  Err : option error
}.

(** [New] *)
Definition New (workDir packageName : string) (cfg : Config.Config)
  : Builder :=
  {| WorkDir := workDir;
     Config := cfg;
     PackageName := packageName;
     SourceDir := Filepath.Join workDir "src";
     DistDir := Filepath.Join workDir "dist" |}.

(** [effectiveConfig] *)
Record effectiveConfig := {
  SystemDeps : list string;
  Env : gmap string string;
  Patches : list string;
  Script : string
}.

(** [for k, v := range src { dst[k] = v }] *)
Definition copyInto (src dst : gmap string string) : gmap string string :=
  map_fold (fun k v (m : gmap string string) => <[k:=v]> m) dst src.

(** The body of the override loop of [getEffectiveConfig] once the
    override matched (the statements before [break]). *)
Definition mergeOverride (cfg : effectiveConfig) (override : Config.Override)
  : effectiveConfig :=
  {| SystemDeps := SystemDeps cfg ++ Config.OSystemDeps override;
     Patches := Patches cfg ++ Config.OPatches override;
     Env := copyInto (Config.OEnv override) (Env cfg);
     Script := if negb (String.eqb (Config.OScript override) "")
               then Config.OScript override
               else Script cfg |}.

(** The loop [for _, override := range b.Config.Overrides]: [continue]
    on an error or a mismatch, [break] after the first merge. *)
Fixpoint applyOverrides (version : string) (cfg : effectiveConfig)
    (overrides : list Config.Override) : effectiveConfig :=
  match overrides with
  | [] => cfg
  | override :: rest =>
      let '(matches, err) :=
        Config.MatchesVersion version (Config.Match override) in
      if bool_decide (err <> None) || negb matches
      then applyOverrides version cfg rest
      else mergeOverride cfg override
  end.

(** The configuration [getEffectiveConfig] starts from: copies of the
    base lists, a fresh map filled from the base map, the base script. *)
Definition baseConfig (c : Config.Config) : effectiveConfig :=
  {| SystemDeps := [] ++ Config.SystemDeps c;
     Env := copyInto (Config.Env c) ∅;
     Patches := [] ++ Config.Patches c;
     Script := Config.Script c |}.

(** [getEffectiveConfig] *)
Definition getEffectiveConfig (b : Builder) (version : string)
  : effectiveConfig :=
  applyOverrides version (baseConfig (Config b))
    (Config.Overrides (Config b)).

(** *** Subprocesses and the output directory

    Every effect of the package is a subprocess ([exec.Command] with
    [CombinedOutput] or [Run]) or a directory listing ([filepath.Glob]).
    A world [W] with two capabilities stands for the machine; the state
    threaded through the package also records every command that was
    run, in order. *)

(** [exec.Cmd]: program, arguments, working directory and, for a build
    command, the arguments of [buildEnv] that determine [cmd.Env] (the
    configured variables laid over the ambient environment, and the
    runtime whose directory is put first on the search path). *)
Record Cmd := {
  Path : string;
  Args : list string;
  Dir : string;
  CmdEnv : option (gmap string string * string)
}.

Section World.
Context {W : Type}.

(** Running a command: its combined output, its error, the new world. *)
Variable exec : Cmd -> W -> string * option error * W.

(** The sorted entry names of a directory (none if it does not exist),
    as [filepath.Glob] reads them. *)
Variable readDir : string -> W -> list string.

Record State := { world : W; ran : list Cmd }.

Definition M (A : Type) : Type := State -> A * State.

Definition ret {A} (a : A) : M A := fun st => (a, st).

Definition bind {A B} (m : M A) (k : A -> M B) : M B :=
  fun st => let '(a, st') := m st in k a st'.

Notation "'do' x <- m ; k" := (bind m (fun x => k))
  (at level 10, x name, m at level 100, k at level 200).
Notation "'do' ' p <- m ; k" := (bind m (fun x => let 'p := x in k))
  (at level 10, p pattern, m at level 100, k at level 200).

(** [cmd.CombinedOutput()] and [cmd.Run()] *)
Definition run (c : Cmd) : M (string * option error) :=
  fun st =>
    let '(out, err, w) := exec c (world st) in
    ((out, err), {| world := w; ran := ran st ++ [c] |}).

Definition git (dir : string) (args : list string) : Cmd :=
  {| Path := "git"; Args := args; Dir := dir; CmdEnv := None |}.

(** [Checkout] *)
Definition Checkout (b : Builder) (ref : string) : M (option error) :=
  do '(_, err) <- run (git (SourceDir b)
                      ["fetch"; "--depth"; "1"; "origin"; "tag"; ref]) ;
  do fallback <-
    (if bool_decide (err <> None) then
       do '(output, err) <- run (git (SourceDir b)
                                ["fetch"; "--depth"; "1"; "origin"; ref]) ;
       match err with
       | Some e => ret (Some (ErrFetchingRef ref e output))
       | None => ret None
       end
     else ret None) ;
  match fallback with
  | Some e => ret (Some e)
  | None =>
      do '(output, err) <- run (git (SourceDir b) ["checkout"; "FETCH_HEAD"]) ;
      match err with
      | Some e => ret (Some (ErrCheckingOut ref e output))
      | None =>
          do _ <- run (git (SourceDir b) ["clean"; "-fdx"]) ;
          ret None
      end
  end.

(** [InstallSystemDeps] *)
Definition InstallSystemDeps (b : Builder) (deps : list string)
  : M (option error) :=
  if (length deps =? 0)%nat then ret None
  else
    do '(output, err) <- run {| Path := "apk";
                             Args := ["add"; "--no-cache"] ++ deps;
                             Dir := ""; CmdEnv := None |} ;
    match err with
    | Some e => ret (Some (ErrInstallingDeps e output))
    | None => ret None
    end.

(** [ApplyPatches] *)
Fixpoint ApplyPatches (b : Builder) (patches : list string)
  : M (option error) :=
  match patches with
  | [] => ret None
  | patch :: rest =>
      let patchPath := Filepath.Join (WorkDir b) patch in
      do '(output, err) <- run (git (SourceDir b) ["apply"; patchPath]) ;
      match err with
      | Some e => ret (Some (ErrApplyingPatch patch e output))
      | None => ApplyPatches b rest
      end
  end.

(** [filepath.Glob(filepath.Join(dir, pattern))] for a directory path
    without pattern syntax ([Filepath.hasMeta dir = false]) and a pattern
    of literals and stars without a separator: the entries that match, as
    paths, in the order of the sorted listing.  [Glob] ignores I/O errors,
    and a pattern of literals and stars is never malformed, so on this
    domain the error is [nil].  Outside of it (a [?], a bracket or a
    backslash in either part) the library expands the directory or
    returns [ErrBadPattern]; that is not modelled. *)
Definition Glob (dir pattern : string) : M (list string * option error) :=
  fun st =>
    let names := readDir dir (world st) in
    let matched :=
      filter (fun n => Filepath.Match (list_ascii_of_string pattern)
                         (list_ascii_of_string n) = true) names in
    ((map (Filepath.Join dir) matched, None), st).

(** The test of the loop of [findWheel]. *)
Definition mentionsVersion (version m : string) : bool :=
  let base := Filepath.Base m in
  Contains base ("-" +:+ version +:+ "-")
  || Contains base ("-" +:+ ReplaceAll version "." "_" +:+ "-").

(** [findWheel] *)
Definition findWheel (b : Builder) (version python : string)
  : M (string * option error) :=
  let cpVersion := "cp" +:+ ReplaceFirst python "." "" in
  let pattern := "*-" +:+ cpVersion +:+ "-" +:+ cpVersion +:+ "-*.whl" in
  do '(matches, err) <- Glob (DistDir b) pattern ;
  match err with
  | Some e => ret (EmptyString, Some (ErrSearchingWheel e))
  | None =>
      match List.find (mentionsVersion version) matches with
      | Some m => ret (m, None)
      | None =>
          match matches with
          | m :: _ => ret (m, None)
          | [] => ret (EmptyString, Some (ErrNoWheel python))
          end
      end
  end.

(** The command [buildForPython] runs: the custom script under [sh], or
    the default [pip wheel] of the runtime's interpreter. *)
Definition buildCommand (b : Builder) (python : string)
    (cfg : effectiveConfig) : Cmd :=
  let pythonBin := PythonBinary python in
  {| Path := if negb (String.eqb (Script cfg) "") then "sh" else pythonBin;
     Args := if negb (String.eqb (Script cfg) "") then ["-c"; Script cfg]
             else ["-m"; "pip"; "wheel"; "--no-deps"; "--no-binary";
                   ":all:"; "-w"; DistDir b; "."];
     Dir := SourceDir b;
     CmdEnv := Some (Env cfg, python) |}.

(** [buildForPython] *)
Definition buildForPython (b : Builder) (version python : string)
    (cfg : effectiveConfig) : M BuildResult :=
  do '(log, err) <- run (buildCommand b python cfg) ;
  match err with
  | Some e =>
      ret {| Version := version; Python := python;
             WheelPath := EmptyString; Success := false;
             Log := log; Err := Some (ErrBuildFailed e) |}
  | None =>
      do '(wheelPath, err) <- findWheel b version python ;
      match err with
      | Some e =>
          ret {| Version := version; Python := python;
                 WheelPath := EmptyString; Success := false;
                 Log := log +:+ newline +:+ Error e; Err := Some e |}
      | None =>
          ret {| Version := version; Python := python;
                 WheelPath := wheelPath; Success := true;
                 Log := log; Err := None |}
      end
  end.

(** The result [Build] records for a runtime when a step shared by all
    runtimes of the version failed. *)
Definition failedResult (version : string) (err : error) (py : string)
  : BuildResult :=
  {| Version := version; Python := py; WheelPath := EmptyString;
     Success := false; Log := Error err; Err := Some err |}.

(** The loop [for _, py := range pythonVersions] at the end of
    [Build]. *)
Fixpoint buildEach (b : Builder) (version : string)
    (cfg : effectiveConfig) (pythonVersions : list string)
  : M (list BuildResult) :=
  match pythonVersions with
  | [] => ret []
  | py :: rest =>
      do result <- buildForPython b version py cfg ;
      do results <- buildEach b version cfg rest ;
      ret (result :: results)
  end.

(** [Build] *)
Definition Build (b : Builder) (version : Config.Version)
    (pythonVersions : list string) : M (list BuildResult) :=
  do err <- Checkout b (Config.Tag version) ;
  match err with
  | Some e =>
      ret (map (failedResult (Config.VersionOf version) e) pythonVersions)
  | None =>
      let effectiveCfg := getEffectiveConfig b (Config.VersionOf version) in
      do err <- InstallSystemDeps b (SystemDeps effectiveCfg) ;
      match err with
      | Some e =>
          ret (map (failedResult (Config.VersionOf version) e)
                 pythonVersions)
      | None =>
          do err <- ApplyPatches b (Patches effectiveCfg) ;
          match err with
          | Some e =>
              ret (map (failedResult (Config.VersionOf version) e)
                     pythonVersions)
          | None =>
              buildEach b (Config.VersionOf version) effectiveCfg
                pythonVersions
          end
      end
  end.

(** The loop of [BuildAll] over [b.Config.Versions]. *)
Fixpoint buildVersions (b : Builder) (versions : list Config.Version)
    (pythonVersions : list string)
    (results : gmap string (list BuildResult))
  : M (gmap string (list BuildResult)) :=
  match versions with
  | [] => ret results
  | v :: rest =>
      do r <- Build b v pythonVersions ;
      buildVersions b rest pythonVersions
        (<[Config.VersionOf v := r]> results)
  end.

(** [BuildAll] *)
Definition BuildAll (b : Builder) (pythonVersions : list string)
  : M (gmap string (list BuildResult)) :=
  buildVersions b (Config.Versions (Config b)) pythonVersions ∅.

End World.

End Builder.

(** ** The properties of the specification, in its own words *)

Module Spec.
Import Strings.

(** The value of a decimal digit: its place among the ten digits. *)
Fixpoint place (c : ascii) (digits : string) : option Z :=
  match digits with
  | EmptyString => None
  | String d rest =>
      if Ascii.eqb c d then Some 0 else option_map Z.succ (place c rest)
  end.

Definition digit (c : ascii) : option Z := place c "0123456789".

(** The numeric prefix of a component: the decimal value of its leading
    run of digits, whatever follows them; zero when the component starts
    with no digit. *)
Fixpoint decimal (acc : Z) (s : string) : Z :=
  match s with
  | EmptyString => acc
  | String c t =>
      match digit c with
      | Some d => decimal (10 * acc + d) t
      | None => acc
      end
  end.

Definition numericPrefix (s : string) : Z := decimal 0 s.

(** The numeric value of each dot-separated component of a version. *)
Definition segments (v : string) : list Z :=
  map numericPrefix (Split v ".").

(** The components the comparison is specified for, those of a dotted
    numeric version with an optional suffix: a component is empty or
    begins with an ASCII byte that is neither white space nor a sign, and
    its numeric prefix is below 2^63. *)
Definition leadsPlainly (s : string) : bool :=
  match s with
  | EmptyString => true
  | String c _ =>
      let n := N_of_ascii c in
      ((n <? 128) && negb ((9 <=? n) && (n <=? 13)) && negb (n =? 32)
       && negb (n =? 43) && negb (n =? 45))%N
  end.

Definition component (s : string) : Prop :=
  leadsPlainly s = true /\ numericPrefix s < 2 ^ 63.

Definition dotted (v : string) : Prop :=
  Forall component (Split v ".").

(** Missing trailing segments are zero. *)
Definition padTo (n : nat) (xs : list Z) : list Z :=
  xs ++ replicate (n - length xs) 0.

(** Segment-wise comparison of two sequences of equal length: the first
    position at which they differ decides. *)
Fixpoint lexCompare (xs ys : list Z) : Z :=
  match xs, ys with
  | x :: xs', y :: ys' =>
      if x <? y then -1 else if y <? x then 1 else lexCompare xs' ys'
  | _, _ => 0
  end.

Definition compare (a b : string) : Z :=
  let n := Nat.max (length (segments a)) (length (segments b)) in
  lexCompare (padTo n (segments a)) (padTo n (segments b)).

(** The specifier's version up to, and without, its last dotted
    segment. *)
Definition releasePrefix (s : string) : string :=
  Join (removelast (Split s ".")) ".".

(** The candidate shares that prefix: the dotted segments of the
    specifier's version, without the last, are the leading segments of
    the candidate. *)
Fixpoint leading (p l : list string) : bool :=
  match p, l with
  | [], _ => true
  | x :: p', y :: l' => String.eqb x y && leading p' l'
  | _ :: _, [] => false
  end.

Definition sharesReleasePrefix (V S : string) : bool :=
  leading (removelast (Split S ".")) (Split V ".").

(** Character-wise normalisation of names and versions. *)
Fixpoint mapBytes (f : ascii -> ascii) (s : string) : string :=
  match s with
  | EmptyString => EmptyString
  | String c t => String (f c) (mapBytes f t)
  end.

Definition normalizedName (name : string) : string :=
  mapBytes (fun c => if Ascii.eqb c "-" || Ascii.eqb c "." then "_"%char
                     else c) name.

Definition normalizedVersion (version : string) : string :=
  mapBytes (fun c => if Ascii.eqb c "-" then "_"%char else c) version.

(** The string holds no byte [c]. *)
Fixpoint lacks (c : ascii) (s : string) : bool :=
  match s with
  | EmptyString => true
  | String d t => negb (Ascii.eqb d c) && lacks c t
  end.

(** A file name encodes package, version and runtime when it is the
    wheel file name of the three for some platform tag. *)
Definition encodesArtifact (packageName version python name : string)
  : Prop :=
  exists platform,
    name = Python.WheelFilename packageName version python platform.

(** The pattern [findWheel] hands to [filepath.Glob] for a runtime, and
    the entries of the output directory it selects. *)
Definition runtimePattern (python : string) : string :=
  "*-" +:+ Python.PythonCPVersion python +:+ "-"
    +:+ Python.PythonCPVersion python +:+ "-*.whl".

Definition tagged (python name : string) : bool :=
  Filepath.Match (list_ascii_of_string (runtimePattern python))
    (list_ascii_of_string name).

(** The matches of the runtime's pattern in the output directory, as
    paths. *)
Definition candidates {W : Type} (readDir : string -> W -> list string)
    (b : Builder.Builder) (python : string) (w : W) : list string :=
  map (Filepath.Join (Builder.DistDir b))
    (filter (fun n => tagged python n = true)
       (readDir (Builder.DistDir b) w)).

(** The entries of the output directory that carry the runtime's tag, in
    the order of the listing. *)
Definition taggedEntries {W : Type} (readDir : string -> W -> list string)
    (b : Builder.Builder) (python : string) (w : W) : list string :=
  filter (fun n => tagged python n = true) (readDir (Builder.DistDir b) w).

(** A file name contains the version: between two hyphens it holds the
    version, as it is or with its dots replaced by underscores. *)
Definition dotsToUnderscores (version : string) : string :=
  mapBytes (fun c => if Ascii.eqb c "." then "_"%char else c) version.

Definition containsVersion (version name : string) : Prop :=
  exists a b,
    name = a +:+ "-" +:+ version +:+ "-" +:+ b
    \/ name = a +:+ "-" +:+ dotsToUnderscores version +:+ "-" +:+ b.

(** [x] is the first element of [l], in the order of [l], with the
    property [P]. *)
Definition firstWith {A : Type} (P : A -> Prop) (l : list A) (x : A) : Prop :=
  exists pre post, l = pre ++ x :: post /\ Forall (fun y => ~ P y) pre /\ P x.

(** The builder with another override list. *)
Definition withOverrides (b : Builder.Builder)
    (overrides : list Config.Override) : Builder.Builder :=
  let c := Builder.Config b in
  {| Builder.WorkDir := Builder.WorkDir b;
     Builder.Config :=
       {| Config.Repo := Config.Repo c;
          Config.VersionCount := Config.VersionCount c;
          Config.Versions := Config.Versions c;
          Config.SystemDeps := Config.SystemDeps c;
          Config.Env := Config.Env c;
          Config.Patches := Config.Patches c;
          Config.Script := Config.Script c;
          Config.Overrides := overrides |};
     Builder.PackageName := Builder.PackageName b;
     Builder.SourceDir := Builder.SourceDir b;
     Builder.DistDir := Builder.DistDir b |}.

(** The version satisfies the override's specifier: the matcher answers
    [true] without an error. *)
Definition satisfies (version : string) (o : Config.Override) : Prop :=
  Config.MatchesVersion version (Config.Match o) = (true, None).

End Spec.

(** ** Sample configurations *)

Module Samples.

Definition override (m : string) (deps : list string)
    (env : gmap string string) (patches : list string) (script : string)
  : Config.Override :=
  {| Config.Match := m; Config.OSystemDeps := deps; Config.OEnv := env;
     Config.OPatches := patches; Config.OScript := script |}.

Definition config (overrides : list Config.Override) : Config.Config :=
  {| Config.Repo := "https://github.com/test/pkg";
     Config.VersionCount := 10;
     Config.Versions := [{| Config.Tag := "v1.0.0";
                            Config.VersionOf := "1.0.0" |}];
     Config.SystemDeps := ["libfoo"];
     Config.Env := {[ "FOO" := "bar" ]};
     Config.Patches := ["base.patch"];
     Config.Script := "";
     Config.Overrides := overrides |}.

(** The overrides of [TestGetEffectiveConfig]. *)
Definition newer : Config.Override :=
  override ">=2.0" ["libfoo-new"] {[ "FOO" := "baz"; "NEW" := "val" ]}
    ["new.patch"] "".
Definition older : Config.Override :=
  override "<1.5" [] ∅ [] "custom build".

(** An override every version from 1.0 on satisfies, and one whose
    specifier passes the validation pattern but has no operator the
    matcher knows. *)
Definition broad : Config.Override :=
  override ">=1.0" ["libbar"] ∅ [] "make wheel".
Definition unparsable : Config.Override :=
  override "=1.0" ["libbaz"] ∅ [] "never".

Definition builder (overrides : list Config.Override) : Builder.Builder :=
  Builder.New "/tmp/build" "testpkg" (config overrides).

(** A machine whose state is the listing of the output directory: every
    command succeeds silently and leaves the listing as it is. *)
Definition quietExec (c : Builder.Cmd) (w : list string)
  : string * option Builder.error * list string :=
  (EmptyString, None, w).

(** A machine on which every [git] command fails. *)
Definition gitDown (c : Builder.Cmd) (w : list string)
  : string * option Builder.error * list string :=
  if String.eqb (Builder.Path c) "git"
  then ("fatal: not a git repository",
        Some (Builder.OSError "exit status 128"), w)
  else (EmptyString, None, w).

Definition listing (dir : string) (w : list string) : list string := w.

Definition start (w : list string) : Builder.State :=
  {| Builder.world := w; Builder.ran := [] |}.

(** One build attempt on the quiet machine, for the sample package
    without overrides and a given content of the output directory. *)
Definition attempt (dist : list string) (version python : string)
  : Builder.BuildResult :=
  fst (Builder.buildForPython quietExec listing (builder []) version python
         (Builder.getEffectiveConfig (builder []) version) (start dist)).

(** An output directory that holds only the wheel of another package. *)
Definition strayDist : list string :=
  ["other-9.9-cp312-cp312-linux_aarch64.whl"].

Definition v100 : Config.Version :=
  {| Config.Tag := "v1.0.0"; Config.VersionOf := "1.0.0" |}.

(** A skip document and a serializer for it. *)
Definition skip : Config.Skip :=
  {| Config.SkipVersion := "1.0.0"; Config.SkipPython := ["3.13"];
     Config.Reason := "no wheel"; Config.Log := ""; Config.Attempts := 1 |}.

Definition marshal (s : Config.Skips) : string * option Parse.error :=
  ("skips: " +:+ String.concat ","
                   (map Config.SkipVersion (Config.SkipList s)), None).

Definition unmarshal (data : string) : Config.Skips * option Parse.error :=
  ({| Config.SkipList := [] |},
   if String.eqb data "" then None else Some (Parse.ErrYAML data)).

Definition emptyFS : Parse.FS := {| Parse.files := ∅; Parse.faulty := ∅ |}.

End Samples.

(** ** Package [config]: validate.go, the validators *)

Module Validate.

(** The errors of [ValidateConfig] and [ValidateSkips], with the index and
    the value their format strings print. *)
Inductive error : Type :=
| ErrRepoRequired                            (* "repo is required" *)
| ErrVersionsRequired                        (* "at least one version is required" *)
| ErrTagRequired (i : nat)                   (* "version[%d]: tag is required" *)
| ErrVersionRequired (i : nat)               (* "version[%d]: version is required" *)
| ErrDuplicateVersion (i : nat) (v : string) (* "version[%d]: duplicate version %q" *)
| ErrMatchRequired (i : nat)                 (* "override[%d]: match is required" *)
| ErrInvalidMatch (i : nat) (spec : string)  (* "override[%d]: invalid PEP 440 specifier %q" *)
| ErrSkipVersionRequired (i : nat)           (* "skip[%d]: version is required" *)
| ErrSkipPythonRequired (i : nat)            (* "skip[%d]: at least one python version is required" *)
| ErrSkipReasonRequired (i : nat).           (* "skip[%d]: reason is required" *)

(** [seen[v]] on a [map[string]bool]: a missing key reads [false]. *)
Definition seenAt (seen : gmap string bool) (v : string) : bool :=
  default false (seen !! v).

(** The loop of [ValidateConfig] over [cfg.Versions], from index [i] with
    the map [seen] of the versions met so far. *)
Fixpoint checkVersions (versions : list Config.Version) (i : nat)
    (seen : gmap string bool) : option error :=
  match versions with
  | [] => None
  | v :: rest =>
      if String.eqb (Config.Tag v) "" then Some (ErrTagRequired i)
      else if String.eqb (Config.VersionOf v) "" then
        Some (ErrVersionRequired i)
      else if seenAt seen (Config.VersionOf v) then
        Some (ErrDuplicateVersion i (Config.VersionOf v))
      else checkVersions rest (S i) (<[Config.VersionOf v := true]> seen)
  end.

(** The loop of [ValidateConfig] over [cfg.Overrides]. *)
Fixpoint checkOverrides (overrides : list Config.Override) (i : nat)
  : option error :=
  match overrides with
  | [] => None
  | o :: rest =>
      if String.eqb (Config.Match o) "" then Some (ErrMatchRequired i)
      else if negb (Config.isValidPEP440 (Config.Match o)) then
        Some (ErrInvalidMatch i (Config.Match o))
      else checkOverrides rest (S i)
  end.

(** [ValidateConfig] *)
Definition ValidateConfig (cfg : Config.Config) : option error :=
  if String.eqb (Config.Repo cfg) "" then Some ErrRepoRequired
  else if (length (Config.Versions cfg) =? 0)%nat then
    Some ErrVersionsRequired
  else
    match checkVersions (Config.Versions cfg) 0 ∅ with
    | Some e => Some e
    | None => checkOverrides (Config.Overrides cfg) 0
    end.

(** The loop of [ValidateSkips]. *)
Fixpoint checkSkips (skips : list Config.Skip) (i : nat) : option error :=
  match skips with
  | [] => None
  | s :: rest =>
      if String.eqb (Config.SkipVersion s) "" then
        Some (ErrSkipVersionRequired i)
      else if (length (Config.SkipPython s) =? 0)%nat then
        Some (ErrSkipPythonRequired i)
      else if String.eqb (Config.Reason s) "" then
        Some (ErrSkipReasonRequired i)
      else checkSkips rest (S i)
  end.

(** [ValidateSkips] *)
Definition ValidateSkips (skips : Config.Skips) : option error :=
  checkSkips (Config.SkipList skips) 0.

End Validate.

(** ** Package [config]: parse.go (configuration documents) *)

Module ParseConfig.
Import Config Parse.

(** The errors of [LoadConfig] and [SaveConfig], around the error of the
    file system or of the YAML library they wrap. *)
Inductive error : Type :=
| ErrReadingConfig (err : Parse.error)     (* "reading config file: %w" *)
| ErrParsingConfig (err : Parse.error)     (* "parsing config file: %w" *)
| ErrMarshalingConfig (err : Parse.error)  (* "marshaling config: %w" *)
| ErrCreatingConfigDir (err : Parse.error) (* "creating directory: %w" *)
| ErrWritingConfig (err : Parse.error).    (* "writing config file: %w" *)

(** [DefaultVersionCount] *)
Definition DefaultVersionCount : Z := 10.

(** [cfg.VersionCount = n] *)
Definition setVersionCount (cfg : Config.Config) (n : Z) : Config.Config :=
  {| Repo := Repo cfg; VersionCount := n; Versions := Versions cfg;
     SystemDeps := SystemDeps cfg; Env := Env cfg; Patches := Patches cfg;
     Script := Script cfg; Overrides := Overrides cfg |}.

Section YAML.

(** [yaml.Marshal] and [yaml.Unmarshal] for configuration documents. *)
Variable Marshal : Config.Config -> string * option Parse.error.
Variable Unmarshal : string -> Config.Config * option Parse.error.

(** [LoadConfig] *)
Definition LoadConfig (fs : FS) (path : string)
  : option Config.Config * option error :=
  let '(data, err) := ReadFile fs path in
  match err with
  | Some e => (None, Some (ErrReadingConfig e))
  | None =>
      let '(cfg, err) := Unmarshal data in
      match err with
      | Some e => (None, Some (ErrParsingConfig e))
      | None =>
          let cfg := if VersionCount cfg =? 0
                     then setVersionCount cfg DefaultVersionCount
                     else cfg in
          (Some cfg, None)
      end
  end.

(** [SaveConfig] *)
Definition SaveConfig (fs : FS) (cfg : Config.Config) (path : string)
  : option error * FS :=
  let '(data, err) := Marshal cfg in
  match err with
  | Some e => (Some (ErrMarshalingConfig e), fs)
  | None =>
      let '(err, fs1) := MkdirAll fs (Filepath.Dir path) in
      match err with
      | Some e => (Some (ErrCreatingConfigDir e), fs1)
      | None =>
          let '(err, fs2) := WriteFile fs1 path data in
          match err with
          | Some e => (Some (ErrWritingConfig e), fs2)
          | None => (None, fs2)
          end
      end
  end.

End YAML.

End ParseConfig.

(** ** Package [builder]: the environment of a build command *)

Module BuildEnv.
Import Strings.

(** The loop of [buildEnv] that puts the runtime's directory first on the
    search path: the first entry that starts with ["PATH="] is rewritten
    and the loop ends. *)
Fixpoint prependPath (pythonDir : string) (result : list string)
  : list string :=
  match result with
  | [] => []
  | e :: rest =>
      if HasPrefix e "PATH="
      then ("PATH=" +:+ pythonDir +:+ ":" +:+ dropBytes 5 e) :: rest
      else e :: prependPath pythonDir rest
  end.

(** [buildEnv].  [environ] is [os.Environ()].  Go leaves the order in which
    [range] visits a map open, so the visiting order of the configured
    variables is the argument [entries], an enumeration of the map. *)
Definition buildEnv (environ : list string) (entries : list (string * string))
    (python : string) : list string :=
  let result := environ ++ map (fun '(k, v) => k +:+ "=" +:+ v) entries in
  let pythonBin := Python.PythonBinary python in
  let pythonDir := Filepath.Dir pythonBin in
  prependPath pythonDir result.

End BuildEnv.

(** ** Definitions used to state further properties *)

Module Facts.

(** The values [compareVersions] reads from the components of a version
    with [fmt.Sscanf], and the comparison of two versions by them. *)
Definition scanned (v : string) : list Z :=
  map Fmt.Sscanf_d (Strings.Split v ".").

Definition compareScanned (a b : string) : Z :=
  let n := Nat.max (length (scanned a)) (length (scanned b)) in
  Spec.lexCompare (Spec.padTo n (scanned a)) (Spec.padTo n (scanned b)).

(** A regular expression that matches no string because its leftmost
    factor is [Void]. *)
Fixpoint dead (r : Regexp.regex) : bool :=
  match r with
  | Regexp.Void => true
  | Regexp.Seq a _ => dead a
  | Regexp.Alt a b => dead a && dead b
  | _ => false
  end.

(** Every character class of the expression lies within [P]. *)
Fixpoint classesWithin (P : ascii -> bool) (r : Regexp.regex) : Prop :=
  match r with
  | Regexp.Class f => forall c, f c = true -> P c = true
  | Regexp.Seq a b | Regexp.Alt a b => classesWithin P a /\ classesWithin P b
  | Regexp.Star a => classesWithin P a
  | _ => True
  end.

(** The bytes a valid specifier is made of: operator characters, the
    white space of [\s], the characters of a version and the comma. *)
Definition specifierByte (c : ascii) : bool :=
  Regexp.oneOf "<>=!~" c || Regexp.class_s c || Regexp.class_d c
  || Regexp.class_w c || Regexp.oneOf ".*" c || Regexp.oneOf "," c.

(** All bytes of a string satisfy a test. *)
Fixpoint allBytes (P : ascii -> bool) (s : string) : bool :=
  match s with
  | EmptyString => true
  | String c t => P c && allBytes P t
  end.

(** A skip entry [ValidateSkips] has nothing against: a version, at
    least one runtime and a reason. *)
Definition completeSkip (s : Config.Skip) : Prop :=
  Config.SkipVersion s <> "" /\ Config.SkipPython s <> []
  /\ Config.Reason s <> "".


(** The command [InstallSystemDeps] runs. *)
Definition apkCommand (deps : list string) : Builder.Cmd :=
  {| Builder.Path := "apk"; Builder.Args := ["add"; "--no-cache"] ++ deps;
     Builder.Dir := ""; Builder.CmdEnv := None |}.

(** A build result is coherent: it succeeded exactly when it carries no
    error, a success names a wheel and a failure names none. *)
Definition coherent (r : Builder.BuildResult) : Prop :=
  (Builder.Success r = true <-> Builder.Err r = None)
  /\ (Builder.Success r = true -> Builder.WheelPath r <> EmptyString)
  /\ (Builder.Success r = false -> Builder.WheelPath r = EmptyString).

End Facts.

(** ** Further samples *)

Module Samples2.

(** A machine on which [git] works and every other command fails. *)
Definition onlyGit (c : Builder.Cmd) (w : list string)
  : string * option Builder.error * list string :=
  if String.eqb (Builder.Path c) "git" then (EmptyString, None, w)
  else ("not found", Some (Builder.OSError "exit status 127"), w).

(** A machine on which only [git apply] fails. *)
Definition noPatch (c : Builder.Cmd) (w : list string)
  : string * option Builder.error * list string :=
  match Builder.Args c with
  | a :: _ =>
      if String.eqb a "apply"
      then ("patch does not apply", Some (Builder.OSError "exit status 1"), w)
      else (EmptyString, None, w)
  | [] => (EmptyString, None, w)
  end.

(** A machine on which the remote has no tag: a [git fetch] that asks
    for a tag fails, every other command succeeds. *)
Definition tagMissing (c : Builder.Cmd) (w : list string)
  : string * option Builder.error * list string :=
  if existsb (String.eqb "tag") (Builder.Args c)
  then ("fatal: couldn't find remote ref refs/tags/main",
        Some (Builder.OSError "exit status 128"), w)
  else (EmptyString, None, w).

(** An output directory with wheels of three packages for the runtime
    3.12, one of another version, and one wheel for another runtime. *)
Definition mixedDist : list string :=
  ["other-9.9-cp312-cp312-linux_aarch64.whl";
   "testpkg-1.0.0-cp311-cp311-linux_aarch64.whl";
   "testpkg-1.0.0-cp312-cp312-linux_aarch64.whl";
   "zlib-1.0.0-cp312-cp312-linux_aarch64.whl"].

(** The sample package with two patches. *)
Definition patched : Builder.Builder :=
  Builder.New "/tmp/build" "testpkg"
    {| Config.Repo := "https://github.com/test/pkg";
       Config.VersionCount := 10;
       Config.Versions := [Samples.v100];
       Config.SystemDeps := [];
       Config.Env := ∅;
       Config.Patches := ["a.patch"; "b.patch"];
       Config.Script := "";
       Config.Overrides := [] |}.

(** A serializer for configurations that keeps the document in the file
    name space of the model: the document of a configuration is its
    repository URL, and reading a document gives the sample configuration
    of that repository. *)
Definition marshalConfig (c : Config.Config) : string * option Parse.error :=
  (Config.Repo c, None).

Definition unmarshalConfig (data : string)
  : Config.Config * option Parse.error :=
  ({| Config.Repo := data; Config.VersionCount := 0;
      Config.Versions := [Samples.v100]; Config.SystemDeps := [];
      Config.Env := ∅; Config.Patches := []; Config.Script := "";
      Config.Overrides := [] |}, None).

Definition plainConfig (count : Z) : Config.Config :=
  {| Config.Repo := "https://github.com/test/pkg";
     Config.VersionCount := count;
     Config.Versions := [Samples.v100]; Config.SystemDeps := [];
     Config.Env := ∅; Config.Patches := []; Config.Script := "";
     Config.Overrides := [] |}.

(** A serializer for skip documents that can be read back: the document
    lists the versions, and reading gives one skip per listed version. *)
Definition unmarshalSkips (data : string)
  : Config.Skips * option Parse.error :=
  if String.eqb data "skips: 1.0.0"
  then ({| Config.SkipList := [Samples.skip] |}, None)
  else ({| Config.SkipList := [] |}, Some (Parse.ErrYAML data)).

(** A configuration that lists the version 1.0.0 under two tags, as the
    "duplicate versions" case of [TestValidateConfig]. *)
Definition duplicated : Config.Config :=
  {| Config.Repo := "https://github.com/test/pkg";
     Config.VersionCount := 10;
     Config.Versions :=
       [{| Config.Tag := "v1.0.0"; Config.VersionOf := "1.0.0" |};
        {| Config.Tag := "v1.0.0-rc1"; Config.VersionOf := "1.0.0" |}];
     Config.SystemDeps := []; Config.Env := ∅; Config.Patches := [];
     Config.Script := ""; Config.Overrides := [] |}.

(** Skip entries without a reason and without a runtime. *)
Definition noReason : Config.Skip :=
  {| Config.SkipVersion := "1.0.0"; Config.SkipPython := ["3.10"];
     Config.Reason := ""; Config.Log := ""; Config.Attempts := 0 |}.

End Samples2.

(** * Version comparison *)

Section CompareVersions.
Import Strings Config.

Lemma padTo_length n xs : (length xs <= n)%nat -> length (Spec.padTo n xs) = n.
Proof. intros H. unfold Spec.padTo. rewrite length_app, length_replicate. lia. Qed.

(** Reading position [i] of the padded values is what the loop computes
    for its variable at index [i]. *)
Lemma padTo_lookup n (parts : list string) i :
  (i < n)%nat -> (length parts <= n)%nat ->
  Spec.padTo n (map Fmt.Sscanf_d parts) !! i =
    Some (match parts !! i with Some p => Fmt.Sscanf_d p | None => 0 end).
Proof.
  intros Hi Hn. unfold Spec.padTo.
  destruct (parts !! i) as [p|] eqn:Hp.
  - rewrite lookup_app_l by (rewrite length_map; eapply lookup_lt_Some; eauto).
    by rewrite list_lookup_fmap, Hp.
  - apply lookup_ge_None in Hp.
    rewrite lookup_app_r by (rewrite length_map; lia).
    apply lookup_replicate_2. rewrite length_map. lia.
Qed.

Lemma compareLoop_lex aParts bParts N : forall n i,
  (i + n = N)%nat -> (length aParts <= N)%nat -> (length bParts <= N)%nat ->
  compareLoop aParts bParts i n =
    Spec.lexCompare (drop i (Spec.padTo N (map Fmt.Sscanf_d aParts)))
                    (drop i (Spec.padTo N (map Fmt.Sscanf_d bParts))).
Proof.
  induction n as [|n IH]; intros i Hi Ha Hb.
  - rewrite !drop_ge; [reflexivity | |];
      rewrite padTo_length; rewrite ?length_map; lia.
  - assert (Hlt : (i < N)%nat) by lia.
    pose proof (padTo_lookup N aParts i Hlt Ha) as Ea.
    pose proof (padTo_lookup N bParts i Hlt Hb) as Eb.
    rewrite (drop_S _ _ _ Ea), (drop_S _ _ _ Eb). cbn [compareLoop Spec.lexCompare].
    set (aVal := match aParts !! i with Some p => Fmt.Sscanf_d p | None => 0 end).
    set (bVal := match bParts !! i with Some p => Fmt.Sscanf_d p | None => 0 end).
    destruct (aVal <? bVal) eqn:E1; [reflexivity|].
    rewrite Z.gtb_ltb.
    destruct (bVal <? aVal) eqn:E2; [reflexivity|].
    apply IH; lia.
Qed.

Lemma compareVersions_scanned a b : compareVersions a b = Facts.compareScanned a b.
Proof.
  unfold compareVersions, Facts.compareScanned, Facts.scanned.
  rewrite !length_map.
  set (A := Split a "."). set (B := Split b ".").
  assert (E : (if (length A <? length B)%nat then length B else length A)
              = Nat.max (length A) (length B)).
  { destruct (Nat.ltb_spec (length A) (length B)); lia. }
  rewrite E.
  rewrite (compareLoop_lex A B (Nat.max (length A) (length B))) by lia.
  reflexivity.
Qed.

End CompareVersions.

(** ** The values read from the components *)

Section NumericPrefix.
Import Strings.

Lemma digit_isDigit c :
  Spec.digit c
  = if Fmt.isDigit c then Some (Z.of_N (code c) - 48) else None.
Proof.
  destruct c as [[] [] [] [] [] [] [] []]; vm_compute; reflexivity.
Qed.

(** The token of the scanner is the leading run of digits, and its
    conversion is the decimal value of that run. *)
Lemma parseDigits_scanNumber s : forall acc,
  Fmt.parseDigits acc (Fmt.scanNumber (list_ascii_of_string s))
  = Some (Spec.decimal acc s).
Proof.
  induction s as [|c t IH]; intros acc; [reflexivity|].
  cbn [list_ascii_of_string Fmt.scanNumber Spec.decimal].
  rewrite digit_isDigit. unfold Fmt.isDecimalDigitChar.
  destruct (Fmt.isDigit c) eqn:Hd; [|reflexivity].
  cbn [Fmt.parseDigits]. rewrite Hd. apply IH.
Qed.

Lemma scanNumber_empty c t :
  Fmt.scanNumber (c :: t) = [] -> Fmt.isDigit c = false.
Proof.
  cbn [Fmt.scanNumber]. unfold Fmt.isDecimalDigitChar.
  destruct (Fmt.isDigit c); [discriminate | reflexivity].
Qed.

(** No space is skipped before a component that leads plainly. *)
Lemma SkipSpace_plain c t :
  Spec.leadsPlainly (String c t) = true ->
  Fmt.SkipSpace (c :: list_ascii_of_string t)
  = Some (c :: list_ascii_of_string t)
  /\ (code c =? 45)%N = false /\ (code c =? 43)%N = false.
Proof.
  cbn [Spec.leadsPlainly]. intros H.
  destruct c as [[] [] [] [] [] [] [] []];
    try (vm_compute in H; discriminate H);
    (split; [|split; vm_compute; reflexivity]);
    cbn [Fmt.SkipSpace];
    (destruct (list_ascii_of_string t) as [|c2 [|c3 t3]]; reflexivity).
Qed.

(** On such a component the scanner reads the numeric prefix. *)
Lemma Sscanf_d_numericPrefix s :
  Spec.component s -> Fmt.Sscanf_d s = Spec.numericPrefix s.
Proof.
  intros [Hlead Hrange]. unfold Fmt.Sscanf_d, Fmt.scanInt.
  destruct s as [|c t]; [reflexivity|].
  cbn [list_ascii_of_string].
  destruct (SkipSpace_plain c t Hlead) as (-> & -> & ->). cbn [orb].
  unfold Fmt.ParseInt.
  pose proof (parseDigits_scanNumber (String c t) 0) as Hv.
  cbn [list_ascii_of_string] in Hv.
  destruct (Fmt.scanNumber (c :: list_ascii_of_string t)) as [|d tok] eqn:Htok.
  - apply scanNumber_empty in Htok.
    unfold Spec.numericPrefix. cbn [Spec.decimal].
    rewrite digit_isDigit, Htok. reflexivity.
  - rewrite Hv. fold (Spec.numericPrefix (String c t)).
    destruct (Z.ltb_spec (Spec.numericPrefix (String c t)) (2 ^ 63));
      [reflexivity | lia].
Qed.

Lemma scanned_segments v : Spec.dotted v -> Facts.scanned v = Spec.segments v.
Proof.
  unfold Spec.dotted, Facts.scanned, Spec.segments. intros H.
  induction H as [|s l Hs _ IH]; [reflexivity|].
  cbn [map]. rewrite IH, (Sscanf_d_numericPrefix s Hs). reflexivity.
Qed.

End NumericPrefix.

(** C6 (as the code has it). For every pair of version strings whose
    dot-separated components each begin with neither white space nor a
    sign and have a numeric prefix below 2^63, [compareVersions] is the
    segment-wise comparison of the numeric prefixes of the components, with
    missing trailing segments taken as zero; "1.0" compares equal to
    "1.0.0" and "1.10.0" compares greater than "1.9.0". *)
Theorem compareVersions_numeric_segments :
  (forall a b : string, Spec.dotted a -> Spec.dotted b ->
     Config.compareVersions a b = Spec.compare a b)
  /\ Config.compareVersions "1.0" "1.0.0" = 0
  /\ Config.compareVersions "1.10.0" "1.9.0" > 0.
Proof.
  split.
  - intros a b Ha Hb. rewrite compareVersions_scanned.
    unfold Facts.compareScanned, Spec.compare.
    rewrite (scanned_segments a Ha), (scanned_segments b Hb). reflexivity.
  - split; vm_compute; reflexivity.
Qed.

Lemma compareVersions_numeric_segments_witness :
  Config.compareVersions "1.10.0rc1" "1.9" = Spec.compare "1.10.0rc1" "1.9"
  /\ Spec.compare "1.10.0rc1" "1.9" = 1.
Proof.
  split; [|vm_compute; reflexivity].
  apply (proj1 compareVersions_numeric_segments "1.10.0rc1" "1.9").
  - repeat (apply List.Forall_cons;
            [split; [reflexivity | vm_compute; reflexivity]|]).
    apply List.Forall_nil.
  - repeat (apply List.Forall_cons;
            [split; [reflexivity | vm_compute; reflexivity]|]).
    apply List.Forall_nil.
Defined.

(** Why the components are restricted: a sign or white space in front of
    the digits is read by the scanner, and is no part of a numeric
    prefix. *)
Lemma compareVersions_signed_component :
  Config.compareVersions "1.-5" "1.0" = -1
  /\ Spec.compare "1.-5" "1.0" = 0
  /\ Config.compareVersions "1. 5" "1.0" = 1
  /\ Spec.compare "1. 5" "1.0" = 0.
Proof. repeat (split; [vm_compute; reflexivity|]). vm_compute; reflexivity. Qed.

(** C6, as stated for every pair of version strings, fails: a component
    of 2^63 or more is beyond the range of the variable the code scans it
    into, which then keeps its zero value, so that 9223372036854775808
    compares below 1 although its numeric value is greater. *)
Lemma compareVersions_beyond_int64 :
  Config.compareVersions "9223372036854775808" "1" = -1
  /\ Spec.compare "9223372036854775808" "1" = 1.
Proof. split; vm_compute; reflexivity. Qed.

(** * The repository's table tests, replayed on the model *)

Section RepositoryTests.
Import Config Python.

(** [TestCompareVersions] *)
Example test_compareVersions :
  map (fun '(a, b) => compareVersions a b)
    [("1.0.0", "1.0.0"); ("1.0.0", "2.0.0"); ("2.0.0", "1.0.0");
     ("1.0.0", "1.0.1"); ("1.0.1", "1.0.0"); ("1.0", "1.0.0");
     ("1.10.0", "1.9.0")]
  = [0; -1; 1; -1; 1; 0; 1].
Proof. vm_compute. reflexivity. Qed.

(** [TestMatchesVersion] *)
Example test_MatchesVersion :
  map (fun '(v, s) => MatchesVersion v s)
    [("1.0.0", ">=1.0"); ("1.0.0", ">=1.0.0"); ("1.0.0", ">1.0.0");
     ("2.0.0", ">1.0.0"); ("1.0.0", "<2.0"); ("2.0.0", "<2.0");
     ("1.0.0", "<=1.0.0"); ("1.0.0", "==1.0.0"); ("1.0.1", "==1.0.0");
     ("1.0.0", "!=1.0.0"); ("1.0.1", "!=1.0.0"); ("1.5.0", ">=1.0,<2.0");
     ("2.0.0", ">=1.0,<2.0"); ("0.9.0", ">=1.0,<2.0");
     ("1.4.5", "~=1.4.2"); ("1.5.0", "~=1.4.2")]
  = map (fun b => (b, None))
    [true; true; false; true; true; false; true; true; false; false; true;
     true; false; false; true; false].
Proof. vm_compute. reflexivity. Qed.

(** [TestIsValidPEP440] *)
Example test_isValidPEP440 :
  map isValidPEP440
    [">=1.0"; ">=1.0.0"; "<2.0"; "<=2.0.0"; ">1.5"; "==1.0.0"; "!=1.0.0";
     "~=1.4.2"; ">=1.0,<2.0"; ">=1.0, <2.0"; ""; "invalid"; "1.0.0"]
  = [true; true; true; true; true; true; true; true; true; true;
     false; false; false].
Proof. vm_compute. reflexivity. Qed.

(** [TestPythonCPVersion] and [TestWheelFilename] *)
Example test_PythonCPVersion :
  map PythonCPVersion SupportedPythonVersions
  = ["cp310"; "cp311"; "cp312"; "cp313"].
Proof. vm_compute. reflexivity. Qed.

Example test_WheelFilename :
  WheelFilename "numpy" "1.26.0" "3.12" "linux_aarch64"
    = "numpy-1.26.0-cp312-cp312-linux_aarch64.whl"
  /\ WheelFilename "my-package" "1.0.0" "3.11" "linux_aarch64"
    = "my_package-1.0.0-cp311-cp311-linux_aarch64.whl"
  /\ WheelFilename "foo" "1.0.0-beta1" "3.12" "linux_aarch64"
    = "foo-1.0.0_beta1-cp312-cp312-linux_aarch64.whl".
Proof. vm_compute. repeat split; reflexivity. Qed.

(** [TestGetEffectiveConfig] *)
Example test_getEffectiveConfig :
  map (fun v =>
         let eff := Builder.getEffectiveConfig
                      (Samples.builder [Samples.newer; Samples.older]) v in
         (Builder.SystemDeps eff, Builder.Env eff !! "FOO",
          Builder.Env eff !! "NEW", Builder.Patches eff, Builder.Script eff))
    ["1.8.0"; "2.1.0"; "1.2.0"]
  = [(["libfoo"], Some "bar", None, ["base.patch"], "");
     (["libfoo"; "libfoo-new"], Some "baz", Some "val",
      ["base.patch"; "new.patch"], "");
     (["libfoo"], Some "bar", None, ["base.patch"], "custom build")].
Proof. vm_compute. reflexivity. Qed.

(** [TestFindWheel] *)
Example test_findWheel :
  map (fun py =>
         fst (Builder.findWheel Samples.listing (Samples.builder []) "1.0.0" py
                (Samples.start
                   ["testpkg-1.0.0-cp310-cp310-linux_aarch64.whl";
                    "testpkg-1.0.0-cp311-cp311-linux_aarch64.whl";
                    "testpkg-1.0.0-cp312-cp312-linux_aarch64.whl"])))
    Python.SupportedPythonVersions
  = [("/tmp/build/dist/testpkg-1.0.0-cp310-cp310-linux_aarch64.whl", None);
     ("/tmp/build/dist/testpkg-1.0.0-cp311-cp311-linux_aarch64.whl", None);
     ("/tmp/build/dist/testpkg-1.0.0-cp312-cp312-linux_aarch64.whl", None);
     ("", Some (Builder.ErrNoWheel "3.13"))].
Proof. vm_compute. reflexivity. Qed.

End RepositoryTests.

(** * White space at the ends of a string *)

Section Trimming.
Import Strings.

(** Trimming at the front returns the input or something shorter. *)
Lemma trimLeft_shrinks : forall n l, (length l <= n)%nat ->
  trimLeft l = l \/ (length (trimLeft l) < length l)%nat.
Proof.
  induction n as [|n IH]; intros l Hn.
  { destruct l; [by left | cbn in Hn; lia]. }
  destruct l as [|c1 t1]; [by left|]. cbn in Hn. cbn [trimLeft].
  destruct (asciiSpace c1).
  { right. destruct (IH t1) as [->|]; cbn; lia. }
  destruct t1 as [|c2 t2]; [by left|]. cbn in Hn.
  destruct (space2 c1 c2).
  { right. destruct (IH t2) as [->|]; cbn; lia. }
  destruct t2 as [|c3 t3]; [by left|]. cbn in Hn.
  destruct (space3 c1 c2 c3); [|by left].
  right. destruct (IH t3) as [->|]; cbn; lia.
Qed.

Lemma trimLeftRev_shrinks : forall n l, (length l <= n)%nat ->
  trimLeftRev l = l \/ (length (trimLeftRev l) < length l)%nat.
Proof.
  induction n as [|n IH]; intros l Hn.
  { destruct l; [by left | cbn in Hn; lia]. }
  destruct l as [|c1 t1]; [by left|]. cbn in Hn. cbn [trimLeftRev].
  destruct (asciiSpace c1).
  { right. destruct (IH t1) as [->|]; cbn; lia. }
  destruct t1 as [|c2 t2]; [by left|]. cbn in Hn.
  destruct (space2 c2 c1).
  { right. destruct (IH t2) as [->|]; cbn; lia. }
  destruct t2 as [|c3 t3]; [by left|]. cbn in Hn.
  destruct (space3 c3 c2 c1); [|by left].
  right. destruct (IH t3) as [->|]; cbn; lia.
Qed.

Lemma trimRight_shrinks l :
  trimRight l = l \/ (length (trimRight l) < length l)%nat.
Proof.
  unfold trimRight.
  destruct (trimLeftRev_shrinks (length (rev l)) (rev l)) as [E|H]; [lia| |].
  - left. rewrite E. apply rev_involutive.
  - right. rewrite length_rev in *. exact H.
Qed.

(** A string that trimming leaves alone is left alone by trimming at
    either end. *)
Lemma trim_fixed l :
  trimRight (trimLeft l) = l -> trimLeft l = l /\ trimRight l = l.
Proof.
  intros H.
  destruct (trimLeft_shrinks (length l) l) as [E|Hlt]; [lia| |].
  - rewrite E in H. auto.
  - exfalso. destruct (trimRight_shrinks (trimLeft l)) as [E|Hlt'].
    + rewrite E in H. rewrite H in Hlt. lia.
    + rewrite H in Hlt'. lia.
Qed.

(** The bytes of an operator are no part of a white-space rune: trimming at
    the end stops in front of them. *)
Lemma trimLeftRev_operator (o1 o2 : ascii) :
  Regexp.oneOf "<>=!~" o1 = true -> Regexp.oneOf "<>=!~" o2 = true ->
  forall n l, (length l <= n)%nat ->
    trimLeftRev (l ++ [o2; o1]) = trimLeftRev l ++ [o2; o1].
Proof.
  intros H1 H2.
  assert (Hop : forall o, Regexp.oneOf "<>=!~" o = true ->
            asciiSpace o = false
            /\ (forall c, space2 o c = false)
            /\ (forall c d, space3 o c d = false)).
  { intros o Ho. cbn in Ho.
    repeat (apply orb_true_iff in Ho as [Ho|Ho];
            [apply Ascii.eqb_eq in Ho; subst o; repeat split|]);
      discriminate. }
  destruct (Hop o1 H1) as (A1 & B1 & C1).
  destruct (Hop o2 H2) as (A2 & B2 & C2).
  induction n as [|n IH]; intros l Hn.
  { destruct l; [|cbn in Hn; lia]. cbn. by rewrite A2, B1, ?A1. }
  destruct l as [|c1 t1].
  { cbn. by rewrite A2, B1. }
  cbn in Hn. cbn [app trimLeftRev].
  destruct (asciiSpace c1) eqn:E1.
  { apply IH. lia. }
  destruct t1 as [|c2 t2].
  { cbn. by rewrite B2, C1. }
  cbn in Hn. cbn [app].
  destruct (space2 c2 c1) eqn:E2.
  { apply IH. lia. }
  destruct t2 as [|c3 t3].
  { cbn. by rewrite C2. }
  cbn in Hn. cbn [app].
  destruct (space3 c3 c2 c1) eqn:E3; [|reflexivity].
  apply IH. lia.
Qed.

End Trimming.

Section TrimmedClause.
Import Strings.

Lemma trimLeft_operator l :
  trimLeft ("~"%char :: "="%char :: l) = "~"%char :: "="%char :: l.
Proof. destruct l; reflexivity. Qed.

(** A trimmed specifier version stays as it is behind the operator. *)
Lemma TrimSpace_compatible S :
  TrimSpace S = S -> TrimSpace ("~=" +:+ S) = "~=" +:+ S.
Proof.
  unfold TrimSpace. intros H.
  apply (f_equal list_ascii_of_string) in H.
  rewrite list_ascii_of_string_of_list_ascii in H.
  apply trim_fixed in H as [_ Hr].
  change (list_ascii_of_string ("~=" +:+ S))
    with ("~"%char :: "="%char :: list_ascii_of_string S).
  rewrite trimLeft_operator. unfold trimRight in *.
  cbn [rev]. rewrite <- app_assoc. cbn [app].
  rewrite (trimLeftRev_operator "~" "=" eq_refl eq_refl
             (length (rev (list_ascii_of_string S)))) by lia.
  rewrite rev_app_distr. cbn [rev app]. rewrite Hr.
  cbn [string_of_list_ascii]. by rewrite string_of_list_ascii_of_string.
Qed.

Lemma TrimSpace_idempotent_fixed s :
  TrimSpace s = s -> TrimSpace (TrimSpace s) = s.
Proof. intros H. by rewrite !H. Qed.

(** A string without the separator is a single part. *)
Lemma Split_lacks s sep : Spec.lacks sep s = true -> Split s sep = [s].
Proof.
  induction s as [|c t IH]; intros H; [reflexivity|].
  cbn in H. apply andb_true_iff in H as [Hc Ht].
  apply negb_true_iff in Hc. cbn [Split]. rewrite Hc, (IH Ht). reflexivity.
Qed.

End TrimmedClause.

(** * The version matcher *)

Section Matcher.
Import Strings Config.

Lemma Split_nonempty s sep : Split s sep <> [].
Proof.
  destruct s as [|c t]; cbn; [discriminate|].
  destruct (Ascii.eqb c sep); [discriminate|].
  destruct (Split t sep); discriminate.
Qed.

Lemma HasPrefix_empty s : HasPrefix s "" = true.
Proof. destruct s; reflexivity. Qed.

(** What the compatible-release branch computes from the parts of the
    specifier version, in one expression. *)
Lemma release_prefix_branch (version : string) (parts : list string) :
  parts <> [] ->
  (if (1 <? length parts)%nat
   then (HasPrefix version (Join (take (length parts - 1) parts) "."),
         @None error)
   else (true, None))
  = (HasPrefix version (Join (removelast parts) "."), None).
Proof.
  intros Hne. rewrite removelast_firstn_len.
  replace (Init.Nat.pred (length parts)) with (length parts - 1)%nat by lia.
  destruct (Nat.ltb_spec 1 (length parts)) as [H|H]; [reflexivity|].
  destruct parts as [|p [|q parts]]; [congruence| |cbn in H; lia].
  cbn. by rewrite HasPrefix_empty.
Qed.

(** A clause that reads [~=] followed by [rest] selects the operator
    [~=] and the trimmed [rest] as the specifier version. *)
Lemma extractOperator_compatible rest :
  extractOperator ("~=" +:+ rest) operatorPrefixes
  = ("~=", TrimSpace rest).
Proof. destruct rest; reflexivity. Qed.

End Matcher.

(** The compatible-release branch of [matchSingleSpec], for a clause that
    reads [~=] followed by [rest] once it is trimmed. *)
Lemma matchSingleSpec_compatible (V clause rest : string) :
  Strings.TrimSpace clause = "~=" +:+ rest ->
  Config.matchSingleSpec V clause
  = ((0 <=? Config.compareVersions V (Strings.TrimSpace rest))
     && Strings.HasPrefix V (Spec.releasePrefix (Strings.TrimSpace rest)),
     None).
Proof.
  intros Hclause.
  unfold Config.matchSingleSpec. rewrite Hclause, extractOperator_compatible.
  cbn [String.eqb Ascii.eqb Bool.eqb]. cbv iota.
  set (S := Strings.TrimSpace rest).
  set (cmp := Config.compareVersions V S).
  destruct (Z.ltb_spec cmp 0) as [Hlt|Hge].
  - replace (0 <=? cmp) with false by (symmetry; apply Z.leb_gt; lia).
    reflexivity.
  - replace (0 <=? cmp) with true by (symmetry; apply Z.leb_le; lia).
    cbn [andb]. unfold Spec.releasePrefix.
    rewrite release_prefix_branch by apply Split_nonempty. reflexivity.
Qed.

(** The compatible-release clause as the code evaluates it.  For a
    specifier version [S] (a string without white space at its ends and
    without a comma) and every candidate [V], the matcher trims the
    candidate, returns no error, and answers whether [V >= S] under the
    version comparison and the bytes of [V] start with [S] up to but
    excluding its last dotted segment. *)
Lemma compatible_release_as_coded (V S : string) :
  Strings.TrimSpace S = S ->
  Spec.lacks "," S = true ->
  Config.MatchesVersion V ("~=" +:+ S)
  = ((0 <=? Config.compareVersions (Strings.TrimSpace V) S)
     && Strings.HasPrefix (Strings.TrimSpace V) (Spec.releasePrefix S),
     None).
Proof.
  intros Htrim Hcomma.
  unfold Config.MatchesVersion.
  rewrite (TrimSpace_compatible S Htrim).
  rewrite (Split_lacks ("~=" +:+ S) ",") by exact Hcomma.
  cbn [Config.matchParts].
  rewrite (TrimSpace_compatible S Htrim).
  rewrite (matchSingleSpec_compatible (Strings.TrimSpace V) ("~=" +:+ S) S)
    by exact (TrimSpace_compatible S Htrim).
  rewrite Htrim.
  destruct ((0 <=? Config.compareVersions (Strings.TrimSpace V) S)
            && Strings.HasPrefix (Strings.TrimSpace V) (Spec.releasePrefix S));
    reflexivity.
Qed.

(** C3. The compatible-release clause tests the prefix on the bytes of the
    candidate, not on its dotted segments.  "1.40.0" is not below "1.4.2"
    and starts with the bytes "1.4", so it is matched by "~=1.4.2"; "10.0"
    is matched by "~=1.0" likewise.  Neither shares the segments of the
    specifier's version before the last, which the claim requires and the
    comment of the branch promises ([~=X.Y] means [>=X.Y, ==X.*]).  The two
    examples of the claim evaluate as stated. *)
Theorem compatible_release_crosses_segments :
  Config.MatchesVersion "1.40.0" "~=1.4.2" = (true, None)
  /\ Config.compareVersions "1.40.0" "1.4.2" = 1
  /\ Strings.HasPrefix "1.40.0" (Spec.releasePrefix "1.4.2") = true
  /\ Spec.sharesReleasePrefix "1.40.0" "1.4.2" = false
  /\ Config.MatchesVersion "10.0" "~=1.0" = (true, None)
  /\ Spec.sharesReleasePrefix "10.0" "1.0" = false
  /\ Config.MatchesVersion "1.4.5" "~=1.4.2" = (true, None)
  /\ Spec.sharesReleasePrefix "1.4.5" "1.4.2" = true
  /\ Config.MatchesVersion "1.5.0" "~=1.4.2" = (false, None)
  /\ Spec.sharesReleasePrefix "1.5.0" "1.4.2" = false.
Proof. repeat (split; [vm_compute; reflexivity|]). vm_compute; reflexivity. Qed.

(** * Effective-configuration resolution *)

Section Resolution.
Import Config Builder.

(** Filling a map by assignment of every entry of [src] is the union in
    which [src] wins. *)
Lemma copyInto_union (src dst : gmap string string) :
  copyInto src dst = src ∪ dst.
Proof.
  unfold copyInto.
  apply (map_fold_weak_ind
           (fun (r : gmap string string) (m : gmap string string) =>
              r = m ∪ dst)).
  - by rewrite (left_id_L ∅ (∪)).
  - intros k v m r _ ->. by rewrite insert_union_l.
Qed.

Lemma baseConfig_fields (c : Config.Config) :
  baseConfig c =
    {| SystemDeps := Config.SystemDeps c; Env := Config.Env c;
       Patches := Config.Patches c; Script := Config.Script c |}.
Proof.
  unfold baseConfig. rewrite copyInto_union, (right_id_L ∅ (∪)).
  reflexivity.
Qed.

(** An override is passed over when the matcher reports an error or
    answers [false]. *)
Lemma applyOverrides_continue version cfg o rest :
  ~ Spec.satisfies version o ->
  applyOverrides version cfg (o :: rest) = applyOverrides version cfg rest.
Proof.
  unfold Spec.satisfies. intros Hno. cbn [applyOverrides].
  destruct (MatchesVersion version (Match o)) as [[|] [e|]];
    try reflexivity.
  congruence.
Qed.

Lemma applyOverrides_error version cfg o rest e :
  snd (MatchesVersion version (Match o)) = Some e ->
  applyOverrides version cfg (o :: rest) = applyOverrides version cfg rest.
Proof.
  intros He. apply applyOverrides_continue. unfold Spec.satisfies.
  intros Hs. rewrite Hs in He. discriminate.
Qed.

Lemma applyOverrides_break version cfg o rest :
  Spec.satisfies version o ->
  applyOverrides version cfg (o :: rest) = mergeOverride cfg o.
Proof.
  unfold Spec.satisfies. intros Hs. cbn [applyOverrides]. by rewrite Hs.
Qed.

Lemma applyOverrides_prefix version cfg pre rest :
  Forall (fun o => ~ Spec.satisfies version o) pre ->
  applyOverrides version cfg (pre ++ rest) = applyOverrides version cfg rest.
Proof.
  induction 1 as [|o pre Ho _ IH]; [reflexivity|].
  rewrite <- app_comm_cons, applyOverrides_continue by assumption.
  exact IH.
Qed.

Lemma withOverrides_base b overrides :
  baseConfig (Config (Spec.withOverrides b overrides))
  = baseConfig (Config b).
Proof. reflexivity. Qed.

Lemma withOverrides_overrides b overrides :
  Overrides (Config (Spec.withOverrides b overrides)) = overrides.
Proof. reflexivity. Qed.

Lemma getEffectiveConfig_first version b pre o post :
  Overrides (Config b) = pre ++ o :: post ->
  Forall (fun o' => ~ Spec.satisfies version o') pre ->
  Spec.satisfies version o ->
  getEffectiveConfig b version = mergeOverride (baseConfig (Config b)) o.
Proof.
  intros HO Hpre Ho. unfold getEffectiveConfig.
  rewrite HO, applyOverrides_prefix by assumption.
  by apply applyOverrides_break.
Qed.

End Resolution.



(** C2. Merge semantics of the applied override: the list fields are the
    base entries followed by the override's, in order and without
    de-duplication; the map field has every key of either map, with the
    override's value on a key of both; the script is the override's when
    that is non-empty and the base script otherwise. *)
Theorem merge_semantics (b : Builder.Builder) (version : string)
    (pre post : list Config.Override) (o : Config.Override) :
  Config.Overrides (Builder.Config b) = pre ++ o :: post ->
  Forall (fun o' => ~ Spec.satisfies version o') pre ->
  Spec.satisfies version o ->
  let base := Builder.Config b in
  let eff := Builder.getEffectiveConfig b version in
  Builder.SystemDeps eff = Config.SystemDeps base ++ Config.OSystemDeps o
  /\ Builder.Patches eff = Config.Patches base ++ Config.OPatches o
  /\ (forall k : string,
        Builder.Env eff !! k =
          match Config.OEnv o !! k with
          | Some v => Some v
          | None => Config.Env base !! k
          end)
  /\ (Config.OScript o <> "" -> Builder.Script eff = Config.OScript o)
  /\ (Config.OScript o = "" -> Builder.Script eff = Config.Script base).
Proof.
  intros HO Hpre Ho base eff. subst eff base.
  rewrite (getEffectiveConfig_first version b pre o post) by assumption.
  rewrite baseConfig_fields. cbn [Builder.mergeOverride Builder.SystemDeps
    Builder.Patches Builder.Env Builder.Script].
  repeat split.
  - intros k. rewrite copyInto_union, lookup_union.
    destruct (Config.OEnv o !! k), (Config.Env (Builder.Config b) !! k);
      reflexivity.
  - intros Hne. apply String.eqb_neq in Hne. by rewrite Hne.
  - intros ->. reflexivity.
Qed.

Lemma merge_semantics_witness :
  let eff := Builder.getEffectiveConfig
               (Samples.builder [Samples.newer; Samples.older]) "2.1.0" in
  Builder.SystemDeps eff = ["libfoo"; "libfoo-new"]
  /\ Builder.Patches eff = ["base.patch"; "new.patch"]
  /\ Builder.Env eff !! "FOO" = Some "baz"
  /\ Builder.Env eff !! "NEW" = Some "val"
  /\ Builder.Script eff = "".
Proof.
  destruct (merge_semantics (Samples.builder [Samples.newer; Samples.older])
              "2.1.0" [] [Samples.older] Samples.newer eq_refl
              (List.Forall_nil _) eq_refl)
    as (Hdeps & Hpatches & Henv & _ & Hscript).
  exact (conj Hdeps (conj Hpatches (conj (Henv "FOO") (conj (Henv "NEW")
           (Hscript eq_refl))))).
Defined.

(** C10. An override whose specifier the matcher cannot parse for the
    target version is passed over without a report: the effective
    configuration, which is always produced, is the one resolution gives
    for the list without that override. *)
Theorem unparsable_override_skipped (b : Builder.Builder) (version : string)
    (pre post : list Config.Override) (o : Config.Override)
    (e : Config.error) :
  Config.Overrides (Builder.Config b) = pre ++ o :: post ->
  snd (Config.MatchesVersion version (Config.Match o)) = Some e ->
  Builder.getEffectiveConfig b version
  = Builder.getEffectiveConfig (Spec.withOverrides b (pre ++ post)) version.
Proof.
  intros HO He. unfold Builder.getEffectiveConfig.
  rewrite HO, withOverrides_base, withOverrides_overrides.
  generalize (Builder.baseConfig (Builder.Config b)) as cfg. intros cfg.
  clear HO. induction pre as [|p pre IH].
  - cbn [app]. eapply applyOverrides_error; eauto.
  - rewrite <- !app_comm_cons. cbn [Builder.applyOverrides].
    destruct (Config.MatchesVersion version (Config.Match p)) as [m err].
    destruct (bool_decide (err <> None) || negb m); [exact IH | reflexivity].
Qed.

Lemma unparsable_override_skipped_witness :
  Config.isValidPEP440 (Config.Match Samples.unparsable) = true
  /\ Config.MatchesVersion "1.0" (Config.Match Samples.newer) = (false, None)
  /\ Config.MatchesVersion "1.0" (Config.Match Samples.unparsable)
     = (false, Some (Config.ErrInvalidSpecifier "=1.0"))
  /\ Builder.getEffectiveConfig
       (Samples.builder [Samples.newer; Samples.unparsable; Samples.broad])
       "1.0"
     = Builder.getEffectiveConfig
         (Spec.withOverrides
            (Samples.builder
               [Samples.newer; Samples.unparsable; Samples.broad])
            ([Samples.newer] ++ [Samples.broad])) "1.0"
  /\ Builder.Script
       (Builder.getEffectiveConfig
          (Samples.builder [Samples.newer; Samples.unparsable; Samples.broad])
          "1.0") = "make wheel"
  /\ Builder.SystemDeps
       (Builder.getEffectiveConfig
          (Samples.builder [Samples.newer; Samples.unparsable; Samples.broad])
          "1.0") = ["libfoo"; "libbar"].
Proof.
  split; [vm_compute; reflexivity|].
  split; [vm_compute; reflexivity|].
  split; [vm_compute; reflexivity|].
  split; [|split; vm_compute; reflexivity].
  exact (unparsable_override_skipped
           (Samples.builder [Samples.newer; Samples.unparsable; Samples.broad])
           "1.0" [Samples.newer] [Samples.broad] Samples.unparsable
           (Config.ErrInvalidSpecifier "=1.0") eq_refl eq_refl).
Defined.

(** C5. The validation pattern takes any run of the characters [<>=!~] for
    an operator, the matcher only the seven operators: the specifier "=1.0"
    passes [isValidPEP440], and matching any version against it ends in
    the parse-error branch. *)
Theorem validated_specifier_fails_to_parse :
  Config.isValidPEP440 "=1.0" = true
  /\ forall version : string,
       Config.MatchesVersion version "=1.0"
       = (false, Some (Config.ErrInvalidSpecifier "=1.0")).
Proof.
  split; [vm_compute; reflexivity|].
  intros version. unfold Config.MatchesVersion.
  replace (Strings.Split (Strings.TrimSpace "=1.0") ",") with ["=1.0"]
    by (vm_compute; reflexivity).
  cbn [Config.matchParts]. unfold Config.matchSingleSpec.
  replace (Strings.TrimSpace (Strings.TrimSpace "=1.0")) with "=1.0"
    by (vm_compute; reflexivity).
  reflexivity.
Qed.

(** * Artifact file names *)

Section WheelNames.
Import Strings Python.

Lemma append_cons c s t : String c s +:+ t = String c (s +:+ t).
Proof. reflexivity. Qed.

Lemma append_empty t : "" +:+ t = t.
Proof. reflexivity. Qed.

Lemma normalizedName_ReplaceAll name :
  ReplaceAll (ReplaceAll name "-" "_") "." "_" = Spec.normalizedName name.
Proof.
  induction name as [|c t IH]; [reflexivity|].
  cbn [ReplaceAll Spec.normalizedName Spec.mapBytes].
  destruct (Ascii.eqb c "-") eqn:Edash.
  - rewrite append_cons, append_empty. cbn. f_equal. exact IH.
  - cbn [ReplaceAll orb].
    destruct (Ascii.eqb c "."); rewrite ?append_cons, ?append_empty;
      f_equal; exact IH.
Qed.

Lemma normalizedVersion_ReplaceAll version :
  ReplaceAll version "-" "_" = Spec.normalizedVersion version.
Proof.
  induction version as [|c t IH]; [reflexivity|].
  cbn [ReplaceAll Spec.normalizedVersion Spec.mapBytes].
  destruct (Ascii.eqb c "-"); rewrite ?append_cons, ?append_empty;
    f_equal; exact IH.
Qed.

(** Removing the first dot of [major.minor] leaves [major] and [minor]
    side by side when [major] holds no dot. *)
Lemma ReplaceFirst_dot major minor :
  Spec.lacks "." major = true ->
  ReplaceFirst (major +:+ "." +:+ minor) "." "" = major +:+ minor.
Proof.
  induction major as [|c t IH]; intros Hno; [reflexivity|].
  cbn in Hno. apply andb_true_iff in Hno as [Hc Ht].
  apply negb_true_iff in Hc. rewrite !append_cons. cbn [ReplaceFirst].
  rewrite Hc. f_equal. exact (IH Ht).
Qed.

Lemma ReplaceFirst_none s :
  Spec.lacks "." s = true -> ReplaceFirst s "." "" = s.
Proof.
  induction s as [|c t IH]; intros Hno; [reflexivity|].
  cbn in Hno. apply andb_true_iff in Hno as [Hc Ht].
  apply negb_true_iff in Hc. cbn [ReplaceFirst]. rewrite Hc.
  f_equal. exact (IH Ht).
Qed.

End WheelNames.

(** C9. The wheel file name is
    [{normalizedName}-{normalizedVersion}-{tag}-{tag}-{platform}.whl]:
    the name with every [-] and [.] turned into [_], the version with
    every [-] turned into [_], and for the tag "cp" followed by the runtime
    identifier [major.minor] without its dot; the name for "zope.interface"
    6.0 on runtime 3.10 and linux_aarch64 is as the specification gives
    it. *)
Theorem wheel_filename_convention
    (packageName version platform major minor : string) :
  Spec.lacks "." major = true ->
  Python.WheelFilename packageName version (major +:+ "." +:+ minor) platform
  = Spec.normalizedName packageName +:+ "-"
    +:+ Spec.normalizedVersion version +:+ "-"
    +:+ ("cp" +:+ major +:+ minor) +:+ "-"
    +:+ ("cp" +:+ major +:+ minor) +:+ "-" +:+ platform +:+ ".whl"
  /\ Python.WheelFilename "zope.interface" "6.0" "3.10" "linux_aarch64"
     = "zope_interface-6.0-cp310-cp310-linux_aarch64.whl".
Proof.
  intros Hno. split; [|vm_compute; reflexivity].
  unfold Python.WheelFilename, Python.PythonABI, Python.PythonCPVersion.
  rewrite normalizedName_ReplaceAll, normalizedVersion_ReplaceAll.
  rewrite ReplaceFirst_dot by assumption. reflexivity.
Qed.

Lemma wheel_filename_convention_witness :
  Spec.lacks "." "3" = true
  /\ Python.WheelFilename "my-package" "1.0.0-beta1" ("3" +:+ "." +:+ "12")
       "linux_aarch64"
     = "my_package-1.0.0_beta1-cp312-cp312-linux_aarch64.whl".
Proof.
  split; [reflexivity|].
  exact (proj1 (wheel_filename_convention "my-package" "1.0.0-beta1"
                  "linux_aarch64" "3" "12" eq_refl)).
Defined.

(** * Build attempts *)

Section Attempts.
Import Strings Builder.
Context {W : Type}.
Variable exec : Cmd -> W -> string * option error * W.
Variable readDir : string -> W -> list string.

Abbreviation candidates := (Spec.candidates readDir).

Lemma candidates_elem b python w m :
  m ∈ candidates b python w <->
  exists name, m = Filepath.Join (DistDir b) name
               /\ name ∈ readDir (DistDir b) w
               /\ Spec.tagged python name = true.
Proof.
  unfold Spec.candidates. rewrite list_elem_of_fmap.
  split; intros (name & Hm & Hin); exists name.
  - apply list_elem_of_filter in Hin. tauto.
  - split; [tauto|]. apply list_elem_of_filter. tauto.
Qed.

(** [findWheel] reads the directory and leaves the state alone; it fails
    exactly when no entry carries the runtime tag, and otherwise returns
    one of the tagged entries, one that mentions the version if there is
    any. *)
Lemma findWheel_cases b version python st :
  (candidates b python (world st) = []
   /\ findWheel readDir b version python st
      = ((EmptyString, Some (ErrNoWheel python)), st))
  \/ (exists m, m ∈ candidates b python (world st)
                /\ (forall m', m' ∈ candidates b python (world st) ->
                       mentionsVersion version m' = true ->
                       mentionsVersion version m = true)
                /\ findWheel readDir b version python st = ((m, None), st)).
Proof.
  unfold findWheel, bind, Glob, ret.
  fold (Spec.runtimePattern python).
  change (map (Filepath.Join (DistDir b)) _)
    with (candidates b python (world st)).
  destruct (List.find (mentionsVersion version)
              (candidates b python (world st))) as [m|] eqn:Hfind.
  - right. exists m. apply find_some in Hfind as [Hin Hm].
    split; [by apply list_elem_of_In|]. split; [auto | reflexivity].
  - destruct (candidates b python (world st)) as [|m rest] eqn:Hc.
    + left. split; reflexivity.
    + right. exists m. split; [apply list_elem_of_here|].
      split; [|reflexivity].
      intros m' Hin Hm'. apply list_elem_of_In in Hin.
      rewrite (find_none _ _ Hfind m' Hin) in Hm'. discriminate.
Qed.

(** The result of an attempt whose command exited zero is decided by
    [findWheel] on the world the command left. *)
Lemma buildForPython_exit_zero b version python cfg st out w :
  exec (buildCommand b python cfg) (world st) = (out, None, w) ->
  (candidates b python w = []
   /\ fst (buildForPython exec readDir b version python cfg st)
      = {| Version := version; Python := python; WheelPath := EmptyString;
           Success := false;
           Log := out +:+ newline +:+ Error (ErrNoWheel python);
           Err := Some (ErrNoWheel python) |})
  \/ (exists m, m ∈ candidates b python w
                /\ (forall m', m' ∈ candidates b python w ->
                       mentionsVersion version m' = true ->
                       mentionsVersion version m = true)
                /\ fst (buildForPython exec readDir b version python cfg st)
                   = {| Version := version; Python := python;
                        WheelPath := m; Success := true; Log := out;
                        Err := None |}).
Proof.
  intros Hexec. unfold buildForPython, bind, run. rewrite Hexec.
  set (st' := {| world := w; ran := ran st ++ [buildCommand b python cfg] |}).
  destruct (findWheel_cases b version python st')
    as [[Hnone Hfw] | (m & Hin & Hpref & Hfw)]; rewrite Hfw.
  - left. split; [exact Hnone | reflexivity].
  - right. exists m. split; [exact Hin|]. split; [exact Hpref | reflexivity].
Qed.

End Attempts.

(** * Source checkout *)

Section CheckoutFailure.
Import Builder.
Context {W : Type}.
Variable exec : Cmd -> W -> string * option error * W.
Variable readDir : string -> W -> list string.

(** A command adds itself to the record of commands run. *)
Lemma run_ran c st :
  ran (snd (run exec c st)) = ran st ++ [c].
Proof.
  unfold run. destruct (exec c (world st)) as [[out err] w]. reflexivity.
Qed.

(** [Checkout] runs [git] and nothing else. *)
Lemma Checkout_runs_git b ref st :
  exists cmds,
    ran (snd (Checkout exec b ref st)) = ran st ++ cmds
    /\ Forall (fun c => Path c = "git") cmds.
Proof.
  unfold Checkout, bind, ret, run.
  repeat match goal with
         | |- context [exec ?c ?w] =>
             destruct (exec c w) as [[? [?|]] ?]; cbn
         end;
    eexists; (split; [rewrite <- ?app_assoc; reflexivity|]);
    repeat constructor.
Qed.

Lemma Build_checkout_failed b v pythonVersions st e st' :
  Checkout exec b (Config.Tag v) st = (Some e, st') ->
  Build exec readDir b v pythonVersions st
  = (map (failedResult (Config.VersionOf v) e) pythonVersions, st').
Proof. intros H. unfold Build, bind. rewrite H. reflexivity. Qed.

End CheckoutFailure.

(** C7. When the checkout of a version's tag fails, [Build] returns one
    failed result per runtime of the list, in order, each with the checkout
    error; the machine is left as the checkout left it, and the commands
    run are [git] commands only, so that no build command was attempted.
    The run over the versions goes on with the next version. *)
Theorem checkout_failure_fails_every_runtime {W : Type}
    (exec : Builder.Cmd -> W -> string * option Builder.error * W)
    (readDir : string -> W -> list string)
    (b : Builder.Builder) (v : Config.Version) (pythonVersions : list string)
    (st st' : Builder.State) (e : Builder.error) :
  Builder.Checkout exec b (Config.Tag v) st = (Some e, st') ->
  let results := fst (Builder.Build exec readDir b v pythonVersions st) in
  results = map (Builder.failedResult (Config.VersionOf v) e) pythonVersions
  /\ length results = length pythonVersions
  /\ (forall i py, pythonVersions !! i = Some py ->
        exists r, results !! i = Some r
                  /\ Builder.Python r = py
                  /\ Builder.Version r = Config.VersionOf v
                  /\ Builder.Success r = false
                  /\ Builder.Err r = Some e)
  /\ snd (Builder.Build exec readDir b v pythonVersions st) = st'
  /\ (exists cmds,
        Builder.ran st' = Builder.ran st ++ cmds
        /\ Forall (fun c => Builder.Path c = "git") cmds
        /\ forall py cfg, Builder.buildCommand b py cfg ∉ cmds)
  /\ forall rest acc,
       Builder.buildVersions exec readDir b (v :: rest) pythonVersions acc st
       = Builder.buildVersions exec readDir b rest pythonVersions
           (<[Config.VersionOf v := results]> acc) st'.
Proof.
  intros Hco results. subst results.
  rewrite (Build_checkout_failed exec readDir b v pythonVersions st e st' Hco).
  cbn [fst snd].
  split; [reflexivity|]. split; [apply length_map|].
  split.
  { intros i py Hpy. eexists. rewrite list_lookup_fmap, Hpy.
    split; [reflexivity|]. repeat split. }
  split; [reflexivity|].
  split.
  { destruct (Checkout_runs_git exec b (Config.Tag v) st)
      as (cmds & Hran & Hgit).
    rewrite Hco in Hran. exists cmds. split; [exact Hran|].
    split; [exact Hgit|].
    intros py cfg Hin. rewrite Forall_forall in Hgit.
    specialize (Hgit _ Hin). unfold Builder.buildCommand in Hgit.
    cbn [Builder.Path] in Hgit.
    destruct (negb (String.eqb (Builder.Script cfg) "")); discriminate. }
  intros rest acc. cbn [Builder.buildVersions]. unfold Builder.bind at 1.
  rewrite (Build_checkout_failed exec readDir b v pythonVersions st e st' Hco).
  reflexivity.
Qed.

Lemma checkout_failure_fails_every_runtime_witness :
  fst (Builder.Build Samples.gitDown Samples.listing (Samples.builder [])
         Samples.v100 Python.SupportedPythonVersions (Samples.start []))
  = map (Builder.failedResult "1.0.0"
           (Builder.ErrFetchingRef "v1.0.0"
              (Builder.OSError "exit status 128")
              "fatal: not a git repository"))
      Python.SupportedPythonVersions.
Proof.
  exact (proj1 (checkout_failure_fails_every_runtime
                  Samples.gitDown Samples.listing (Samples.builder [])
                  Samples.v100 Python.SupportedPythonVersions
                  (Samples.start [])
                  (snd (Builder.Checkout Samples.gitDown (Samples.builder [])
                          "v1.0.0" (Samples.start [])))
                  (Builder.ErrFetchingRef "v1.0.0"
                     (Builder.OSError "exit status 128")
                     "fatal: not a git repository")
                  eq_refl)).
Defined.

(** * Skip documents *)

Section SkipDocuments.
Import Config Parse.
Variable Marshal : Skips -> string * option error.
Variable Unmarshal : string -> Skips * option error.

Lemma LoadSkips_absent fs path :
  path ∉ faulty fs -> files fs !! path = None ->
  LoadSkips Unmarshal fs path = (Some {| SkipList := [] |}, None).
Proof.
  intros Hok Habs. unfold LoadSkips, ReadFile.
  rewrite bool_decide_eq_false_2 by assumption. rewrite Habs. reflexivity.
Qed.

Lemma SaveSkips_empty fs skips path :
  path ∉ faulty fs -> SkipList skips = [] ->
  exists fs',
    SaveSkips Marshal fs skips path = (None, fs')
    /\ files fs' = delete path (files fs)
    /\ faulty fs' = faulty fs.
Proof.
  intros Hok Hemp. unfold SaveSkips, Remove. rewrite Hemp. cbn [length Nat.eqb].
  rewrite bool_decide_eq_false_2 by assumption.
  destruct (files fs !! path) as [data|] eqn:Hp.
  - eexists. split; [reflexivity|]. split; reflexivity.
  - exists fs. split; [reflexivity|]. split; [|reflexivity].
    symmetry. by apply delete_id.
Qed.

Lemma SaveSkips_nonempty fs skips path data :
  path ∉ faulty fs -> Filepath.Dir path ∉ faulty fs ->
  SkipList skips <> [] -> Marshal skips = (data, None) ->
  exists fs',
    SaveSkips Marshal fs skips path = (None, fs')
    /\ files fs' = <[path := data]> (files fs)
    /\ faulty fs' = faulty fs.
Proof.
  intros Hok Hdir Hne Hm. unfold SaveSkips, MkdirAll, WriteFile.
  destruct (SkipList skips) as [|s l]; [congruence|]. cbn [length Nat.eqb].
  rewrite Hm. rewrite !bool_decide_eq_false_2 by assumption.
  eexists. split; [reflexivity|]. split; reflexivity.
Qed.

End SkipDocuments.

(** C8. On a file system whose operations on the path and its directory
    do not fail: loading the skip document of an absent file gives the
    empty skip list and no error; saving an empty skip list succeeds and
    leaves no file at the path, whether or not one was there, and touches
    no other file; saving a non-empty skip list that serializes writes the
    serialized document to the file. *)
Theorem skip_document_absent_is_empty
    (Marshal : Config.Skips -> string * option Parse.error)
    (Unmarshal : string -> Config.Skips * option Parse.error)
    (fs : Parse.FS) (path : string) :
  path ∉ Parse.faulty fs ->
  Filepath.Dir path ∉ Parse.faulty fs ->
  (Parse.files fs !! path = None ->
   Parse.LoadSkips Unmarshal fs path
   = (Some {| Config.SkipList := [] |}, None))
  /\ (forall skips, Config.SkipList skips = [] ->
        exists fs',
          Parse.SaveSkips Marshal fs skips path = (None, fs')
          /\ Parse.files fs' !! path = None
          /\ forall p, p <> path ->
               Parse.files fs' !! p = Parse.files fs !! p)
  /\ (forall skips data,
        Config.SkipList skips <> [] -> Marshal skips = (data, None) ->
        exists fs',
          Parse.SaveSkips Marshal fs skips path = (None, fs')
          /\ Parse.files fs' !! path = Some data).
Proof.
  intros Hok Hdir. split; [|split].
  - intros Habs. by apply LoadSkips_absent.
  - intros skips Hemp.
    destruct (SaveSkips_empty Marshal fs skips path Hok Hemp)
      as (fs' & Hsave & Hfiles & _).
    exists fs'. split; [exact Hsave|]. rewrite Hfiles. split.
    + apply lookup_delete_eq.
    + intros p Hp. by apply lookup_delete_ne.
  - intros skips data Hne Hm.
    destruct (SaveSkips_nonempty Marshal fs skips path data Hok Hdir Hne Hm)
      as (fs' & Hsave & Hfiles & _).
    exists fs'. split; [exact Hsave|]. rewrite Hfiles.
    apply lookup_insert_eq.
Qed.

Lemma skip_document_absent_is_empty_witness :
  Parse.LoadSkips Samples.unmarshal Samples.emptyFS
    "packages/numpy/skips.yaml"
  = (Some {| Config.SkipList := [] |}, None)
  /\ exists fs',
       Parse.SaveSkips Samples.marshal Samples.emptyFS
         {| Config.SkipList := [Samples.skip] |} "packages/numpy/skips.yaml"
       = (None, fs')
       /\ Parse.files fs' !! "packages/numpy/skips.yaml"
          = Some "skips: 1.0.0".
Proof.
  destruct (skip_document_absent_is_empty Samples.marshal Samples.unmarshal
              Samples.emptyFS "packages/numpy/skips.yaml"
              (not_elem_of_empty _) (not_elem_of_empty _))
    as (Hload & _ & Hsave).
  split.
  - exact (Hload eq_refl).
  - apply (Hsave {| Config.SkipList := [Samples.skip] |} "skips: 1.0.0").
    + discriminate.
    + reflexivity.
Defined.

(** * Further properties: the version order *)

Section VersionOrder.
Import Strings Config.

Lemma lexCompare_sign xs : forall ys,
  Spec.lexCompare xs ys = -1 \/ Spec.lexCompare xs ys = 0
  \/ Spec.lexCompare xs ys = 1.
Proof.
  induction xs as [|x xs IH]; intros [|y ys]; cbn; auto.
  destruct (x <? y); auto. destruct (y <? x); auto.
Qed.

Lemma lexCompare_flip xs : forall ys,
  Spec.lexCompare ys xs = - Spec.lexCompare xs ys.
Proof.
  induction xs as [|x xs IH]; intros [|y ys]; cbn; auto.
  destruct (Z.ltb_spec x y), (Z.ltb_spec y x); try lia; auto.
Qed.

Lemma lexCompare_refl xs : Spec.lexCompare xs xs = 0.
Proof.
  induction xs as [|x xs IH]; cbn; [reflexivity|].
  rewrite Z.ltb_irrefl. exact IH.
Qed.

Lemma lexCompare_trans xs : forall ys zs,
  length xs = length ys -> length ys = length zs ->
  Spec.lexCompare xs ys <= 0 -> Spec.lexCompare ys zs <= 0 ->
  Spec.lexCompare xs zs <= 0.
Proof.
  induction xs as [|x xs IH]; intros [|y ys] [|z zs] H1 H2; cbn in *;
    try lia.
  destruct (Z.ltb_spec x y), (Z.ltb_spec y x), (Z.ltb_spec y z),
    (Z.ltb_spec z y), (Z.ltb_spec x z), (Z.ltb_spec z x);
    try lia; intros; try lia.
  apply (IH ys zs); lia.
Qed.

(** One more zero at the end of both sequences changes nothing. *)
Lemma lexCompare_snoc_zero xs : forall ys,
  length xs = length ys ->
  Spec.lexCompare (xs ++ [0]) (ys ++ [0]) = Spec.lexCompare xs ys.
Proof.
  induction xs as [|x xs IH]; intros [|y ys] H; cbn in *; try lia; auto.
  destruct (x <? y); auto. destruct (y <? x); auto.
Qed.

Lemma padTo_S n xs :
  (length xs <= n)%nat -> Spec.padTo (S n) xs = Spec.padTo n xs ++ [0].
Proof.
  intros H. unfold Spec.padTo.
  replace (S n - length xs)%nat with (S (n - length xs)) by lia.
  rewrite replicate_S_end, app_assoc. reflexivity.
Qed.

(** The comparison does not depend on how far both sides are padded. *)
Lemma lexCompare_padTo xs ys n m :
  (length xs <= n)%nat -> (length ys <= n)%nat -> (n <= m)%nat ->
  Spec.lexCompare (Spec.padTo m xs) (Spec.padTo m ys)
  = Spec.lexCompare (Spec.padTo n xs) (Spec.padTo n ys).
Proof.
  intros Hx Hy Hm. induction Hm as [|m Hm IH]; [reflexivity|].
  rewrite !padTo_S by lia.
  rewrite lexCompare_snoc_zero by (rewrite !padTo_length; lia).
  exact IH.
Qed.

Lemma compare_padTo a b n :
  (length (Facts.scanned a) <= n)%nat -> (length (Facts.scanned b) <= n)%nat ->
  compareVersions a b
  = Spec.lexCompare (Spec.padTo n (Facts.scanned a))
      (Spec.padTo n (Facts.scanned b)).
Proof.
  intros Ha Hb. rewrite compareVersions_scanned. unfold Facts.compareScanned.
  symmetry. apply lexCompare_padTo; lia.
Qed.

End VersionOrder.

(** X1. [compareVersions] returns -1, 0 or 1; swapping its arguments
    negates the result; a version compares equal to itself. *)
Theorem compareVersions_sign_flip (a b : string) :
  (Config.compareVersions a b = -1 \/ Config.compareVersions a b = 0
   \/ Config.compareVersions a b = 1)
  /\ Config.compareVersions b a = - Config.compareVersions a b
  /\ Config.compareVersions a a = 0.
Proof.
  rewrite !compareVersions_scanned. unfold Facts.compareScanned.
  split; [apply lexCompare_sign|]. split; [|apply lexCompare_refl].
  rewrite (Nat.max_comm (length (Facts.scanned b))).
  apply lexCompare_flip.
Qed.

(** X2. The order of [compareVersions] is transitive: if [a] is at most
    [b] and [b] at most [c], then [a] is at most [c]. *)
Theorem compareVersions_transitive (a b c : string) :
  Config.compareVersions a b <= 0 ->
  Config.compareVersions b c <= 0 ->
  Config.compareVersions a c <= 0.
Proof.
  set (n := Nat.max (length (Facts.scanned a))
              (Nat.max (length (Facts.scanned b)) (length (Facts.scanned c)))).
  rewrite (compare_padTo a b n), (compare_padTo b c n), (compare_padTo a c n)
    by lia.
  apply lexCompare_trans; rewrite !padTo_length; lia.
Qed.

Lemma compareVersions_transitive_witness :
  Config.compareVersions "1.9" "1.10.0" <= 0
  /\ Config.compareVersions "1.10.0" "2" <= 0
  /\ Config.compareVersions "1.9" "2" <= 0.
Proof.
  split; [vm_compute; discriminate|]. split; [vm_compute; discriminate|].
  apply (compareVersions_transitive "1.9" "1.10.0" "2");
    vm_compute; discriminate.
Defined.

(** * Further properties: the comparison operators *)

Section Operators.
Import Strings Config.

(** An operator character is no white space and starts no white-space
    rune. *)
Lemma opchar_no_space o :
  Regexp.oneOf "<>=!~" o = true ->
  asciiSpace o = false
  /\ (forall c, space2 o c = false)
  /\ (forall c d, space3 o c d = false).
Proof.
  intros Ho. cbn in Ho.
  repeat (apply orb_true_iff in Ho as [Ho|Ho];
          [apply Ascii.eqb_eq in Ho; subst o; repeat split|]);
    discriminate.
Qed.

Lemma trimLeft_opchar o l :
  Regexp.oneOf "<>=!~" o = true -> trimLeft (o :: l) = o :: l.
Proof.
  intros Ho. destruct (opchar_no_space o Ho) as (A & B & C).
  cbn [trimLeft]. rewrite A. destruct l as [|c l]; [reflexivity|].
  rewrite B. destruct l as [|d l]; [reflexivity|]. by rewrite C.
Qed.

Lemma trimLeftRev_opchar o :
  Regexp.oneOf "<>=!~" o = true ->
  forall n l, (length l <= n)%nat ->
    trimLeftRev (l ++ [o]) = trimLeftRev l ++ [o].
Proof.
  intros Ho. destruct (opchar_no_space o Ho) as (A & B & C).
  induction n as [|n IH]; intros l Hn.
  { destruct l; [|cbn in Hn; lia]. cbn. by rewrite A. }
  destruct l as [|c1 t1].
  { cbn. by rewrite A. }
  cbn in Hn. cbn [app trimLeftRev].
  destruct (asciiSpace c1) eqn:E1.
  { apply IH. lia. }
  destruct t1 as [|c2 t2].
  { cbn. by rewrite B. }
  cbn in Hn. cbn [app].
  destruct (space2 c2 c1) eqn:E2.
  { apply IH. lia. }
  destruct t2 as [|c3 t3].
  { cbn. by rewrite C. }
  cbn in Hn. cbn [app].
  destruct (space3 c3 c2 c1) eqn:E3; [|reflexivity].
  apply IH. lia.
Qed.

Lemma trimRight_opchar o l :
  Regexp.oneOf "<>=!~" o = true -> trimRight (o :: l) = o :: trimRight l.
Proof.
  intros Ho. unfold trimRight. cbn [rev].
  rewrite (trimLeftRev_opchar o Ho (length (rev l))) by lia.
  rewrite rev_app_distr. reflexivity.
Qed.

(** A trimmed string stays trimmed behind an operator character. *)
Lemma TrimSpace_opchar o X :
  Regexp.oneOf "<>=!~" o = true ->
  TrimSpace X = X -> TrimSpace (String o X) = String o X.
Proof.
  unfold TrimSpace. intros Ho H.
  apply (f_equal list_ascii_of_string) in H.
  rewrite list_ascii_of_string_of_list_ascii in H.
  apply trim_fixed in H as [_ Hr].
  cbn [list_ascii_of_string]. rewrite trimLeft_opchar by assumption.
  rewrite trimRight_opchar by assumption. rewrite Hr.
  cbn [string_of_list_ascii]. by rewrite string_of_list_ascii_of_string.
Qed.

(** What [MatchesVersion] makes of a specifier that is one trimmed clause
    without a comma. *)
Lemma MatchesVersion_single V clause :
  TrimSpace clause = clause -> Spec.lacks "," clause = true ->
  MatchesVersion V clause
  = match matchSingleSpec (TrimSpace V) clause with
    | (_, Some e) => (false, Some e)
    | (b, None) => (b, None)
    end.
Proof.
  intros Ht Hc. unfold MatchesVersion.
  rewrite Ht, (Split_lacks clause ",") by assumption.
  cbn [matchParts]. rewrite Ht.
  destruct (matchSingleSpec (TrimSpace V) clause) as [[|] [e|]]; reflexivity.
Qed.

Lemma HasPrefix_cons c s d p :
  HasPrefix (String c s) (String d p) = Ascii.eqb d c && HasPrefix s p.
Proof.
  unfold HasPrefix. cbn [String.prefix].
  destruct (ascii_dec d c) as [->|Hne].
  - by rewrite Ascii.eqb_refl.
  - apply Ascii.eqb_neq in Hne. by rewrite Hne.
Qed.

Ltac extract_operator :=
  unfold operatorPrefixes; cbn [extractOperator];
  rewrite ?HasPrefix_cons, ?HasPrefix_empty;
  cbn [Ascii.eqb Bool.eqb andb String.length dropBytes].

(** The operator and the version [matchSingleSpec] extracts from a
    clause that reads an operator followed by a trimmed version. *)
Lemma extractOperator_two o1 o2 S :
  In (String o1 (String o2 EmptyString)) ["=="; "!="; "<="; ">="; "~="] ->
  TrimSpace S = S ->
  extractOperator (String o1 (String o2 S)) operatorPrefixes
  = (String o1 (String o2 EmptyString), S).
Proof.
  intros Hin Ht. cbn in Hin.
  destruct Hin as [Hin|[Hin|[Hin|[Hin|[Hin|[]]]]]];
    injection Hin as <- <-; extract_operator; by rewrite Ht.
Qed.

Lemma extractOperator_one o S :
  In (String o EmptyString) ["<"; ">"] ->
  TrimSpace S = S -> HasPrefix S "=" = false ->
  extractOperator (String o S) operatorPrefixes = (String o EmptyString, S).
Proof.
  intros Hin Ht Hne. cbn in Hin.
  destruct Hin as [Hin|[Hin|[]]]; injection Hin as <-;
    extract_operator; rewrite ?Hne; cbn [andb]; by rewrite Ht.
Qed.

Lemma TrimSpace_two o1 o2 S :
  In (String o1 (String o2 EmptyString)) ["=="; "!="; "<="; ">="; "~="] ->
  TrimSpace S = S ->
  TrimSpace (String o1 (String o2 S)) = String o1 (String o2 S).
Proof.
  intros Hin Ht. cbn in Hin.
  destruct Hin as [Hin|[Hin|[Hin|[Hin|[Hin|[]]]]]];
    injection Hin as <- <-;
    (apply TrimSpace_opchar;
     [reflexivity | apply TrimSpace_opchar; [reflexivity | exact Ht]]).
Qed.

Lemma TrimSpace_one o S :
  In (String o EmptyString) ["<"; ">"] ->
  TrimSpace S = S -> TrimSpace (String o S) = String o S.
Proof.
  intros Hin Ht. cbn in Hin.
  destruct Hin as [Hin|[Hin|[]]]; injection Hin as <-;
    (apply TrimSpace_opchar; [reflexivity | exact Ht]).
Qed.

Lemma lacks_cons c d s :
  Spec.lacks c (String d s) = negb (Ascii.eqb d c) && Spec.lacks c s.
Proof. reflexivity. Qed.

End Operators.

(** X3. For a specifier version [S] without white space at its ends and
    without a comma, and every candidate [V], the clauses [==S], [!=S],
    [<=S] and [>=S] match exactly when the comparison of the trimmed
    candidate with [S] is zero, non-zero, at most zero and at least zero;
    when [S] does not start with [=], the clauses [<S] and [>S] match
    exactly when it is negative and positive.  No error is returned. *)
Theorem comparison_operators (V S : string) :
  Strings.TrimSpace S = S ->
  Spec.lacks "," S = true ->
  let cmp := Config.compareVersions (Strings.TrimSpace V) S in
  Config.MatchesVersion V ("==" +:+ S) = (cmp =? 0, None)
  /\ Config.MatchesVersion V ("!=" +:+ S) = (negb (cmp =? 0), None)
  /\ Config.MatchesVersion V ("<=" +:+ S) = (cmp <=? 0, None)
  /\ Config.MatchesVersion V (">=" +:+ S) = (cmp >=? 0, None)
  /\ (Strings.HasPrefix S "=" = false ->
      Config.MatchesVersion V ("<" +:+ S) = (cmp <? 0, None)
      /\ Config.MatchesVersion V (">" +:+ S) = (cmp >? 0, None)).
Proof.
  intros Ht Hc cmp. subst cmp.
  assert (Two : forall o1 o2,
            In (String o1 (String o2 EmptyString))
               ["=="; "!="; "<="; ">="; "~="] ->
            Spec.lacks "," (String o1 (String o2 EmptyString)) = true ->
            Config.MatchesVersion V (String o1 (String o2 S))
            = match Config.matchSingleSpec (Strings.TrimSpace V)
                      (String o1 (String o2 S)) with
              | (_, Some e) => (false, Some e)
              | (b, None) => (b, None)
              end).
  { intros o1 o2 Hin Hl. apply MatchesVersion_single.
    - by apply TrimSpace_two.
    - rewrite !lacks_cons in *. rewrite Hc.
      apply andb_true_iff in Hl as [-> Hl].
      apply andb_true_iff in Hl as [-> _]. reflexivity. }
  assert (One : forall o,
            In (String o EmptyString) ["<"; ">"] ->
            Spec.lacks "," (String o EmptyString) = true ->
            Config.MatchesVersion V (String o S)
            = match Config.matchSingleSpec (Strings.TrimSpace V)
                      (String o S) with
              | (_, Some e) => (false, Some e)
              | (b, None) => (b, None)
              end).
  { intros o Hin Hl. apply MatchesVersion_single.
    - by apply TrimSpace_one.
    - rewrite !lacks_cons in *. rewrite Hc.
      apply andb_true_iff in Hl as [-> _]. reflexivity. }
  repeat split.
  - change ("==" +:+ S) with (String "=" (String "=" S)).
    rewrite Two by (cbn; auto). unfold Config.matchSingleSpec.
    rewrite TrimSpace_two, extractOperator_two by (cbn; auto). reflexivity.
  - change ("!=" +:+ S) with (String "!" (String "=" S)).
    rewrite Two by (cbn; auto). unfold Config.matchSingleSpec.
    rewrite TrimSpace_two, extractOperator_two by (cbn; auto). reflexivity.
  - change ("<=" +:+ S) with (String "<" (String "=" S)).
    rewrite Two by (cbn; auto 10). unfold Config.matchSingleSpec.
    rewrite TrimSpace_two, extractOperator_two by (cbn; auto 10). reflexivity.
  - change (">=" +:+ S) with (String ">" (String "=" S)).
    rewrite Two by (cbn; auto 10). unfold Config.matchSingleSpec.
    rewrite TrimSpace_two, extractOperator_two by (cbn; auto 10). reflexivity.
  - change ("<" +:+ S) with (String "<" S).
    rewrite One by (cbn; auto). unfold Config.matchSingleSpec.
    rewrite TrimSpace_one, extractOperator_one by (cbn; auto). reflexivity.
  - change (">" +:+ S) with (String ">" S).
    rewrite One by (cbn; auto). unfold Config.matchSingleSpec.
    rewrite TrimSpace_one, extractOperator_one by (cbn; auto). reflexivity.
Qed.

Lemma comparison_operators_witness :
  Strings.TrimSpace "1.5" = "1.5"
  /\ Config.MatchesVersion "1.10.0" (">" +:+ "1.5") = (true, None)
  /\ Config.MatchesVersion "1.10.0" ("<=" +:+ "1.5") = (false, None).
Proof.
  destruct (comparison_operators "1.10.0" "1.5" eq_refl eq_refl)
    as (_ & _ & Hle & _ & Hstrict).
  destruct (Hstrict eq_refl) as [_ Hgt].
  split; [vm_compute; reflexivity|]. split; [exact Hgt | exact Hle].
Defined.

(** * Further properties: specifiers of several clauses *)

Section Clauses.
Import Strings Config.

Lemma matchParts_true V parts :
  matchParts V parts = (true, None) <->
  Forall (fun part => matchSingleSpec V (TrimSpace part) = (true, None)) parts.
Proof.
  induction parts as [|p parts IH]; cbn [matchParts].
  - split; [constructor | reflexivity].
  - destruct (matchSingleSpec V (TrimSpace p)) as [[|] [e|]] eqn:Hp;
      (split; [intros H; try discriminate | intros H; inversion H; subst;
                                            try congruence]).
    + constructor; [exact Hp | by apply IH].
    + by apply IH.
Qed.

(** An error comes from the first clause that is not satisfied, and only
    when that clause does not parse. *)
Lemma matchParts_error V parts e :
  matchParts V parts = (false, Some e) <->
  exists pre p post,
    parts = pre ++ p :: post
    /\ Forall (fun part => matchSingleSpec V (TrimSpace part) = (true, None))
         pre
    /\ snd (matchSingleSpec V (TrimSpace p)) = Some e.
Proof.
  induction parts as [|p parts IH]; cbn [matchParts].
  - split; [discriminate|]. intros (pre & q & post & H & _).
    by destruct pre.
  - destruct (matchSingleSpec V (TrimSpace p)) as [b [e'|]] eqn:Hp.
    + assert (Hres : (if b then (false, Some e') else (false, Some e'))
                     = (false, Some e')) by (by destruct b).
      rewrite Hres. split.
      * intros Heq. injection Heq as Heq. subst e'.
        exists [], p, parts. rewrite Hp. auto.
      * intros (pre & q & post & H & Hpre & Hq).
        destruct pre as [|p' pre]; cbn in H; injection H as ? ?; subst.
        -- rewrite Hp in Hq. cbn in Hq. congruence.
        -- inversion Hpre; subst. congruence.
    + destruct b.
      * split.
        -- intros Hm. apply IH in Hm as (pre & q & post & -> & Hpre & Hq).
           exists (p :: pre), q, post. split; [reflexivity|].
           split; [constructor; assumption | assumption].
        -- intros (pre & q & post & H & Hpre & Hq). apply IH.
           destruct pre as [|p' pre]; cbn in H; injection H as ? ?; subst.
           ++ rewrite Hp in Hq. discriminate.
           ++ inversion Hpre; subst. eauto 6.
      * split; [discriminate|].
        intros (pre & q & post & H & Hpre & Hq).
        destruct pre as [|p' pre]; cbn in H; injection H as ? ?; subst.
        -- rewrite Hp in Hq. discriminate.
        -- inversion Hpre; subst. congruence.
Qed.

End Clauses.

(** X4. A version matches a specifier exactly when it satisfies every
    comma-separated clause; and [MatchesVersion] reports a parse error
    exactly when some clause fails to parse while all clauses before it are
    satisfied, so that an unparsable clause behind an unsatisfied one goes
    unreported. *)
Theorem specifier_is_conjunction (V specifier : string) :
  let clauses := Strings.Split (Strings.TrimSpace specifier) "," in
  let holds := fun part =>
    Config.matchSingleSpec (Strings.TrimSpace V) (Strings.TrimSpace part)
    = (true, None) in
  (Config.MatchesVersion V specifier = (true, None) <-> Forall holds clauses)
  /\ (forall e,
        Config.MatchesVersion V specifier = (false, Some e) <->
        exists pre p post,
          clauses = pre ++ p :: post /\ Forall holds pre
          /\ snd (Config.matchSingleSpec (Strings.TrimSpace V)
                    (Strings.TrimSpace p)) = Some e)
  /\ Config.MatchesVersion "1.0" "<0.5,=1" = (false, None).
Proof.
  intros clauses holds. unfold Config.MatchesVersion.
  split; [apply matchParts_true|].
  split; [intros e; apply matchParts_error | vm_compute; reflexivity].
Qed.

(** X5. [matchSingleSpec] parses a clause exactly when the trimmed clause
    starts with one of the seven operators.  Its only error is "invalid
    specifier" of the trimmed clause, returned with [false] whatever the
    version; "unsupported operator" is never returned. *)
Theorem matchSingleSpec_parse_error (version spec : string) :
  (snd (Config.matchSingleSpec version spec) = None <->
   Exists (fun op => Strings.HasPrefix (Strings.TrimSpace spec) op = true)
     Config.operatorPrefixes)
  /\ (forall e,
        snd (Config.matchSingleSpec version spec) = Some e ->
        e = Config.ErrInvalidSpecifier (Strings.TrimSpace spec)
        /\ forall v', Config.matchSingleSpec v' spec = (false, Some e)).
Proof.
  unfold Config.matchSingleSpec, Config.operatorPrefixes.
  set (s := Strings.TrimSpace spec).
  rewrite !Exists_cons, Exists_nil. cbn [Config.extractOperator].
  repeat match goal with
         | |- context [if Strings.HasPrefix s ?op then _ else _] =>
             destruct (Strings.HasPrefix s op) eqn:?
         end;
    cbn [String.eqb Ascii.eqb Bool.eqb]; cbv iota;
    repeat match goal with
           | |- context [if ?c then (_, @None Config.error) else _] =>
               destruct c
           end;
    cbn [snd];
    (split;
     [first [ solve [split; [intros _; auto 12 | intros _; reflexivity]]
            | split; [discriminate | intros H; exfalso;
                      repeat (destruct H as [H|H]; [discriminate|]);
                      exact H] ]
     |]);
    intros e He; try discriminate.
  injection He as <-. split; reflexivity.
Qed.

(** * Further properties: the validation pattern *)

Section ValidationPattern.
Import Strings Config Regexp.

Lemma dead_nullable r : Facts.dead r = true -> nullable r = false.
Proof.
  induction r; cbn; intros H; try discriminate; try reflexivity.
  - by rewrite IHr1.
  - apply andb_true_iff in H as [H1 H2]. by rewrite IHr1, IHr2.
Qed.

Lemma dead_deriv c r : Facts.dead r = true -> Facts.dead (deriv c r) = true.
Proof.
  induction r; cbn; intros H; try discriminate; try reflexivity.
  - rewrite (dead_nullable r1 H). cbn. auto.
  - apply andb_true_iff in H as [H1 H2]. by rewrite IHr1, IHr2.
Qed.

(** A dead expression matches nothing. *)
Lemma dead_matchBytes s : forall r,
  Facts.dead r = true -> matchBytes r s = false.
Proof.
  induction s as [|c t IH]; intros r H; cbn.
  - by apply dead_nullable.
  - apply IH. by apply dead_deriv.
Qed.

Lemma classesWithin_deriv P c r :
  Facts.classesWithin P r -> Facts.classesWithin P (deriv c r).
Proof.
  induction r; cbn; intros H; auto.
  - destruct (b c); exact I.
  - destruct H as [H1 H2]. destruct (nullable r1); cbn; auto.
  - destruct H as [H1 H2]. auto.
Qed.

(** A character outside every class kills the expression. *)
Lemma outside_dead P c r :
  Facts.classesWithin P r -> P c = false -> Facts.dead (deriv c r) = true.
Proof.
  intros H Hc. induction r; cbn in *; auto.
  - destruct (b c) eqn:Hb; [|reflexivity].
    apply H in Hb. congruence.
  - destruct H as [H1 H2]. destruct (nullable r1); cbn; [|auto].
    by rewrite IHr1, IHr2.
  - destruct H as [H1 H2]. by rewrite IHr1, IHr2.
Qed.

(** A match uses only characters of the classes. *)
Lemma matchBytes_classes P s : forall r,
  Facts.classesWithin P r -> matchBytes r s = true ->
  Facts.allBytes P s = true.
Proof.
  induction s as [|c t IH]; intros r H Hm; [reflexivity|].
  cbn in *. destruct (P c) eqn:Hc.
  - cbn. apply (IH (deriv c r)); [by apply classesWithin_deriv | exact Hm].
  - rewrite dead_matchBytes in Hm by (by apply (outside_dead P)).
    discriminate.
Qed.

Lemma pep440Pattern_classes :
  Facts.classesWithin Facts.specifierByte pep440Pattern.
Proof.
  unfold pep440Pattern, clausePattern, Plus, spaces, opChars, verChars.
  cbn [Facts.classesWithin]. unfold Facts.specifierByte.
  repeat split; intros c;
    destruct (oneOf "<>=!~" c), (class_s c), (class_d c), (class_w c),
      (oneOf ".*" c), (oneOf "," c); cbn; intros; congruence.
Qed.

Lemma pep440Pattern_first c :
  oneOf "<>=!~" c = false -> Facts.dead (deriv c pep440Pattern) = true.
Proof.
  intros H. unfold pep440Pattern, clausePattern, Plus, opChars.
  cbn [deriv nullable andb]. rewrite H. reflexivity.
Qed.

End ValidationPattern.

(** X6. A specifier that [isValidPEP440] accepts is, once trimmed,
    non-empty, starts with one of the characters [<>=!~], and consists only
    of those characters, the white space of [\s], letters, digits, [_],
    [.], [*] and the comma; so the empty string and a bare version are
    rejected. *)
Theorem valid_specifier_shape (spec : string) :
  Config.isValidPEP440 spec = true ->
  exists c rest,
    Strings.TrimSpace spec = String c rest
    /\ Regexp.oneOf "<>=!~" c = true
    /\ Facts.allBytes Facts.specifierByte (Strings.TrimSpace spec) = true.
Proof.
  unfold Config.isValidPEP440, Regexp.MatchString.
  destruct (Strings.TrimSpace spec) as [|c rest] eqn:Hs; [discriminate|].
  cbn [String.eqb]. intros Hm. exists c, rest. split; [reflexivity|].
  split.
  - destruct (Regexp.oneOf "<>=!~" c) eqn:Hc; [reflexivity|].
    cbn [Regexp.matchBytes] in Hm.
    rewrite dead_matchBytes in Hm by (by apply pep440Pattern_first).
    discriminate.
  - exact (matchBytes_classes _ _ _ pep440Pattern_classes Hm).
Qed.

Lemma valid_specifier_shape_witness :
  Config.isValidPEP440 " >=1.0, <2.0 " = true
  /\ exists c rest,
       Strings.TrimSpace " >=1.0, <2.0 " = String c rest
       /\ Regexp.oneOf "<>=!~" c = true
       /\ Facts.allBytes Facts.specifierByte
            (Strings.TrimSpace " >=1.0, <2.0 ") = true.
Proof.
  split; [vm_compute; reflexivity|].
  exact (valid_specifier_shape " >=1.0, <2.0 " eq_refl).
Defined.

(** * Further properties: the validators *)

Section Validators.
Import Config Validate.

Lemma seenAt_insert seen k x :
  seenAt (<[k := true]> seen) x
  = if bool_decide (x = k) then true else seenAt seen x.
Proof.
  unfold seenAt. case_bool_decide as Hx.
  - subst. by rewrite lookup_insert_eq.
  - by rewrite lookup_insert_ne.
Qed.

Lemma checkVersions_None versions : forall i seen,
  checkVersions versions i seen = None <->
  Forall (fun v => Tag v <> "" /\ VersionOf v <> "") versions
  /\ NoDup (map VersionOf versions)
  /\ Forall (fun v => seenAt seen (VersionOf v) = false) versions.
Proof.
  induction versions as [|v rest IH]; intros i seen; cbn [checkVersions map].
  - split; [intros _; repeat split; constructor | reflexivity].
  - destruct (String.eqb_spec (Tag v) "") as [Ht|Ht].
    { split; [discriminate|]. intros (H & _). inversion H; subst. tauto. }
    destruct (String.eqb_spec (VersionOf v) "") as [Hv|Hv].
    { split; [discriminate|]. intros (H & _). inversion H; subst. tauto. }
    destruct (seenAt seen (VersionOf v)) eqn:Hs.
    { split; [discriminate|]. intros (_ & _ & H). inversion H; subst.
      congruence. }
    rewrite IH, NoDup_cons, !Forall_cons.
    assert (Hins : Forall (fun v0 => seenAt (<[VersionOf v := true]> seen)
                                       (VersionOf v0) = false) rest
                   <-> (VersionOf v ∉ map VersionOf rest)
                       /\ Forall (fun v0 => seenAt seen (VersionOf v0) = false)
                            rest).
    { rewrite !Forall_forall, list_elem_of_fmap. split.
      - intros H. split.
        + intros (w & Hw & Hin). specialize (H w Hin).
          rewrite seenAt_insert, Hw in H. by case_bool_decide.
        + intros w Hin. specialize (H w Hin). rewrite seenAt_insert in H.
          by case_bool_decide.
      - intros [Hnot H] w Hin. rewrite seenAt_insert. case_bool_decide as Hw.
        + exfalso. apply Hnot. eauto.
        + by apply H. }
    rewrite Hins. tauto.
Qed.

Lemma isValidPEP440_empty : isValidPEP440 "" = false.
Proof. vm_compute. reflexivity. Qed.

Lemma checkOverrides_None overrides : forall i,
  checkOverrides overrides i = None <->
  Forall (fun o => isValidPEP440 (Match o) = true) overrides.
Proof.
  induction overrides as [|o rest IH]; intros i; cbn [checkOverrides].
  - split; [constructor | reflexivity].
  - rewrite Forall_cons.
    destruct (String.eqb_spec (Match o) "") as [Hm|Hm].
    { split; [discriminate|]. intros [H _].
      rewrite Hm, isValidPEP440_empty in H. discriminate. }
    destruct (isValidPEP440 (Match o)); cbn [negb].
    + rewrite IH. tauto.
    + split; [discriminate | intros [H _]; discriminate].
Qed.

(** A duplicate is reported at the index of the second occurrence. *)
Lemma checkVersions_duplicate versions : forall pre seen k v,
  (forall x, seenAt seen x = true <-> x ∈ map VersionOf pre) ->
  checkVersions versions (length pre) seen = Some (ErrDuplicateVersion k v) ->
  exists j vk vj,
    (j < k)%nat /\ (pre ++ versions) !! k = Some vk
    /\ (pre ++ versions) !! j = Some vj
    /\ VersionOf vk = v /\ VersionOf vj = v.
Proof.
  induction versions as [|v0 rest IH]; intros pre seen k v Hinv;
    cbn [checkVersions]; [discriminate|].
  destruct (String.eqb (Tag v0) ""); [discriminate|].
  destruct (String.eqb (VersionOf v0) ""); [discriminate|].
  destruct (seenAt seen (VersionOf v0)) eqn:Hs.
  - intros [= <- <-]. apply Hinv in Hs.
    apply list_elem_of_fmap in Hs as (vj & Hvj & Hin).
    apply list_elem_of_lookup in Hin as [j Hj].
    exists j, v0, vj. split; [by eapply lookup_lt_Some|].
    split; [by apply list_lookup_middle|].
    split; [by apply lookup_app_l_Some | auto].
  - intros H.
    destruct (IH (pre ++ [v0]) (<[VersionOf v0 := true]> seen) k v)
      as (j & vk & vj & Hlt & Hk & Hj & E1 & E2).
    + intros x. rewrite seenAt_insert, map_app, elem_of_app. cbn [map].
      rewrite list_elem_of_singleton, <- Hinv.
      case_bool_decide; intuition congruence.
    + rewrite length_app. cbn [length].
      replace (length pre + 1)%nat with (S (length pre)) by lia. exact H.
    + rewrite <- app_assoc in Hk, Hj. cbn [app] in Hk, Hj. eauto 10.
Qed.

End Validators.

(** X7. [ValidateConfig] accepts a configuration exactly when its
    repository is non-empty, it lists at least one version, every version
    has a non-empty tag and a non-empty version string, no version string
    occurs twice, and every override's match is accepted by
    [isValidPEP440]. *)
Theorem ValidateConfig_accepts (cfg : Config.Config) :
  Validate.ValidateConfig cfg = None <->
  Config.Repo cfg <> ""
  /\ Config.Versions cfg <> []
  /\ Forall (fun v => Config.Tag v <> "" /\ Config.VersionOf v <> "")
       (Config.Versions cfg)
  /\ NoDup (map Config.VersionOf (Config.Versions cfg))
  /\ Forall (fun o => Config.isValidPEP440 (Config.Match o) = true)
       (Config.Overrides cfg).
Proof.
  unfold Validate.ValidateConfig.
  destruct (String.eqb_spec (Config.Repo cfg) "") as [Hr|Hr].
  { split; [discriminate | tauto]. }
  destruct (Config.Versions cfg) as [|v rest] eqn:Hv.
  { cbn. split; [discriminate | tauto]. }
  cbn [length Nat.eqb]. rewrite <- Hv.
  destruct (Validate.checkVersions (Config.Versions cfg) 0 ∅) as [e|] eqn:Hc.
  - split; [discriminate|]. intros (_ & _ & H1 & H2 & _).
    assert (Validate.checkVersions (Config.Versions cfg) 0 ∅ = None);
      [|congruence].
    apply checkVersions_None. split; [exact H1|]. split; [exact H2|].
    apply Forall_forall. intros x _. reflexivity.
  - apply checkVersions_None in Hc as (H1 & H2 & _).
    rewrite checkOverrides_None. rewrite Hv at 1. intuition congruence.
Qed.

(** X8. When [ValidateConfig] reports a duplicate version at index [i],
    the version string at index [i] is the one reported and already occurs
    at an earlier index. *)
Theorem ValidateConfig_duplicate (cfg : Config.Config) (i : nat) (v : string) :
  Validate.ValidateConfig cfg = Some (Validate.ErrDuplicateVersion i v) ->
  exists j vi vj,
    (j < i)%nat
    /\ Config.Versions cfg !! i = Some vi
    /\ Config.Versions cfg !! j = Some vj
    /\ Config.VersionOf vi = v /\ Config.VersionOf vj = v.
Proof.
  unfold Validate.ValidateConfig.
  destruct (String.eqb (Config.Repo cfg) ""); [discriminate|].
  destruct (Nat.eqb (length (Config.Versions cfg)) 0); [discriminate|].
  destruct (Validate.checkVersions (Config.Versions cfg) 0 ∅) as [e|] eqn:Hc.
  - intros [= ->].
    apply (checkVersions_duplicate (Config.Versions cfg) [] ∅ i v);
      [|exact Hc].
    intros x. cbn. unfold Validate.seenAt. rewrite lookup_empty. cbn.
    split; [discriminate | intros H; by apply not_elem_of_nil in H].
  - intros H. exfalso. revert H. generalize 0%nat.
    induction (Config.Overrides cfg) as [|o rest IH]; intros n;
      cbn [Validate.checkOverrides]; [discriminate|].
    destruct (String.eqb (Config.Match o) ""); [discriminate|].
    destruct (negb (Config.isValidPEP440 (Config.Match o)));
      [discriminate | apply IH].
Qed.

Lemma ValidateConfig_duplicate_witness :
  Validate.ValidateConfig Samples2.duplicated
    = Some (Validate.ErrDuplicateVersion 1 "1.0.0")
  /\ exists j vi vj,
       (j < 1)%nat
       /\ Config.Versions Samples2.duplicated !! 1%nat = Some vi
       /\ Config.Versions Samples2.duplicated !! j = Some vj
       /\ Config.VersionOf vi = "1.0.0" /\ Config.VersionOf vj = "1.0.0".
Proof.
  split; [vm_compute; reflexivity|].
  exact (ValidateConfig_duplicate Samples2.duplicated 1 "1.0.0" eq_refl).
Defined.

Section SkipValidator.
Import Config Validate.

Abbreviation complete := Facts.completeSkip.

Lemma checkSkips_None skips : forall i,
  checkSkips skips i = None <-> Forall complete skips.
Proof.
  induction skips as [|s rest IH]; intros i; cbn [checkSkips].
  - split; [constructor | reflexivity].
  - rewrite Forall_cons. unfold Facts.completeSkip at 1.
    destruct (String.eqb_spec (SkipVersion s) "");
      [split; [discriminate | tauto]|].
    destruct (SkipPython s) as [|py pys];
      [split; [discriminate | tauto]|]. cbn [length Nat.eqb].
    destruct (String.eqb_spec (Reason s) "");
      [split; [discriminate | tauto]|].
    rewrite IH. intuition discriminate.
Qed.

Lemma checkSkips_Some skips : forall i e,
  checkSkips skips i = Some e ->
  exists k s,
    skips !! k = Some s /\ Forall complete (take k skips)
    /\ (e = ErrSkipVersionRequired (i + k) /\ SkipVersion s = ""
        \/ e = ErrSkipPythonRequired (i + k) /\ SkipVersion s <> ""
           /\ SkipPython s = []
        \/ e = ErrSkipReasonRequired (i + k) /\ SkipVersion s <> ""
           /\ SkipPython s <> [] /\ Reason s = "").
Proof.
  induction skips as [|s rest IH]; intros i e; cbn [checkSkips];
    [discriminate|].
  destruct (String.eqb_spec (SkipVersion s) "") as [Hv|Hv].
  { intros [= <-]. exists 0%nat, s. rewrite Nat.add_0_r.
    split; [reflexivity|]. split; [constructor | auto]. }
  destruct (SkipPython s) as [|py pys] eqn:Hp; cbn [length Nat.eqb].
  { intros [= <-]. exists 0%nat, s. rewrite Nat.add_0_r.
    split; [reflexivity|]. split; [constructor | auto]. }
  destruct (String.eqb_spec (Reason s) "") as [Hr|Hr].
  { intros [= <-]. exists 0%nat, s. rewrite Nat.add_0_r.
    split; [reflexivity|]. split; [constructor|].
    right. right. rewrite Hp. repeat split; auto; discriminate. }
  intros H. apply IH in H as (k & s' & Hk & Hall & Hcase).
  exists (S k), s'. replace (i + S k)%nat with (S i + k)%nat by lia.
  split; [exact Hk|]. split; [|exact Hcase].
  cbn [take]. constructor; [|exact Hall].
  unfold Facts.completeSkip. rewrite Hp. repeat split; auto; discriminate.
Qed.

End SkipValidator.

(** X9. [ValidateSkips] accepts a skip document exactly when every entry
    has a non-empty version, at least one runtime and a non-empty reason;
    when it rejects, the error carries the index of the first entry that
    lacks one of them and names the first field that entry lacks, in the
    order version, runtimes, reason. *)
Theorem ValidateSkips_first_incomplete (skips : Config.Skips) :
  (Validate.ValidateSkips skips = None <->
   Forall Facts.completeSkip (Config.SkipList skips))
  /\ forall e,
       Validate.ValidateSkips skips = Some e ->
       exists k s,
         Config.SkipList skips !! k = Some s
         /\ Forall Facts.completeSkip (take k (Config.SkipList skips))
         /\ (e = Validate.ErrSkipVersionRequired k /\ Config.SkipVersion s = ""
             \/ e = Validate.ErrSkipPythonRequired k
                /\ Config.SkipVersion s <> "" /\ Config.SkipPython s = []
             \/ e = Validate.ErrSkipReasonRequired k
                /\ Config.SkipVersion s <> "" /\ Config.SkipPython s <> []
                /\ Config.Reason s = "").
Proof.
  unfold Validate.ValidateSkips. split.
  - apply checkSkips_None.
  - intros e He. exact (checkSkips_Some _ 0 e He).
Qed.

(** * Further properties: resolution on every input *)

Section ResolutionCases.
Import Config Builder.

(** The loop applies nothing, or merges the first satisfied override. *)
Lemma applyOverrides_cases version cfg overrides :
  (Forall (fun o => ~ Spec.satisfies version o) overrides
   /\ applyOverrides version cfg overrides = cfg)
  \/ (exists pre o post,
        overrides = pre ++ o :: post
        /\ Forall (fun o' => ~ Spec.satisfies version o') pre
        /\ Spec.satisfies version o
        /\ applyOverrides version cfg overrides = mergeOverride cfg o).
Proof.
  induction overrides as [|o rest IH].
  - left. split; [constructor | reflexivity].
  - destruct (MatchesVersion version (Match o)) as [m err] eqn:Hm.
    destruct m, err as [e|];
      try (assert (Hno : ~ Spec.satisfies version o)
             by (unfold Spec.satisfies; rewrite Hm; congruence);
           rewrite (applyOverrides_continue version cfg o rest Hno);
           destruct IH as [[Hall Heq] | (pre & o' & post & -> & Hpre & Ho & Heq)];
           [left; split; [constructor; assumption | exact Heq]
           |right; exists (o :: pre), o', post;
            split; [reflexivity|];
            split; [constructor; assumption|]; split; assumption]).
    right. exists [], o, rest. split; [reflexivity|].
    split; [constructor|]. split; [exact Hm|].
    by apply applyOverrides_break.
Qed.

End ResolutionCases.

(** X10. On every input, resolution either finds no override satisfied by
    the version and returns the base configuration unchanged, or returns
    the base merged with exactly one override: the first one in list order
    that the version satisfies. *)
Theorem effective_config_cases (b : Builder.Builder) (version : string) :
  let base := Builder.Config b in
  (Forall (fun o => ~ Spec.satisfies version o) (Config.Overrides base)
   /\ Builder.getEffectiveConfig b version
      = {| Builder.SystemDeps := Config.SystemDeps base;
           Builder.Env := Config.Env base;
           Builder.Patches := Config.Patches base;
           Builder.Script := Config.Script base |})
  \/ (exists pre o post,
        Config.Overrides base = pre ++ o :: post
        /\ Forall (fun o' => ~ Spec.satisfies version o') pre
        /\ Spec.satisfies version o
        /\ Builder.getEffectiveConfig b version
           = Builder.mergeOverride (Builder.baseConfig base) o).
Proof.
  intros base. unfold Builder.getEffectiveConfig. fold base.
  destruct (applyOverrides_cases version (Builder.baseConfig base)
              (Config.Overrides base)) as [[Hall Heq] | Hsome].
  - left. split; [exact Hall|]. rewrite Heq. apply baseConfig_fields.
  - right. exact Hsome.
Qed.

(** X11. Whatever the overrides, the effective configuration keeps the
    base: the base system dependencies and the base patches are prefixes
    of the effective lists, and every variable of the base environment is
    still defined. *)
Theorem base_entries_kept (b : Builder.Builder) (version : string) :
  let base := Builder.Config b in
  let eff := Builder.getEffectiveConfig b version in
  Config.SystemDeps base `prefix_of` Builder.SystemDeps eff
  /\ Config.Patches base `prefix_of` Builder.Patches eff
  /\ forall k, is_Some (Config.Env base !! k) ->
               is_Some (Builder.Env eff !! k).
Proof.
  intros base eff. subst eff. unfold Builder.getEffectiveConfig. fold base.
  destruct (applyOverrides_cases version (Builder.baseConfig base)
              (Config.Overrides base))
    as [[_ ->] | (pre & o & post & _ & _ & _ & ->)].
  - rewrite baseConfig_fields. cbn. repeat split; auto.
  - rewrite baseConfig_fields. cbn [Builder.mergeOverride Builder.SystemDeps
      Builder.Patches Builder.Env].
    split; [apply prefix_app_r; reflexivity|].
    split; [apply prefix_app_r; reflexivity|].
    intros k [x Hx]. rewrite copyInto_union, lookup_union.
    rewrite Hx. destruct (Config.OEnv o !! k); cbn; eauto.
Qed.

(** * Further properties: the steps of a build *)

Section Steps.
Import Strings Builder.
Context {W : Type}.
Variable exec : Cmd -> W -> string * option error * W.
Variable readDir : string -> W -> list string.

Lemma Join_nonempty dir name : Filepath.Join dir name <> EmptyString.
Proof. unfold Filepath.Join. destruct dir; discriminate. Qed.

Lemma failedResult_coherent version e py :
  Facts.coherent (failedResult version e py).
Proof.
  unfold Facts.coherent. cbn. repeat split; try discriminate; auto.
Qed.

(** Every outcome of [buildForPython] is a coherent result for the version
    and the runtime asked for. *)
Lemma buildForPython_result b version python cfg st :
  let r := fst (buildForPython exec readDir b version python cfg st) in
  Python r = python /\ Version r = version /\ Facts.coherent r.
Proof.
  unfold buildForPython, bind, run.
  destruct (exec (buildCommand b python cfg) (world st)) as [[out [e|]] w].
  - cbn. unfold Facts.coherent. cbn.
    repeat split; try discriminate; auto.
  - match goal with
    | |- context [findWheel readDir b version python ?s] =>
        destruct (findWheel_cases readDir b version python s)
          as [[_ ->] | (m & Hin & _ & ->)]
    end; cbn; unfold Facts.coherent; cbn.
    + repeat split; try discriminate; auto.
    + apply candidates_elem in Hin as (name & -> & _).
      repeat split; auto; try discriminate. intros _. apply Join_nonempty.
Qed.

Lemma buildEach_results b version cfg pythonVersions : forall st,
  let rs := fst (buildEach exec readDir b version cfg pythonVersions st) in
  map Python rs = pythonVersions
  /\ Forall (fun r => Version r = version /\ Facts.coherent r) rs.
Proof.
  induction pythonVersions as [|py rest IH]; intros st; cbn [buildEach].
  - split; [reflexivity | constructor].
  - unfold bind, ret.
    pose proof (buildForPython_result b version py cfg st) as Hr.
    destruct (buildForPython exec readDir b version py cfg st) as [r st1].
    specialize (IH st1).
    destruct (buildEach exec readDir b version cfg rest st1) as [rs st2].
    cbn in *. destruct Hr as (Hpy & Hv & Hc), IH as (Hmap & Hall).
    split; [by rewrite Hpy, Hmap | constructor; auto].
Qed.

Lemma failed_results version e pythonVersions :
  let rs := map (failedResult version e) pythonVersions in
  map Python rs = pythonVersions
  /\ Forall (fun r => Version r = version /\ Facts.coherent r) rs.
Proof.
  cbn. split.
  - rewrite map_map. cbn. apply map_id.
  - apply Forall_forall. intros r Hr.
    apply list_elem_of_fmap in Hr as (py & -> & _).
    split; [reflexivity | apply failedResult_coherent].
Qed.

Lemma Build_results b v pythonVersions st :
  let rs := fst (Build exec readDir b v pythonVersions st) in
  map Python rs = pythonVersions
  /\ Forall (fun r => Version r = Config.VersionOf v /\ Facts.coherent r) rs.
Proof.
  unfold Build, bind, ret.
  destruct (Checkout exec b (Config.Tag v) st) as [[e|] st1];
    [apply failed_results|].
  destruct (InstallSystemDeps exec b _ st1) as [[e|] st2];
    [apply failed_results|].
  destruct (ApplyPatches exec b _ st2) as [[e|] st3];
    [apply failed_results|].
  apply buildEach_results.
Qed.

(** [InstallSystemDeps] runs nothing for an empty list, and otherwise one
    [apk add] of all the dependencies. *)
Lemma InstallSystemDeps_command b deps st :
  ran (snd (InstallSystemDeps exec b deps st))
  = ran st ++ match deps with [] => [] | _ => [Facts.apkCommand deps] end.
Proof.
  unfold InstallSystemDeps. destruct deps as [|d deps]; cbn [length Nat.eqb].
  - cbn. by rewrite app_nil_r.
  - unfold bind, run. fold (Facts.apkCommand (d :: deps)).
    destruct (exec (Facts.apkCommand (d :: deps)) (world st))
      as [[out [e|]] w]; reflexivity.
Qed.

(** [ApplyPatches] runs [git] and nothing else. *)
Lemma ApplyPatches_runs_git b patches : forall st,
  exists cmds,
    ran (snd (ApplyPatches exec b patches st)) = ran st ++ cmds
    /\ Forall (fun c => Path c = "git") cmds.
Proof.
  induction patches as [|p rest IH]; intros st; cbn [ApplyPatches].
  - exists []. cbn. by rewrite app_nil_r.
  - unfold bind, run.
    destruct (exec (git (SourceDir b) ["apply"; Filepath.Join (WorkDir b) p])
                (world st)) as [[out [e|]] w].
    + eexists. split; [reflexivity|]. by repeat constructor.
    + match goal with
      | |- context [ApplyPatches exec b rest ?s] =>
          destruct (IH s) as (cmds & Hran & Hgit)
      end.
      eexists. rewrite Hran. cbn [ran]. rewrite <- app_assoc.
      split; [reflexivity|]. by constructor.
Qed.

End Steps.

(** X12. On every path (failed checkout, failed installation, failed
    patch, or a build per runtime) [Build] returns one result per runtime
    of the list, in the order of the list, each for the version built; and
    every result is coherent: it is a success exactly when it carries no
    error, a success names a wheel and a failure names none. *)
Theorem Build_one_result_per_runtime {W : Type}
    (exec : Builder.Cmd -> W -> string * option Builder.error * W)
    (readDir : string -> W -> list string)
    (b : Builder.Builder) (v : Config.Version) (pythonVersions : list string)
    (st : Builder.State) :
  let rs := fst (Builder.Build exec readDir b v pythonVersions st) in
  map Builder.Python rs = pythonVersions
  /\ length rs = length pythonVersions
  /\ Forall (fun r => Builder.Version r = Config.VersionOf v
                      /\ Facts.coherent r) rs.
Proof.
  intros rs. subst rs.
  destruct (Build_results exec readDir b v pythonVersions st) as [Hmap Hall].
  split; [exact Hmap|]. split; [|exact Hall].
  rewrite <- Hmap at 2. by rewrite length_map.
Qed.


(** X14. [InstallSystemDeps] with no dependency returns no error and runs
    no command; with dependencies it runs exactly one command, [apk add
    --no-cache] followed by all of them in order, and its only error is
    "installing system deps" around the error of that command. *)
Theorem InstallSystemDeps_runs_apk_once {W : Type}
    (exec : Builder.Cmd -> W -> string * option Builder.error * W)
    (b : Builder.Builder) (deps : list string) (st : Builder.State) :
  Builder.InstallSystemDeps exec b [] st = (None, st)
  /\ (deps <> [] ->
      Builder.ran (snd (Builder.InstallSystemDeps exec b deps st))
      = Builder.ran st ++ [Facts.apkCommand deps]
      /\ Builder.Args (Facts.apkCommand deps) = ["add"; "--no-cache"] ++ deps
      /\ forall e,
           fst (Builder.InstallSystemDeps exec b deps st) = Some e ->
           exists inner output,
             exec (Facts.apkCommand deps) (Builder.world st)
               = (output, Some inner,
                  Builder.world (snd (Builder.InstallSystemDeps exec b deps st)))
             /\ e = Builder.ErrInstallingDeps inner output).
Proof.
  split; [reflexivity|]. intros Hne.
  split; [rewrite InstallSystemDeps_command; by destruct deps|].
  split; [reflexivity|].
  unfold Builder.InstallSystemDeps. destruct deps as [|d deps]; [done|].
  cbn [length Nat.eqb]. unfold Builder.bind, Builder.run.
  fold (Facts.apkCommand (d :: deps)).
  destruct (exec (Facts.apkCommand (d :: deps)) (Builder.world st))
    as [[out [e|]] w]; cbn; intros e' He'; [|discriminate].
  injection He' as <-. eauto.
Qed.

Lemma InstallSystemDeps_runs_apk_once_witness :
  Builder.ran (snd (Builder.InstallSystemDeps Samples.quietExec
                      (Samples.builder []) ["openssl-dev"; "libffi-dev=3.4"]
                      (Samples.start [])))
  = [Facts.apkCommand ["openssl-dev"; "libffi-dev=3.4"]].
Proof.
  refine (proj1 (proj2 (InstallSystemDeps_runs_apk_once Samples.quietExec
                          (Samples.builder [])
                          ["openssl-dev"; "libffi-dev=3.4"]
                          (Samples.start [])) _)).
  discriminate.
Defined.

(** X15. When the checkout of a version succeeds but the installation of
    the system dependencies fails, or the installation succeeds but a
    patch fails to apply, [Build] returns one failed result per runtime
    with that error and stops there: no command run for the version is a
    build command. *)
Theorem shared_step_failure {W : Type}
    (exec : Builder.Cmd -> W -> string * option Builder.error * W)
    (readDir : string -> W -> list string)
    (b : Builder.Builder) (v : Config.Version) (pythonVersions : list string)
    (st st1 st2 : Builder.State) (e : Builder.error) :
  Builder.Checkout exec b (Config.Tag v) st = (None, st1) ->
  (Builder.InstallSystemDeps exec b
     (Builder.SystemDeps
        (Builder.getEffectiveConfig b (Config.VersionOf v))) st1
   = (Some e, st2)
   \/ exists st',
        Builder.InstallSystemDeps exec b
          (Builder.SystemDeps
             (Builder.getEffectiveConfig b (Config.VersionOf v))) st1
        = (None, st')
        /\ Builder.ApplyPatches exec b
             (Builder.Patches
                (Builder.getEffectiveConfig b (Config.VersionOf v))) st'
           = (Some e, st2)) ->
  Builder.Build exec readDir b v pythonVersions st
  = (map (Builder.failedResult (Config.VersionOf v) e) pythonVersions, st2)
  /\ exists cmds,
       Builder.ran st2 = Builder.ran st ++ cmds
       /\ forall py cfg, Builder.buildCommand b py cfg ∉ cmds.
Proof.
  intros Hco Hstep.
  set (eff := Builder.getEffectiveConfig b (Config.VersionOf v)) in *.
  assert (Hnot : forall cmds,
            Forall (fun c => Builder.Path c = "git" \/ Builder.Path c = "apk")
              cmds ->
            forall py cfg, Builder.buildCommand b py cfg ∉ cmds).
  { intros cmds Hall py cfg Hin. rewrite Forall_forall in Hall.
    specialize (Hall _ Hin). unfold Builder.buildCommand in Hall.
    cbn [Builder.Path] in Hall.
    destruct (negb (String.eqb (Builder.Script cfg) ""));
      destruct Hall; discriminate. }
  destruct (Checkout_runs_git exec b (Config.Tag v) st) as (c1 & Hr1 & Hg1).
  rewrite Hco in Hr1. cbn [snd] in Hr1.
  pose proof (InstallSystemDeps_command exec b (Builder.SystemDeps eff) st1)
    as Hr2.
  unfold Builder.Build, Builder.bind. rewrite Hco. fold eff.
  destruct Hstep as [Hin | (st' & Hin & Hap)]; rewrite Hin in *; cbn [snd] in Hr2.
  - split; [reflexivity|]. eexists. rewrite Hr2, Hr1, <- app_assoc.
    split; [reflexivity|]. apply Hnot. apply Forall_app. split.
    + eapply Forall_impl; [exact Hg1 | auto].
    + destruct (Builder.SystemDeps eff);
        [constructor | constructor; [by right | constructor]].
  - destruct (ApplyPatches_runs_git exec b (Builder.Patches eff) st')
      as (c3 & Hr3 & Hg3).
    rewrite Hap in *. cbn [snd] in Hr3. split; [reflexivity|].
    eexists. rewrite Hr3, Hr2, Hr1, <- !app_assoc.
    split; [reflexivity|]. apply Hnot. rewrite !Forall_app. repeat split.
    + eapply Forall_impl; [exact Hg1 | auto].
    + destruct (Builder.SystemDeps eff);
        [constructor | constructor; [by right | constructor]].
    + eapply Forall_impl; [exact Hg3 | auto].
Qed.

Lemma shared_step_failure_witness :
  fst (Builder.Build Samples2.onlyGit Samples.listing (Samples.builder [])
         Samples.v100 Python.SupportedPythonVersions (Samples.start []))
  = map (Builder.failedResult "1.0.0"
           (Builder.ErrInstallingDeps (Builder.OSError "exit status 127")
              "not found"))
      Python.SupportedPythonVersions.
Proof.
  refine (f_equal fst (proj1 (shared_step_failure
            Samples2.onlyGit Samples.listing (Samples.builder [])
            Samples.v100 Python.SupportedPythonVersions (Samples.start [])
            (snd (Builder.Checkout Samples2.onlyGit (Samples.builder [])
                    "v1.0.0" (Samples.start [])))
            _
            (Builder.ErrInstallingDeps (Builder.OSError "exit status 127")
               "not found")
            eq_refl (or_introl eq_refl)))).
Defined.

(** X16. The outcome of [Checkout] in terms of the outcomes of its [git]
    commands, each run in the source directory on the world the previous
    one left.  The plain ref is fetched only after the fetch of the tag
    failed.  When both fetches failed, the result is "fetching ref" with
    the error and the output of the second fetch, and nothing else is run.
    When a fetch succeeded and [git checkout FETCH_HEAD] failed, the result
    is "checking out" with the error and the output of the checkout.  When
    the checkout succeeded, [git clean -fdx] is run and the result is nil,
    whatever the clean-up returned. *)
Theorem Checkout_outcomes {W : Type}
    (exec : Builder.Cmd -> W -> string * option Builder.error * W)
    (b : Builder.Builder) (ref : string) (st : Builder.State)
    (o1 o2 o3 o4 : string) (e1 e2 e3 e4 : option Builder.error)
    (w1 w2 w3 w4 : W) :
  let fetchTag := Builder.git (Builder.SourceDir b)
                    ["fetch"; "--depth"; "1"; "origin"; "tag"; ref] in
  let fetchRef := Builder.git (Builder.SourceDir b)
                    ["fetch"; "--depth"; "1"; "origin"; ref] in
  let checkout := Builder.git (Builder.SourceDir b)
                    ["checkout"; "FETCH_HEAD"] in
  let clean := Builder.git (Builder.SourceDir b) ["clean"; "-fdx"] in
  let fetches := match e1 with
                 | None => [fetchTag]
                 | Some _ => [fetchTag; fetchRef]
                 end in
  let fetched := match e1 with None => w1 | Some _ => w2 end in
  exec fetchTag (Builder.world st) = (o1, e1, w1) ->
  exec fetchRef w1 = (o2, e2, w2) ->
  exec checkout fetched = (o3, e3, w3) ->
  exec clean w3 = (o4, e4, w4) ->
  Builder.Checkout exec b ref st
  = match e1, e2, e3 with
    | Some _, Some inner, _ =>
        (Some (Builder.ErrFetchingRef ref inner o2),
         {| Builder.world := w2; Builder.ran := Builder.ran st ++ fetches |})
    | _, _, Some inner =>
        (Some (Builder.ErrCheckingOut ref inner o3),
         {| Builder.world := w3;
            Builder.ran := Builder.ran st ++ fetches ++ [checkout] |})
    | _, _, None =>
        (None,
         {| Builder.world := w4;
            Builder.ran := Builder.ran st ++ fetches ++ [checkout; clean] |})
    end
  /\ ((exists inner output,
         fst (Builder.Checkout exec b ref st)
         = Some (Builder.ErrFetchingRef ref inner output))
      <-> e1 <> None /\ e2 <> None)
  /\ ((exists inner output,
         fst (Builder.Checkout exec b ref st)
         = Some (Builder.ErrCheckingOut ref inner output))
      <-> (e1 = None \/ e2 = None) /\ e3 <> None)
  /\ (fst (Builder.Checkout exec b ref st) = None
      <-> (e1 = None \/ e2 = None) /\ e3 = None).
Proof.
  intros fetchTag fetchRef checkout clean fetches fetched H1 H2 H3 H4.
  assert (E : Builder.Checkout exec b ref st
    = match e1, e2, e3 with
      | Some _, Some inner, _ =>
          (Some (Builder.ErrFetchingRef ref inner o2),
           {| Builder.world := w2; Builder.ran := Builder.ran st ++ fetches |})
      | _, _, Some inner =>
          (Some (Builder.ErrCheckingOut ref inner o3),
           {| Builder.world := w3;
              Builder.ran := Builder.ran st ++ fetches ++ [checkout] |})
      | _, _, None =>
          (None,
           {| Builder.world := w4;
              Builder.ran := Builder.ran st ++ fetches ++ [checkout; clean] |})
      end).
  { unfold Builder.Checkout, Builder.bind, Builder.ret, Builder.run.
    fold fetchTag fetchRef checkout clean.
    rewrite H1. subst fetches fetched.
    destruct e1 as [x1|]; cbv beta iota; cbn [Builder.world Builder.ran].
    - rewrite bool_decide_eq_true_2 by discriminate. cbv beta iota; cbn [Builder.world Builder.ran].
      rewrite H2. destruct e2 as [x2|]; cbv beta iota; cbn [Builder.world Builder.ran].
      + by rewrite <- !app_assoc.
      + rewrite H3. destruct e3 as [x3|]; cbv beta iota; cbn [Builder.world Builder.ran].
        * by rewrite <- !app_assoc.
        * rewrite H4. cbv beta iota; cbn [Builder.world Builder.ran]. by rewrite <- !app_assoc.
    - rewrite bool_decide_eq_false_2 by (intros H; by apply H). cbv beta iota; cbn [Builder.world Builder.ran].
      rewrite H3. destruct e3 as [x3|]; cbv beta iota; cbn [Builder.world Builder.ran].
      + by rewrite <- !app_assoc.
      + rewrite H4. cbv beta iota; cbn [Builder.world Builder.ran]. by rewrite <- !app_assoc. }
  split; [exact E|]. rewrite E. clear E H1 H2 H3 H4.
  destruct e1 as [x1|], e2 as [x2|], e3 as [x3|]; cbn [fst];
    (split; [|split]); split.
  all: first
    [ intros (inner & output & H); try congruence;
      (split; [first [congruence | auto] | congruence])
    | intros [[H|H] H']; try congruence;
      first [reflexivity | do 2 eexists; reflexivity]
    | intros [H H']; try congruence; do 2 eexists; reflexivity
    | intros H; try congruence; (split; [auto | reflexivity]) ].
Qed.

Lemma Checkout_outcomes_witness :
  Builder.Checkout Samples2.tagMissing (Samples.builder []) "main"
    (Samples.start [])
  = (None,
     {| Builder.world := [];
        Builder.ran :=
          [Builder.git "/tmp/build/src"
             ["fetch"; "--depth"; "1"; "origin"; "tag"; "main"];
           Builder.git "/tmp/build/src"
             ["fetch"; "--depth"; "1"; "origin"; "main"];
           Builder.git "/tmp/build/src" ["checkout"; "FETCH_HEAD"];
           Builder.git "/tmp/build/src" ["clean"; "-fdx"]] |}).
Proof.
  exact (proj1 (Checkout_outcomes Samples2.tagMissing (Samples.builder [])
                  "main" (Samples.start [])
                  "fatal: couldn't find remote ref refs/tags/main"
                  EmptyString EmptyString EmptyString
                  (Some (Builder.OSError "exit status 128")) None None None
                  [] [] [] [] eq_refl eq_refl eq_refl eq_refl)).
Defined.

Section AllVersions.
Import Builder.
Context {W : Type}.
Variable exec : Cmd -> W -> string * option error * W.
Variable readDir : string -> W -> list string.

(** The entry [BuildAll] keeps for a version: one result per runtime, in
    order, each for that version. *)
Abbreviation entryFor pythonVersions :=
  (fun (version : string) (rs : list BuildResult) =>
     map Python rs = pythonVersions
     /\ Forall (fun r => Version r = version) rs).

Lemma buildVersions_entries b pythonVersions versions : forall acc st,
  let results :=
    fst (buildVersions exec readDir b versions pythonVersions acc st) in
  dom results
  = list_to_set (map Config.VersionOf versions) ∪ dom acc
  /\ (map_Forall (entryFor pythonVersions) acc ->
      map_Forall (entryFor pythonVersions) results).
Proof.
  induction versions as [|v rest IH]; intros acc st; cbn [buildVersions].
  - cbn. split; [by rewrite (left_id_L ∅ (∪)) | auto].
  - unfold bind.
    pose proof (Build_results exec readDir b v pythonVersions st) as Hb.
    destruct (Build exec readDir b v pythonVersions st) as [r st1].
    cbn [fst] in Hb. destruct Hb as [Hmap Hall].
    destruct (IH (<[Config.VersionOf v := r]> acc) st1) as [Hdom Hinv].
    split.
    + rewrite Hdom, dom_insert_L. cbn [map list_to_set].
      rewrite (assoc_L (∪)).
      by rewrite (comm_L (∪) (list_to_set (map Config.VersionOf rest))).
    + intros Hacc. apply Hinv. apply map_Forall_insert_2; [|exact Hacc].
      split; [exact Hmap|]. eapply Forall_impl; [exact Hall|].
      intros x [Hx _]. exact Hx.
Qed.

End AllVersions.

(** X17. The map [BuildAll] returns has exactly the configured version
    strings as keys, and the entry of each version holds one result per
    runtime of the list, in order, each for that version. *)
Theorem BuildAll_entries {W : Type}
    (exec : Builder.Cmd -> W -> string * option Builder.error * W)
    (readDir : string -> W -> list string)
    (b : Builder.Builder) (pythonVersions : list string)
    (st : Builder.State) :
  let results := fst (Builder.BuildAll exec readDir b pythonVersions st) in
  dom results
  = list_to_set (map Config.VersionOf (Config.Versions (Builder.Config b)))
  /\ forall version rs,
       results !! version = Some rs ->
       map Builder.Python rs = pythonVersions
       /\ Forall (fun r => Builder.Version r = version) rs.
Proof.
  intros results. subst results. unfold Builder.BuildAll.
  destruct (buildVersions_entries exec readDir b pythonVersions
              (Config.Versions (Builder.Config b)) ∅ st) as [Hdom Hinv].
  split.
  - rewrite Hdom, dom_empty_L. by rewrite (right_id_L ∅ (∪)).
  - intros version rs Hlook.
    exact (Hinv (map_Forall_empty _) version rs Hlook).
Qed.

(** * Further properties: wheel names and the search for them *)

Section WheelSearch.
Import Strings Python.

Lemma list_of_append s t :
  list_ascii_of_string (s +:+ t)
  = list_ascii_of_string s ++ list_ascii_of_string t.
Proof.
  induction s as [|c s IH]; [reflexivity|].
  rewrite append_cons. cbn. by rewrite IH.
Qed.

Lemma append_assoc' s t u : (s +:+ t) +:+ u = s +:+ (t +:+ u).
Proof.
  induction s as [|c s IH]; [reflexivity|].
  rewrite !append_cons. by rewrite IH.
Qed.

Lemma lacks_append c s t :
  Spec.lacks c (s +:+ t) = Spec.lacks c s && Spec.lacks c t.
Proof.
  induction s as [|d s IH]; [reflexivity|].
  rewrite append_cons. cbn. rewrite IH. by rewrite andb_assoc.
Qed.

Lemma lacks_mapBytes c f s :
  (forall d, Ascii.eqb d c = false -> Ascii.eqb (f d) c = false) ->
  Spec.lacks c s = true -> Spec.lacks c (Spec.mapBytes f s) = true.
Proof.
  intros Hf. induction s as [|d s IH]; [reflexivity|]. cbn.
  intros H. apply andb_true_iff in H as [Hd Hs].
  apply negb_true_iff in Hd. by rewrite (Hf d Hd), IH.
Qed.

Lemma lacks_ReplaceFirst c s :
  Spec.lacks c s = true -> Spec.lacks c (ReplaceFirst s "." "") = true.
Proof.
  induction s as [|d s IH]; [reflexivity|]. cbn.
  intros H. apply andb_true_iff in H as [Hd Hs].
  destruct (Ascii.eqb d "."); [exact Hs|]. cbn. by rewrite Hd, IH.
Qed.

Lemma hasMeta_lacks s :
  Filepath.hasMeta s = false -> Spec.lacks "*" s = true.
Proof.
  induction s as [|d s IH]; [reflexivity|]. cbn.
  intros H. apply orb_false_iff in H as [Hd Hs].
  apply orb_false_iff in Hd as [Hd _]. by rewrite Hd, IH.
Qed.

Lemma lacks_not_Contains c s :
  Spec.lacks c s = true -> Contains s (String c EmptyString) = false.
Proof.
  induction s as [|d s IH]; [reflexivity|]. cbn [Spec.lacks Contains].
  intros H. apply andb_true_iff in H as [Hd Hs].
  apply negb_true_iff in Hd.
  rewrite HasPrefix_cons, IH by assumption.
  rewrite Ascii.eqb_sym, Hd. reflexivity.
Qed.

Lemma HasPrefix_append x b : HasPrefix (x +:+ b) x = true.
Proof.
  induction x as [|c x IH]; [apply HasPrefix_empty|].
  rewrite append_cons, HasPrefix_cons, Ascii.eqb_refl. exact IH.
Qed.

Lemma Contains_append a x b : Contains (a +:+ x +:+ b) x = true.
Proof.
  induction a as [|c a IH].
  - rewrite append_empty. destruct (x +:+ b) eqn:E; cbn [Contains];
      rewrite <- E, HasPrefix_append; reflexivity.
  - rewrite append_cons. cbn [Contains]. rewrite IH. apply orb_true_r.
Qed.

(** The last element of a path made by [Join] is the name joined. *)
Lemma Base_Join dir name :
  Spec.lacks "/" name = true -> Filepath.Base (Filepath.Join dir name) = name.
Proof.
  intros H. unfold Filepath.Join. induction dir as [|c d IH].
  - rewrite append_empty, append_cons, append_empty. cbn [Filepath.Base].
    rewrite (lacks_not_Contains "/" name H). reflexivity.
  - rewrite append_cons. cbn [Filepath.Base].
    rewrite (Contains_append d "/" name). exact IH.
Qed.

Lemma Match_star p n :
  Filepath.Match ("*"%char :: p) n
  = Filepath.Match p n
    || match n with
       | [] => false
       | c :: n' => negb (Ascii.eqb c "/") && Filepath.Match ("*"%char :: p) n'
       end.
Proof. destruct n; reflexivity. Qed.

(** A star takes any run of characters without a separator. *)
Lemma Match_star_run a p n :
  Spec.lacks "/" a = true -> Filepath.Match p n = true ->
  Filepath.Match ("*"%char :: p) (list_ascii_of_string a ++ n) = true.
Proof.
  intros Ha Hm. induction a as [|c a IH].
  - rewrite Match_star. cbn [list_ascii_of_string app]. by rewrite Hm.
  - cbn in Ha. apply andb_true_iff in Ha as [Hc Ha].
    rewrite Match_star. cbn [list_ascii_of_string app].
    rewrite Hc, (IH Ha). apply orb_true_r.
Qed.

(** Literal characters of the pattern take themselves. *)
Lemma Match_literal lit p n :
  Spec.lacks "*" lit = true ->
  Filepath.Match (list_ascii_of_string lit ++ p) (list_ascii_of_string lit ++ n)
  = Filepath.Match p n.
Proof.
  induction lit as [|c lit IH]; [reflexivity|]. cbn [Spec.lacks].
  intros H. apply andb_true_iff in H as [Hc Hl].
  apply negb_true_iff in Hc. cbn [list_ascii_of_string app Filepath.Match].
  rewrite Hc, Ascii.eqb_refl. exact (IH Hl).
Qed.

(** The pattern of a runtime matches every wheel file name of the
    runtime. *)
Lemma tagged_WheelFilename packageName version python platform :
  Spec.lacks "/" packageName = true -> Spec.lacks "/" version = true ->
  Spec.lacks "/" platform = true -> Filepath.plain python = true ->
  Spec.tagged python (WheelFilename packageName version python platform)
  = true.
Proof.
  intros Hp Hv Hplat Hpy. unfold Filepath.plain in Hpy.
  apply andb_true_iff in Hpy as [Hmeta _]. apply negb_true_iff in Hmeta.
  unfold Spec.tagged, Spec.runtimePattern, WheelFilename, PythonABI.
  rewrite normalizedName_ReplaceAll, normalizedVersion_ReplaceAll.
  set (cp := PythonCPVersion python).
  assert (Hcp : Spec.lacks "*" cp = true).
  { unfold cp, PythonCPVersion. rewrite lacks_append.
    rewrite lacks_ReplaceFirst by (by apply hasMeta_lacks). reflexivity. }
  set (nn := Spec.normalizedName packageName).
  set (nv := Spec.normalizedVersion version).
  assert (Hhead : Spec.lacks "/" (nn +:+ "-" +:+ nv) = true).
  { rewrite !lacks_append.
    unfold nn, nv, Spec.normalizedName, Spec.normalizedVersion.
    rewrite !lacks_mapBytes; try assumption; try reflexivity;
      intros d Hd; destruct (Ascii.eqb d "-"), (Ascii.eqb d "."); cbn;
      auto. }
  set (front := nn +:+ "-" +:+ nv) in *.
  set (tag := "-" +:+ cp).
  assert (Htag : Spec.lacks "*" tag = true)
    by (unfold tag; rewrite lacks_append, Hcp; reflexivity).
  replace (nn +:+ "-" +:+ nv +:+ "-" +:+ cp +:+ "-" +:+ cp +:+ "-"
             +:+ platform +:+ ".whl")
    with (front +:+ tag +:+ tag +:+ "-" +:+ platform +:+ ".whl")
    by (unfold front, tag; rewrite (append_assoc' nn); reflexivity).
  replace ("*-" +:+ cp +:+ "-" +:+ cp +:+ "-*.whl")
    with ("*" +:+ tag +:+ tag +:+ "-" +:+ "*" +:+ ".whl")
    by reflexivity.
  clearbody front tag.
  rewrite !list_of_append.
  change (list_ascii_of_string "*") with ["*"%char]. cbn [app].
  apply Match_star_run; [exact Hhead|].
  rewrite (Match_literal tag) by exact Htag.
  rewrite (Match_literal tag) by exact Htag.
  rewrite (Match_literal "-") by reflexivity.
  apply Match_star_run; [exact Hplat|]. reflexivity.
Qed.

(** A path to a wheel file name mentions the version when the version
    holds no hyphen. *)
Lemma mentionsVersion_WheelFilename dir packageName version python platform :
  Spec.lacks "/" packageName = true -> Spec.lacks "/" version = true ->
  Spec.lacks "/" platform = true -> Filepath.plain python = true ->
  Spec.lacks "-" version = true ->
  Builder.mentionsVersion version
    (Filepath.Join dir (WheelFilename packageName version python platform))
  = true.
Proof.
  intros Hp Hv Hplat Hpy Hdash. unfold Builder.mentionsVersion.
  assert (Hnv : ReplaceAll version "-" "_" = version).
  { clear -Hdash. induction version as [|c t IH]; [reflexivity|].
    cbn in *. apply andb_true_iff in Hdash as [Hc Ht].
    apply negb_true_iff in Hc. rewrite Hc. f_equal. exact (IH Ht). }
  assert (Hname : exists a b,
            WheelFilename packageName version python platform
            = a +:+ ("-" +:+ version +:+ "-") +:+ b).
  { unfold WheelFilename. rewrite Hnv.
    exists (ReplaceAll (ReplaceAll packageName "-" "_") "." "_").
    exists (PythonCPVersion python +:+ "-" +:+ PythonABI python +:+ "-"
              +:+ platform +:+ ".whl").
    f_equal. symmetry.
    rewrite (append_assoc' "-" (version +:+ "-")).
    rewrite (append_assoc' version "-"). reflexivity. }
  destruct Hname as (a & rest & Hname).
  rewrite Base_Join.
  - rewrite Hname, Contains_append. reflexivity.
  - unfold WheelFilename, PythonABI, PythonCPVersion.
    rewrite normalizedName_ReplaceAll, normalizedVersion_ReplaceAll.
    unfold Filepath.plain in Hpy. apply andb_true_iff in Hpy as [_ Hsl].
    apply negb_true_iff in Hsl.
    assert (Hpysl : Spec.lacks "/" python = true).
    { clear -Hsl. induction python as [|c t IH]; [reflexivity|].
      cbn [Contains] in Hsl. apply orb_false_iff in Hsl as [Hc Ht].
      rewrite HasPrefix_cons, HasPrefix_empty, andb_true_r in Hc.
      cbn. rewrite Ascii.eqb_sym, Hc. cbn. exact (IH Ht). }
    rewrite !lacks_append, !lacks_ReplaceFirst by assumption.
    unfold Spec.normalizedName, Spec.normalizedVersion.
    rewrite !lacks_mapBytes; [by rewrite Hplat | ..];
      first [assumption
            | intros d Hd; destruct (Ascii.eqb d "-"), (Ascii.eqb d ".");
              cbn; auto].
Qed.

End WheelSearch.

(** X18. [WheelFilename] and [findWheel] agree: when the output directory
    holds the wheel file name of a package, a version without hyphen, a
    runtime and a platform (none of them with a separator, the runtime and
    the path of the output directory free of pattern syntax), [findWheel]
    for that version and runtime succeeds, and the wheel it returns carries
    the runtime tag and mentions the version. *)
Theorem wheel_name_is_found {W : Type}
    (readDir : string -> W -> list string)
    (b : Builder.Builder) (st : Builder.State)
    (packageName version python platform : string) :
  Spec.lacks "/" packageName = true ->
  Spec.lacks "/" version = true ->
  Spec.lacks "-" version = true ->
  Spec.lacks "/" platform = true ->
  Filepath.plain python = true ->
  Filepath.hasMeta (Builder.DistDir b) = false ->
  Python.WheelFilename packageName version python platform
    ∈ readDir (Builder.DistDir b) (Builder.world st) ->
  exists m,
    Builder.findWheel readDir b version python st = ((m, None), st)
    /\ m ∈ Spec.candidates readDir b python (Builder.world st)
    /\ Builder.mentionsVersion version m = true.
Proof.
  intros Hp Hv Hdash Hplat Hpy _ Hin.
  set (name := Python.WheelFilename packageName version python platform).
  assert (Hcand : Filepath.Join (Builder.DistDir b) name
                  ∈ Spec.candidates readDir b python (Builder.world st)).
  { apply candidates_elem. exists name. split; [reflexivity|].
    split; [exact Hin|]. by apply tagged_WheelFilename. }
  destruct (findWheel_cases readDir b version python st)
    as [[Hnone _] | (m & Hm & Hpref & Hfw)].
  - rewrite Hnone in Hcand. by apply not_elem_of_nil in Hcand.
  - exists m. split; [exact Hfw|]. split; [exact Hm|].
    apply (Hpref _ Hcand). by apply mentionsVersion_WheelFilename.
Qed.

Lemma wheel_name_is_found_witness :
  exists m,
    Builder.findWheel Samples.listing (Samples.builder []) "6.0" "3.10"
      (Samples.start
         ["other-9.9-cp310-cp310-linux_aarch64.whl";
          "zope_interface-6.0-cp310-cp310-linux_aarch64.whl"])
    = ((m, None),
       Samples.start
         ["other-9.9-cp310-cp310-linux_aarch64.whl";
          "zope_interface-6.0-cp310-cp310-linux_aarch64.whl"])
    /\ Builder.mentionsVersion "6.0" m = true.
Proof.
  destruct (wheel_name_is_found Samples.listing (Samples.builder [])
              (Samples.start
                 ["other-9.9-cp310-cp310-linux_aarch64.whl";
                  "zope_interface-6.0-cp310-cp310-linux_aarch64.whl"])
              "zope.interface" "6.0" "3.10" "linux_aarch64"
              eq_refl eq_refl eq_refl eq_refl eq_refl eq_refl)
    as (m & Hfw & _ & Hm).
  - apply list_elem_of_In. right. left. vm_compute. reflexivity.
  - exists m. split; assumption.
Defined.

(** * Build attempts: the artifact an attempt reports *)

Section Selection.
Import Strings Builder.
Context {W : Type}.
Variable exec : Cmd -> W -> string * option error * W.
Variable readDir : string -> W -> list string.

Lemma HasPrefix_split p : forall s,
  HasPrefix s p = true -> exists b, s = p +:+ b.
Proof.
  induction p as [|d p IH]; intros s H.
  - exists s. reflexivity.
  - destruct s as [|c s]; [discriminate H|].
    rewrite HasPrefix_cons in H. apply andb_true_iff in H as [Hc Hp].
    apply Ascii.eqb_eq in Hc as ->. destruct (IH s Hp) as [b ->].
    exists b. reflexivity.
Qed.

(** [strings.Contains] finds the substring wherever it stands. *)
Lemma Contains_split s x :
  Contains s x = true <-> exists a b, s = a +:+ x +:+ b.
Proof.
  split.
  - induction s as [|c s IH]; cbn [Contains]; intros H.
    + rewrite orb_false_r in H. destruct (HasPrefix_split x _ H) as [b Hb].
      exists EmptyString, b. exact Hb.
    + apply orb_true_iff in H as [H|H].
      * destruct (HasPrefix_split x _ H) as [b Hb].
        exists EmptyString, b. exact Hb.
      * destruct (IH H) as (a & b & ->). exists (String c a), b. reflexivity.
  - intros (a & b & ->). apply Contains_append.
Qed.

Lemma dotsToUnderscores_ReplaceAll version :
  ReplaceAll version "." "_" = Spec.dotsToUnderscores version.
Proof.
  induction version as [|c t IH]; [reflexivity|].
  cbn [ReplaceAll Spec.dotsToUnderscores Spec.mapBytes].
  fold (Spec.dotsToUnderscores t). rewrite IH.
  destruct (Ascii.eqb c "."); reflexivity.
Qed.

Lemma hyphenated a v b :
  a +:+ ("-" +:+ v +:+ "-") +:+ b = a +:+ "-" +:+ v +:+ "-" +:+ b.
Proof.
  f_equal. rewrite (append_assoc' "-" (v +:+ "-") b).
  rewrite (append_assoc' v "-" b). reflexivity.
Qed.

(** The test of the loop, on the path of a directory entry, holds exactly
    when the name of the entry contains the version. *)
Lemma mentionsVersion_containsVersion dir version name :
  Spec.lacks "/" name = true ->
  mentionsVersion version (Filepath.Join dir name) = true
  <-> Spec.containsVersion version name.
Proof.
  intros Hname. unfold mentionsVersion, Spec.containsVersion.
  rewrite (Base_Join dir name Hname), orb_true_iff, !Contains_split.
  rewrite dotsToUnderscores_ReplaceAll.
  split.
  - intros [(a & b & H) | (a & b & H)]; exists a, b;
      rewrite hyphenated in H; auto.
  - intros (a & b & [H|H]); [left | right]; exists a, b;
      rewrite hyphenated; exact H.
Qed.

Lemma find_map {A B : Type} (f : B -> bool) (g : A -> B) l :
  List.find f (map g l) = option_map g (List.find (fun x => f (g x)) l).
Proof.
  induction l as [|x l IH]; [reflexivity|]. cbn.
  destruct (f (g x)); [reflexivity | exact IH].
Qed.

Lemma find_first {A : Type} (f : A -> bool) pre x post :
  Forall (fun y => f y = false) pre -> f x = true ->
  List.find f (pre ++ x :: post) = Some x.
Proof.
  intros Hpre Hx. induction Hpre as [|y pre Hy _ IH]; cbn.
  - by rewrite Hx.
  - by rewrite Hy.
Qed.

Lemma find_nowhere {A : Type} (f : A -> bool) l :
  Forall (fun y => f y = false) l -> List.find f l = None.
Proof.
  intros H. induction H as [|y l Hy _ IH]; [reflexivity|]. cbn.
  by rewrite Hy.
Qed.

Abbreviation found := (Spec.taggedEntries readDir).

(** The choice of [findWheel] among the tagged entries: the first whose
    path passes the test of the loop, else the first. *)
Lemma findWheel_entries b version python st :
  findWheel readDir b version python st
  = (match List.find
             (fun n => mentionsVersion version (Filepath.Join (DistDir b) n))
             (found b python (world st)) with
     | Some n => (Filepath.Join (DistDir b) n, None)
     | None =>
         match found b python (world st) with
         | n :: _ => (Filepath.Join (DistDir b) n, None)
         | [] => (EmptyString, Some (ErrNoWheel python))
         end
     end, st).
Proof.
  unfold findWheel, bind, Glob, ret.
  fold (Spec.runtimePattern python).
  change (filter _ (readDir (DistDir b) (world st)))
    with (found b python (world st)).
  rewrite find_map.
  destruct (List.find _ (found b python (world st))) as [n|];
    [reflexivity|].
  destruct (found b python (world st)); reflexivity.
Qed.

Lemma found_elem b python w name :
  name ∈ found b python w
  <-> name ∈ readDir (DistDir b) w /\ Spec.tagged python name = true.
Proof.
  unfold Spec.taggedEntries. rewrite list_elem_of_filter. tauto.
Qed.

(** The result of an attempt whose command exited zero. *)
Lemma buildForPython_found b version python cfg st out w :
  exec (buildCommand b python cfg) (world st) = (out, None, w) ->
  fst (buildForPython exec readDir b version python cfg st)
  = match List.find
            (fun n => mentionsVersion version (Filepath.Join (DistDir b) n))
            (found b python w) with
    | Some n =>
        {| Version := version; Python := python;
           WheelPath := Filepath.Join (DistDir b) n; Success := true;
           Log := out; Err := None |}
    | None =>
        match found b python w with
        | n :: _ =>
            {| Version := version; Python := python;
               WheelPath := Filepath.Join (DistDir b) n; Success := true;
               Log := out; Err := None |}
        | [] =>
            {| Version := version; Python := python;
               WheelPath := EmptyString; Success := false;
               Log := out +:+ newline +:+ Error (ErrNoWheel python);
               Err := Some (ErrNoWheel python) |}
        end
    end.
Proof.
  intros Hexec. unfold buildForPython, bind, run. rewrite Hexec.
  cbv beta iota. rewrite findWheel_entries. cbn [world].
  destruct (List.find _ (found b python w)) as [n|]; [reflexivity|].
  destruct (found b python w); reflexivity.
Qed.

End Selection.

(** C4 (as the code has it). When the build command of a version and a
    runtime exits zero, the attempt succeeds exactly when the output
    directory holds an entry matching [*-{tag}-{tag}-*.whl] for the
    runtime's tag.  The wheel reported is then the first tagged entry, in
    the order of the listing, whose name contains the version (as
    [-{version}-], or with the dots of the version replaced by
    underscores), and the first tagged entry when no tagged entry contains
    the version; the package name is not looked at.  When no entry carries
    the tag, the result has [Success = false], no wheel and the error "no
    wheel found".  The runtime identifier and the path of the output
    directory are free of pattern syntax, and the names of the directory
    entries hold no separator. *)
Theorem artifact_located_by_runtime_tag {W : Type}
    (exec : Builder.Cmd -> W -> string * option Builder.error * W)
    (readDir : string -> W -> list string)
    (b : Builder.Builder) (version python : string)
    (cfg : Builder.effectiveConfig) (st : Builder.State) (out : string)
    (w : W) :
  Filepath.plain python = true ->
  Filepath.hasMeta (Builder.DistDir b) = false ->
  Forall (fun n => Spec.lacks "/" n = true) (readDir (Builder.DistDir b) w) ->
  exec (Builder.buildCommand b python cfg) (Builder.world st)
    = (out, None, w) ->
  let r := fst (Builder.buildForPython exec readDir b version python cfg st) in
  let found := Spec.taggedEntries readDir b python w in
  (Builder.Success r = true <->
     exists name, name ∈ readDir (Builder.DistDir b) w
                  /\ Spec.tagged python name = true)
  /\ (Builder.Success r = true ->
        exists name, name ∈ readDir (Builder.DistDir b) w
                     /\ Spec.tagged python name = true
                     /\ Builder.WheelPath r
                        = Filepath.Join (Builder.DistDir b) name)
  /\ (forall name,
        Spec.firstWith (Spec.containsVersion version) found name ->
        Builder.Success r = true
        /\ Builder.WheelPath r = Filepath.Join (Builder.DistDir b) name)
  /\ (Forall (fun n => ~ Spec.containsVersion version n) found ->
      forall name rest, found = name :: rest ->
        Builder.Success r = true
        /\ Builder.WheelPath r = Filepath.Join (Builder.DistDir b) name)
  /\ ((forall name, name ∈ readDir (Builder.DistDir b) w ->
                    Spec.tagged python name = false) ->
      Builder.Success r = false
      /\ Builder.WheelPath r = EmptyString
      /\ Builder.Err r = Some (Builder.ErrNoWheel python)).
Proof.
  intros _ _ Hnames Hexec r found. subst r.
  rewrite (buildForPython_found exec readDir b version python cfg st out w
             Hexec).
  fold found.
  assert (Hslash : Forall (fun n => Spec.lacks "/" n = true) found).
  { apply Forall_forall. intros n Hn. apply found_elem in Hn as [Hn _].
    revert n Hn. by apply Forall_forall. }
  set (f := fun n => Builder.mentionsVersion version
                       (Filepath.Join (Builder.DistDir b) n)).
  assert (Hf : forall n, n ∈ found ->
                 (f n = true <-> Spec.containsVersion version n)).
  { intros n Hn. apply mentionsVersion_containsVersion.
    revert n Hn. by apply Forall_forall. }
  assert (Hno : Forall (fun n => ~ Spec.containsVersion version n) found ->
                List.find f found = None).
  { intros Hall. apply find_nowhere. apply Forall_forall. intros n Hn.
    destruct (f n) eqn:E; [|reflexivity].
    exfalso. apply (proj1 (Forall_forall _ _) Hall n Hn). by apply Hf. }
  assert (Hfirst : forall name,
            Spec.firstWith (Spec.containsVersion version) found name ->
            List.find f found = Some name).
  { intros name (pre & post & Heq & Hpre & Hname).
    assert (Hin : forall y, y ∈ pre ++ name :: post -> y ∈ found)
      by (intros y Hy; by rewrite Heq).
    rewrite Heq. apply find_first.
    - apply Forall_forall. intros y Hy.
      destruct (f y) eqn:E; [|reflexivity]. exfalso.
      apply (proj1 (Forall_forall _ _) Hpre y Hy). apply Hf; [|exact E].
      apply Hin. apply elem_of_app. by left.
    - apply Hf; [|exact Hname].
      apply Hin. apply elem_of_app. right. apply list_elem_of_here. }
  assert (Htagged : forall n, n ∈ found ->
            n ∈ readDir (Builder.DistDir b) w
            /\ Spec.tagged python n = true)
    by (intros n Hn; by apply found_elem).
  split; [|split; [|split; [|split]]].
  - destruct (List.find f found) as [n|] eqn:Hfind;
      [|destruct found as [|n rest] eqn:Hfound];
      cbn [Builder.Success]; (split; [intros H | intros H]);
      try reflexivity; try discriminate H.
    + exists n. apply Htagged. apply list_elem_of_In.
      by apply find_some in Hfind as [? _].
    + destruct H as (name & Hname & Htag).
      assert (Hin : name ∈ found) by (apply found_elem; by split).
      rewrite Hfound in Hin. by apply not_elem_of_nil in Hin.
    + exists n. apply Htagged. apply list_elem_of_here.
  - destruct (List.find f found) as [n|] eqn:Hfind;
      [|destruct found as [|n rest] eqn:Hfound];
      cbn [Builder.Success Builder.WheelPath]; intros H;
      try discriminate H.
    + exists n. apply find_some in Hfind as [Hin _].
      apply list_elem_of_In, Htagged in Hin as [? ?]. auto.
    + exists n. destruct (Htagged n (list_elem_of_here _ _)) as [? ?]. auto.
  - intros name Hname. rewrite (Hfirst name Hname). split; reflexivity.
  - intros Hall name rest Heq. rewrite (Hno Hall), Heq. split; reflexivity.
  - intros Hnone. assert (Hempty : found = []).
    { destruct found as [|n rest] eqn:Hfound; [reflexivity|]. exfalso.
      destruct (Htagged n (list_elem_of_here _ _)) as [Hn Ht].
      rewrite (Hnone n Hn) in Ht. discriminate. }
    rewrite Hempty. cbn. auto.
Qed.

Lemma artifact_located_by_runtime_tag_witness :
  Spec.taggedEntries Samples.listing (Samples.builder []) "3.12"
    Samples2.mixedDist
  = ["other-9.9-cp312-cp312-linux_aarch64.whl";
     "testpkg-1.0.0-cp312-cp312-linux_aarch64.whl";
     "zlib-1.0.0-cp312-cp312-linux_aarch64.whl"]
  /\ Builder.Success (Samples.attempt Samples2.mixedDist "1.0.0" "3.12") = true
  /\ Builder.WheelPath (Samples.attempt Samples2.mixedDist "1.0.0" "3.12")
     = Filepath.Join "/tmp/build/dist"
         "testpkg-1.0.0-cp312-cp312-linux_aarch64.whl".
Proof.
  split; [vm_compute; reflexivity|].
  refine (proj1 (proj2 (proj2 (artifact_located_by_runtime_tag
            Samples.quietExec Samples.listing (Samples.builder [])
            "1.0.0" "3.12"
            (Builder.getEffectiveConfig (Samples.builder []) "1.0.0")
            (Samples.start Samples2.mixedDist)
            EmptyString Samples2.mixedDist
            eq_refl eq_refl _ eq_refl)))
          "testpkg-1.0.0-cp312-cp312-linux_aarch64.whl" _).
  - repeat (apply List.Forall_cons; [vm_compute; reflexivity|]).
    apply List.Forall_nil.
  - exists ["other-9.9-cp312-cp312-linux_aarch64.whl"],
           ["zlib-1.0.0-cp312-cp312-linux_aarch64.whl"].
    split; [vm_compute; reflexivity|]. split.
    + apply List.Forall_cons; [|apply List.Forall_nil].
      intros H.
      apply (mentionsVersion_containsVersion "/tmp/build/dist") in H;
        [|reflexivity].
      vm_compute in H. discriminate H.
    + exists "testpkg", "cp312-cp312-linux_aarch64.whl". left. reflexivity.
Defined.

(** C4, as stated, fails: with a zero exit and an output directory that
    holds only a wheel of another package and another version carrying the
    runtime's tag, the attempt is reported successful with that wheel,
    though no entry encodes the expected package name and version. *)
Lemma success_without_expected_artifact :
  Builder.Success (Samples.attempt Samples.strayDist "1.0.0" "3.12") = true
  /\ Builder.WheelPath (Samples.attempt Samples.strayDist "1.0.0" "3.12")
     = "/tmp/build/dist/other-9.9-cp312-cp312-linux_aarch64.whl"
  /\ forall name,
       name ∈ Samples.listing "/tmp/build/dist" Samples.strayDist ->
       ~ Spec.encodesArtifact "testpkg" "1.0.0" "3.12" name.
Proof.
  split; [vm_compute; reflexivity|].
  split; [vm_compute; reflexivity|].
  intros name Hname. apply list_elem_of_singleton in Hname. subst name.
  intros [platform Heq]. vm_compute in Heq. discriminate.
Qed.

(** * Further properties: the environment of a build command *)

Section Environment.
Import Strings BuildEnv.

Lemma beforeLastSeparator_lacks s :
  Spec.lacks "/" s = true -> Filepath.beforeLastSeparator s = None.
Proof.
  induction s as [|c s IH]; [reflexivity|]. cbn.
  intros H. apply andb_true_iff in H as [Hc Hs].
  apply negb_true_iff in Hc. by rewrite (IH Hs), Hc.
Qed.

(** The interpreter of every runtime lies in [/usr/bin]. *)
Lemma pythonDir python :
  Spec.lacks "/" python = true ->
  Filepath.Dir (Python.PythonBinary python) = "/usr/bin".
Proof.
  intros H. unfold Python.PythonBinary, Filepath.Dir.
  repeat rewrite append_cons. rewrite append_empty.
  cbn [Filepath.beforeLastSeparator].
  rewrite (beforeLastSeparator_lacks python H). reflexivity.
Qed.

Lemma prependPath_first dir pre e post :
  Forall (fun x => HasPrefix x "PATH=" = false) pre ->
  HasPrefix e "PATH=" = true ->
  prependPath dir (pre ++ e :: post)
  = pre ++ ("PATH=" +:+ dir +:+ ":" +:+ dropBytes 5 e) :: post.
Proof.
  intros Hpre He. induction Hpre as [|x pre Hx _ IH]; cbn [app prependPath].
  - by rewrite He.
  - by rewrite Hx, IH.
Qed.

End Environment.

(** X19. When the ambient environment has a [PATH] entry, [buildEnv]
    returns the ambient entries in their order, with the first [PATH]
    entry rewritten to start with the interpreter directory [/usr/bin]
    followed by a colon and the old search path, and behind them one
    [name=value] entry per configured variable in the order the map was
    visited; no ambient entry is dropped or replaced. *)
Theorem buildEnv_prepends_interpreter_dir
    (environ pre post : list string) (e python : string)
    (entries : list (string * string)) :
  Spec.lacks "/" python = true ->
  environ = pre ++ e :: post ->
  Forall (fun x => Strings.HasPrefix x "PATH=" = false) pre ->
  Strings.HasPrefix e "PATH=" = true ->
  BuildEnv.buildEnv environ entries python
  = pre ++ ("PATH=/usr/bin:" +:+ Strings.dropBytes 5 e) :: post
    ++ map (fun '(k, v) => k +:+ "=" +:+ v) entries.
Proof.
  intros Hpy -> Hpre He. unfold BuildEnv.buildEnv.
  rewrite (pythonDir python Hpy), <- app_assoc. cbn [app].
  rewrite (prependPath_first "/usr/bin" pre e _ Hpre He). reflexivity.
Qed.

Lemma buildEnv_prepends_interpreter_dir_witness :
  BuildEnv.buildEnv ["HOME=/root"; "PATH=/usr/local/bin:/bin"; "LANG=C"]
    [("FOO", "bar"); ("PATH", "/opt")] "3.12"
  = ["HOME=/root"; "PATH=/usr/bin:/usr/local/bin:/bin"; "LANG=C";
     "FOO=bar"; "PATH=/opt"].
Proof.
  refine (buildEnv_prepends_interpreter_dir
            ["HOME=/root"; "PATH=/usr/local/bin:/bin"; "LANG=C"]
            ["HOME=/root"] ["LANG=C"] "PATH=/usr/local/bin:/bin" "3.12"
            [("FOO", "bar"); ("PATH", "/opt")] eq_refl eq_refl _ eq_refl).
  constructor; [vm_compute; reflexivity | constructor].
Defined.

(** * Further properties: documents on disk *)

Section Documents.
Import Config Parse.

Lemma SaveSkips_files (Marshal : Skips -> string * option error)
    fs skips path :
  let fs' := snd (SaveSkips Marshal fs skips path) in
  faulty fs' = faulty fs
  /\ (files fs' = files fs \/ files fs' = delete path (files fs)
      \/ exists data, files fs' = <[path := data]> (files fs)).
Proof.
  unfold SaveSkips, Remove, MkdirAll, WriteFile.
  destruct (length (SkipList skips) =? 0)%nat.
  - case_bool_decide; cbn; [auto|].
    destruct (files fs !! path); cbn; auto.
  - destruct (Marshal skips) as [data [e|]]; cbn; [auto|].
    repeat case_bool_decide; cbn; eauto.
Qed.

End Documents.

(** X20. Saving a skip list and loading the path again gives the saved
    list back, also for the empty list, which is saved by removing the
    file: on a file system without faults at the path and its directory,
    and with a YAML library that reads back what it wrote. *)
Theorem skips_round_trip
    (Marshal : Config.Skips -> string * option Parse.error)
    (Unmarshal : string -> Config.Skips * option Parse.error)
    (fs : Parse.FS) (skips : Config.Skips) (path : string) :
  path ∉ Parse.faulty fs ->
  Filepath.Dir path ∉ Parse.faulty fs ->
  snd (Marshal skips) = None ->
  Unmarshal (fst (Marshal skips)) = (skips, None) ->
  fst (Parse.SaveSkips Marshal fs skips path) = None
  /\ Parse.LoadSkips Unmarshal
       (snd (Parse.SaveSkips Marshal fs skips path)) path
     = (Some skips, None).
Proof.
  intros Hok Hdir Hm Hu.
  destruct (Marshal skips) as [data err] eqn:HM. cbn in Hm, Hu. subst err.
  destruct skips as [l]. destruct l as [|s l].
  - destruct (SaveSkips_empty Marshal fs {| Config.SkipList := [] |} path
                Hok eq_refl) as (fs' & Hsave & Hfiles & Hfaulty).
    rewrite Hsave. cbn [fst snd]. split; [reflexivity|].
    apply LoadSkips_absent.
    + by rewrite Hfaulty.
    + rewrite Hfiles. apply lookup_delete_eq.
  - destruct (SaveSkips_nonempty Marshal fs
                {| Config.SkipList := s :: l |} path data Hok Hdir
                ltac:(discriminate) HM) as (fs' & Hsave & Hfiles & Hfaulty).
    rewrite Hsave. cbn [fst snd]. split; [reflexivity|].
    unfold Parse.LoadSkips, Parse.ReadFile.
    rewrite bool_decide_eq_false_2 by (by rewrite Hfaulty).
    rewrite Hfiles, lookup_insert_eq, Hu. reflexivity.
Qed.

Lemma skips_round_trip_witness :
  Parse.LoadSkips Samples2.unmarshalSkips
    (snd (Parse.SaveSkips Samples.marshal Samples.emptyFS
            {| Config.SkipList := [Samples.skip] |}
            "packages/numpy/skips.yaml"))
    "packages/numpy/skips.yaml"
  = (Some {| Config.SkipList := [Samples.skip] |}, None).
Proof.
  exact (proj2 (skips_round_trip Samples.marshal Samples2.unmarshalSkips
                  Samples.emptyFS {| Config.SkipList := [Samples.skip] |}
                  "packages/numpy/skips.yaml"
                  (not_elem_of_empty _) (not_elem_of_empty _)
                  eq_refl eq_refl)).
Defined.

(** X21. Whatever happens, [SaveSkips] touches no file but the one at its
    path: every other path holds after the call what it held before. *)
Theorem SaveSkips_touches_one_path
    (Marshal : Config.Skips -> string * option Parse.error)
    (fs : Parse.FS) (skips : Config.Skips) (path p : string) :
  p <> path ->
  Parse.files (snd (Parse.SaveSkips Marshal fs skips path)) !! p
  = Parse.files fs !! p.
Proof.
  intros Hp.
  destruct (SaveSkips_files Marshal fs skips path)
    as [_ [-> | [-> | [data ->]]]].
  - reflexivity.
  - by apply lookup_delete_ne.
  - by apply lookup_insert_ne.
Qed.

Lemma SaveSkips_touches_one_path_witness :
  Parse.files
    (snd (Parse.SaveSkips Samples.marshal Samples.emptyFS
            {| Config.SkipList := [Samples.skip] |}
            "packages/numpy/skips.yaml"))
    !! "packages/numpy/config.yaml"
  = Parse.files Samples.emptyFS !! "packages/numpy/config.yaml".
Proof.
  apply (SaveSkips_touches_one_path Samples.marshal Samples.emptyFS
           {| Config.SkipList := [Samples.skip] |}
           "packages/numpy/skips.yaml" "packages/numpy/config.yaml").
  discriminate.
Defined.

(** X22. [LoadConfig] succeeds only for a file that exists and parses,
    and the configuration it returns is the parsed one with a version
    count of zero replaced by the default of 10: a loaded configuration
    never has the version count zero.  Unlike a skip document, an absent
    configuration file is an error. *)
Theorem LoadConfig_defaults
    (Unmarshal : string -> Config.Config * option Parse.error)
    (fs : Parse.FS) (path : string) (cfg : Config.Config) :
  ParseConfig.LoadConfig Unmarshal fs path = (Some cfg, None) ->
  (exists data parsed,
     Parse.files fs !! path = Some data
     /\ Unmarshal data = (parsed, None)
     /\ cfg = (if Config.VersionCount parsed =? 0
               then ParseConfig.setVersionCount parsed 10 else parsed))
  /\ Config.VersionCount cfg <> 0.
Proof.
  unfold ParseConfig.LoadConfig, Parse.ReadFile.
  case_bool_decide; [discriminate|].
  destruct (Parse.files fs !! path) as [data|]; [|discriminate].
  destruct (Unmarshal data) as [parsed [e|]] eqn:HU; [discriminate|].
  intros [= <-]. split; [eauto|].
  destruct (Z.eqb_spec (Config.VersionCount parsed) 0); [discriminate | auto].
Qed.

Lemma LoadConfig_defaults_witness :
  Config.VersionCount
    {| Config.Repo := "https://github.com/test/pkg";
       Config.VersionCount := 10; Config.Versions := [Samples.v100];
       Config.SystemDeps := []; Config.Env := ∅; Config.Patches := [];
       Config.Script := ""; Config.Overrides := [] |} <> 0.
Proof.
  exact (proj2 (LoadConfig_defaults Samples2.unmarshalConfig
                  {| Parse.files :=
                       {[ "packages/p/config.yaml"
                          := "https://github.com/test/pkg" ]};
                     Parse.faulty := ∅ |}
                  "packages/p/config.yaml" _ eq_refl)).
Defined.

(** X23. Saving a configuration and loading the path again gives the
    saved configuration back, except that a version count of zero comes
    back as 10: on a file system without faults at the path and its
    directory, and with a YAML library that reads back what it wrote. *)
Theorem config_round_trip
    (Marshal : Config.Config -> string * option Parse.error)
    (Unmarshal : string -> Config.Config * option Parse.error)
    (fs : Parse.FS) (cfg : Config.Config) (path : string) :
  path ∉ Parse.faulty fs ->
  Filepath.Dir path ∉ Parse.faulty fs ->
  snd (Marshal cfg) = None ->
  Unmarshal (fst (Marshal cfg)) = (cfg, None) ->
  fst (ParseConfig.SaveConfig Marshal fs cfg path) = None
  /\ ParseConfig.LoadConfig Unmarshal
       (snd (ParseConfig.SaveConfig Marshal fs cfg path)) path
     = (Some (if Config.VersionCount cfg =? 0
              then ParseConfig.setVersionCount cfg 10 else cfg), None)
  /\ (Config.VersionCount cfg <> 0 ->
      ParseConfig.LoadConfig Unmarshal
        (snd (ParseConfig.SaveConfig Marshal fs cfg path)) path
      = (Some cfg, None)).
Proof.
  intros Hok Hdir Hm Hu.
  destruct (Marshal cfg) as [data err] eqn:HM. cbn in Hm, Hu. subst err.
  unfold ParseConfig.SaveConfig, Parse.MkdirAll, Parse.WriteFile.
  rewrite HM, !bool_decide_eq_false_2 by assumption. cbn [fst snd].
  split; [reflexivity|].
  unfold ParseConfig.LoadConfig, Parse.ReadFile. cbn [Parse.faulty Parse.files].
  rewrite bool_decide_eq_false_2 by assumption.
  rewrite lookup_insert_eq, Hu.
  split; [reflexivity|]. intros Hnz.
  destruct (Z.eqb_spec (Config.VersionCount cfg) 0); [contradiction|].
  reflexivity.
Qed.

Lemma config_round_trip_witness :
  ParseConfig.LoadConfig Samples2.unmarshalConfig
    (snd (ParseConfig.SaveConfig Samples2.marshalConfig Samples.emptyFS
            (Samples2.plainConfig 0) "packages/p/config.yaml"))
    "packages/p/config.yaml"
  = (Some (Samples2.plainConfig 10), None).
Proof.
  exact (proj1 (proj2 (config_round_trip Samples2.marshalConfig
                         Samples2.unmarshalConfig Samples.emptyFS
                         (Samples2.plainConfig 0) "packages/p/config.yaml"
                         (not_elem_of_empty _) (not_elem_of_empty _)
                         eq_refl eq_refl))).
Defined.
